(** * Jmeter-Starter: a shallow embedding of [run.go]

    The program is an interactive wrapper around the [jmeter] binary.  Every
    function of [run.go] is embedded below as a term of a small program
    monad whose nodes are the calls the Go code makes to the operating
    system (clock, file system, terminal, child process).  The pure helpers
    the code takes from the Go standard library ([strings], [strconv],
    [path/filepath], [time] formatting, [fmt] verbs, [encoding/json]) are
    embedded as Rocq functions on byte strings.

    Conventions: a Go [string] is a [string] (a sequence of bytes), a Go
    [int] is a [Z] within the 64-bit range, a [float64] is a [spec_float]
    of precision 53, the path separator is the slash. *)

From Stdlib Require Import ZArith String Ascii List Lia Bool.
From Stdlib Require Import Floats.SpecFloat.
From stdpp Require Import gmap strings list.

Local Open Scope Z_scope.

(* ===================================================================== *)
(** ** Byte strings                                                       *)
(* ===================================================================== *)

Module GoString.

(** A string given by its byte codes (for bytes that are not printable). *)
Definition bytes (codes : list nat) : string :=
  fold_right (fun c s => String (ascii_of_nat c) s) EmptyString codes.

Definition nl : string := bytes [10%nat].
Definition dquote : string := bytes [34%nat].

Fixpoint HasPrefix (s prefix : string) : bool :=
  match prefix, s with
  | EmptyString, _ => true
  | String p prefix', String c s' => Ascii.eqb c p && HasPrefix s' prefix'
  | String _ _, EmptyString => false
  end.

(** [strings.HasSuffix]:
    [len(s) >= len(suffix) && s[len(s)-len(suffix):] == suffix]. *)
Definition HasSuffix (s suffix : string) : bool :=
  (String.length suffix <=? String.length s)%nat &&
  String.eqb
    (substring (String.length s - String.length suffix)
               (String.length suffix) s)
    suffix.

Fixpoint drop (n : nat) (s : string) : string :=
  match n, s with
  | O, _ => s
  | S n', String _ s' => drop n' s'
  | S _, EmptyString => EmptyString
  end.

(** The UTF-8 encodings of the code points with the White_Space
    property, the ones [unicode.IsSpace] accepts: U+0009..U+000D, U+0020,
    U+0085, U+00A0, U+1680, U+2000..U+200A, U+2028, U+2029, U+202F,
    U+205F, U+3000. *)
Definition space_encodings : list string :=
  map bytes
    ([[9]; [10]; [11]; [12]; [13]; [32]; [194; 133]; [194; 160];
      [225; 154; 128]] ++
     map (fun b => [226; 128; b]) (seq 128 11) ++
     [[226; 128; 168]; [226; 128; 169]; [226; 128; 175];
      [226; 129; 159]; [227; 128; 128]])%nat.

(** The length of the white-space rune [s] starts with, if any. *)
Definition leading_space (s : string) : option nat :=
  String.length <$> List.find (fun enc => HasPrefix s enc) space_encodings.

Fixpoint trim_left (fuel : nat) (s : string) : string :=
  match fuel with
  | O => s
  | S fuel' =>
      match leading_space s with
      | Some n => trim_left fuel' (drop n s)
      | None => s
      end
  end.

(** The same from the right end: the last rune is a white-space rune
    exactly when the bytes end with its encoding. *)
Definition trailing_space (s : string) : option nat :=
  String.length <$> List.find (fun enc => HasSuffix s enc) space_encodings.

Fixpoint trim_right (fuel : nat) (s : string) : string :=
  match fuel with
  | O => s
  | S fuel' =>
      match trailing_space s with
      | Some n => trim_right fuel' (substring 0 (String.length s - n) s)
      | None => s
      end
  end.

(** [strings.TrimSpace]. *)
Definition TrimSpace (s : string) : string :=
  let l := trim_left (String.length s) s in
  trim_right (String.length l) l.

(** [strings.Join]. *)
Fixpoint Join (elems : list string) (sep : string) : string :=
  match elems with
  | [] => EmptyString
  | [e] => e
  | e :: rest => e +:+ sep +:+ Join rest sep
  end.

(** [strings.Split(s, sep)] for a one-byte separator. *)
Fixpoint Split (s : string) (sep : ascii) : list string :=
  match s with
  | EmptyString => [EmptyString]
  | String c s' =>
      if Ascii.eqb c sep then EmptyString :: Split s' sep
      else match Split s' sep with
           | e :: rest => String c e :: rest
           | [] => [String c EmptyString]
           end
  end.

Fixpoint contains_byte (c : ascii) (s : string) : bool :=
  match s with
  | EmptyString => false
  | String d s' => Ascii.eqb d c || contains_byte c s'
  end.

End GoString.
Import GoString.

(* ===================================================================== *)
(** ** Errors                                                             *)
(* ===================================================================== *)

(** The error values the program meets.  The program never inspects an
    error beyond [os.IsNotExist] and printing it with [%v]. *)
Inductive error : Type :=
| OSError (text : string) (not_exist : bool)
    (** returned by the operating system: its text and whether it says that
        the file does not exist *)
| NumError (func num : string) (out_of_range : bool)
    (** [strconv.NumError] with [ErrSyntax] or [ErrRange] *)
| SyntaxError
    (** [json.SyntaxError]: the bytes are not a JSON text *)
| UnmarshalTypeError (value : string) (field : string)
    (** [json.UnmarshalTypeError]: a JSON value that does not fit the Go
        field it is stored into *)
| XMLError (text : string).
    (** returned by the XML reader *)

(** [os.IsNotExist]; false for [nil] and for every other error. *)
Definition IsNotExist (err : option error) : bool :=
  match err with
  | Some (OSError _ ne) => ne
  | _ => false
  end.

(** The text of an error value, [err.Error()], as [%v] and [log.Println]
    print it.  The texts are the libraries' own. *)
Class ErrorText := Error : error -> string.

(* ===================================================================== *)
(** ** [strconv] and [%d]                                                 *)
(* ===================================================================== *)

Module strconv.

Definition intSize : Z := 64.
Definition maxInt : Z := 2 ^ (intSize - 1) - 1.
Definition minInt : Z := - 2 ^ (intSize - 1).

Definition is_digit (c : ascii) : bool :=
  (48 <=? nat_of_ascii c)%nat && (nat_of_ascii c <=? 57)%nat.

Definition digit_val (c : ascii) : Z := Z.of_nat (nat_of_ascii c) - 48.

(** The value of a string of decimal digits, [None] when a byte is not
    a digit. *)
Fixpoint digits_val (acc : Z) (s : string) : option Z :=
  match s with
  | EmptyString => Some acc
  | String c s' =>
      if is_digit c then digits_val (acc * 10 + digit_val c) s' else None
  end.

(** The integer a string denotes in decimal: an optional sign, at
    least one digit, nothing else (no underscores in base 10). *)
Definition decimal (s : string) : option Z :=
  let '(neg, body) :=
    match s with
    | String "-" r => (true, r)
    | String "+" r => (false, r)
    | _ => (false, s)
    end in
  match body with
  | EmptyString => None
  | _ =>
      match digits_val 0 body with
      | None => None
      | Some un => Some (if neg then - un else un)
      end
  end.

(** [ParseInt(s, 10, 64)] and [Atoi(s)] share this: a syntax error when
    the string denotes no integer, a range error when the integer is
    not an [int]. *)
Definition parse_int (fn s : string) : error + Z :=
  match decimal s with
  | None => inl (NumError fn s false)
  | Some n =>
      if (minInt <=? n) && (n <=? maxInt) then inr n
      else inl (NumError fn s true)
  end.

Definition Atoi (s : string) : error + Z := parse_int "Atoi" s.
Definition ParseInt (s : string) : error + Z := parse_int "ParseInt" s.

Definition digit_char (d : Z) : ascii := ascii_of_nat (Z.to_nat (48 + d)).

Fixpoint utoa_aux (fuel : nat) (n : Z) (acc : string) : string :=
  let acc' := String (digit_char (n mod 10)) acc in
  match fuel with
  | O => acc'
  | S fuel' => if n / 10 =? 0 then acc' else utoa_aux fuel' (n / 10) acc'
  end.

(** The decimal digits of a natural number. *)
Definition utoa (n : Z) : string :=
  utoa_aux (Z.to_nat (Z.log2 n)) n EmptyString.

(** [strconv.Itoa], the verb [%d]. *)
Definition Itoa (n : Z) : string :=
  if n <? 0 then String "-" (utoa (- n)) else utoa n.

(** The digits of [n] zero-padded on the left to [width] bytes, as
    [time.Format] and the fraction digits of [%.2f] need them. *)
Definition pad (width : nat) (n : Z) : string :=
  let d := utoa n in
  string_of_list_ascii (repeat "0"%char (width - String.length d)) +:+ d.

(** A byte that is not a digit does not occur in the string. *)
Definition digits_only (s : string) : Prop :=
  forall c, is_digit c = false -> contains_byte c s = false.

Definition four_digits (s : string) : bool :=
  match s with
  | String a (String b (String c (String d EmptyString))) =>
      is_digit a && is_digit b && is_digit c && is_digit d
  | _ => false
  end.

Definition two_digits (s : string) : bool :=
  match s with
  | String a (String b EmptyString) => is_digit a && is_digit b
  | _ => false
  end.

End strconv.
Import strconv.

(* ===================================================================== *)
(** ** [float64]: parsing and the verb [%.2f]                             *)
(* ===================================================================== *)

Module Float64.

Definition float64 : Type := spec_float.
Definition prec : Z := 53.
Definition emax : Z := 1024.

Definition zero : float64 := S754_zero false.

(** The conversion [float64(n)] of an integer, rounded to nearest even. *)
Definition of_int (n : Z) : float64 := binary_normalize prec emax n 0 false.

Definition add (x y : float64) : float64 := SFadd prec emax x y.
Definition div (x y : float64) : float64 := SFdiv prec emax x y.

(** The longest prefix of digits, and the rest. *)
Fixpoint span_digits (s : string) : string * string :=
  match s with
  | String c s' =>
      if is_digit c then
        let '(d, r) := span_digits s' in (String c d, r)
      else (EmptyString, s)
  | EmptyString => (EmptyString, EmptyString)
  end.

(** A decimal literal [-ddd.ddd(e|E)(+|-)ddd] read as sign, digits and
    power of ten: the literal denotes [(-1)^neg * mant * 10^exp10]. *)
Definition read_decimal (s : string) : option (bool * Z * Z) :=
  let '(neg, s1) :=
    match s with
    | String "-" r => (true, r)
    | String "+" r => (false, r)
    | _ => (false, s)
    end in
  let '(ip, s2) := span_digits s1 in
  let '(fp, s3) :=
    match s2 with
    | String "." r => span_digits r
    | _ => (EmptyString, s2)
    end in
  match ip +:+ fp with
  | EmptyString => None
  | ds =>
      let mant := default 0 (digits_val 0 ds) in
      let shift := Z.of_nat (String.length fp) in
      let with_exp (r : string) : option (bool * Z * Z) :=
        let '(eneg, r1) :=
          match r with
          | String "-" r' => (true, r')
          | String "+" r' => (false, r')
          | _ => (false, r)
          end in
        match span_digits r1 with
        | (String c ed, EmptyString) =>
            let e := default 0 (digits_val 0 (String c ed)) in
            Some (neg, mant, (if eneg then - e else e) - shift)
        | _ => None
        end in
      match s3 with
      | EmptyString => Some (neg, mant, - shift)
      | String "e" r => with_exp r
      | String "E" r => with_exp r
      | _ => None
      end
  end.

(** The [float64] nearest to [(-1)^neg * mant * 10^exp10] (ties to
    even); an infinity when the value is out of range. *)
Definition nearest (neg : bool) (mant exp10 : Z) : float64 :=
  match mant with
  | Zpos m =>
      if 0 <=? exp10 then
        binary_normalize prec emax
          ((if neg then -1 else 1) * mant * 10 ^ exp10) 0 neg
      else
        div (S754_finite neg m 0)
            (S754_finite false (Z.to_pos (10 ^ (- exp10))) 0)
  | _ => S754_zero neg
  end.

(** [strconv.ParseFloat(s, 64)] on decimal literals: the nearest
    [float64], and [ErrRange] when that is an infinity. *)
Definition ParseFloat (s : string) : error + float64 :=
  match read_decimal s with
  | None => inl (NumError "ParseFloat" s false)
  | Some (neg, mant, exp10) =>
      match nearest neg mant exp10 with
      | S754_finite sg m e => inr (S754_finite sg m e)
      | S754_zero sg => inr (S754_zero sg)
      | _ => inl (NumError "ParseFloat" s true)
      end
  end.

(** [num / den] rounded to the nearest integer, ties to even
    ([0 < den]). *)
Definition round_half_even (num den : Z) : Z :=
  let q := num / den in
  let r := num mod den in
  if 2 * r <? den then q
  else if den <? 2 * r then q + 1
  else if Z.even q then q else q + 1.

(** The verb [%.2f]: the exact value rounded to two decimals, ties to
    even. *)
Definition format_f2 (x : float64) : string :=
  let render (neg : bool) (hundredths : Z) : string :=
    (if neg then "-" else "") +:+ Itoa (hundredths / 100) +:+ "." +:+
    pad 2 (hundredths mod 100) in
  match x with
  | S754_zero sg => render sg 0
  | S754_infinity sg => if sg then "-Inf" else "+Inf"
  | S754_nan => "NaN"
  | S754_finite sg m e =>
      if 0 <=? e then render sg (Zpos m * 2 ^ e * 100)
      else render sg (round_half_even (Zpos m * 100) (2 ^ (- e)))
  end.

End Float64.
Import Float64.

(* ===================================================================== *)
(** ** [time]                                                             *)
(* ===================================================================== *)

(** What [time.Now()] returns: the wall-clock reading in the local zone
    and the monotonic reading in nanoseconds. *)
Record Time : Type := mkTime {
  year : Z; month : Z; day : Z;
  hour : Z; minute : Z; second : Z;
  monotonic : Z
}.

Module time.

(** The calendar fields [time.Now()] can carry. *)
Definition valid (t : Time) : Prop :=
  0 <= year t <= 9999 /\ 1 <= month t <= 12 /\ 1 <= day t <= 31 /\
  0 <= hour t <= 23 /\ 0 <= minute t <= 59 /\ 0 <= second t <= 59.

(** [appendInt(b, year, 4)]. *)
Definition long_year (y : Z) : string :=
  if y <? 0 then String "-" (pad 4 (- y)) else pad 4 y.

(** [t.Format("2006-01-02 15:04:05")]. *)
Definition Format_datetime (t : Time) : string :=
  long_year (year t) +:+ "-" +:+ pad 2 (month t) +:+ "-" +:+
  pad 2 (day t) +:+ " " +:+ pad 2 (hour t) +:+ ":" +:+
  pad 2 (minute t) +:+ ":" +:+ pad 2 (second t).

(** [t.Format("20060102_150405")]. *)
Definition Format_compact (t : Time) : string :=
  long_year (year t) +:+ pad 2 (month t) +:+ pad 2 (day t) +:+ "_" +:+
  pad 2 (hour t) +:+ pad 2 (minute t) +:+ pad 2 (second t).

(** Eight digits, an underscore, six digits. *)
Definition timestamp_shape (s : string) : bool :=
  match s with
  | String y1 (String y2 (String y3 (String y4 (String m1 (String m2
      (String d1 (String d2 (String u (String h1 (String h2 (String i1
      (String i2 (String s1 (String s2 EmptyString)))))))))))))) =>
      forallb is_digit [y1; y2; y3; y4; m1; m2; d1; d2; h1; h2; i1; i2; s1; s2]
      && Ascii.eqb u "_"
  | _ => false
  end.

(** [YYYY-MM-DD HH:MM:SS]. *)
Definition datetime_shape (s : string) : bool :=
  match s with
  | String y1 (String y2 (String y3 (String y4 (String p1 (String m1
      (String m2 (String p2 (String d1 (String d2 (String p3 (String h1
      (String h2 (String p4 (String i1 (String i2 (String p5 (String s1
      (String s2 EmptyString)))))))))))))))))) =>
      forallb is_digit [y1; y2; y3; y4; m1; m2; d1; d2; h1; h2; i1; i2; s1; s2]
      && Ascii.eqb p1 "-" && Ascii.eqb p2 "-" && Ascii.eqb p3 " "
      && Ascii.eqb p4 ":" && Ascii.eqb p5 ":"
  | _ => false
  end.

Definition maxDuration : Z := 2 ^ 63 - 1.
Definition minDuration : Z := - 2 ^ 63.

(** [t.Sub(u)] on two readings of the monotonic clock, saturating. *)
Definition Sub (t u : Time) : Z :=
  Z.max minDuration (Z.min maxDuration (monotonic t - monotonic u)).

(** [d.Seconds()]:
    [float64(d / Second) + float64(d % Second) / 1e9]. *)
Definition Seconds (d : Z) : float64 :=
  add (of_int (Z.quot d 1000000000))
      (div (of_int (Z.rem d 1000000000)) (of_int 1000000000)).

End time.

(* ===================================================================== *)
(** ** [path/filepath]                                                    *)
(* ===================================================================== *)

Module filepath.

(** One step of [Clean] on the elements kept so far (last one first):
    empty and [.] elements are dropped, [..] removes the element before
    it when there is one that is not [..] itself, and is otherwise kept
    (relative path) or dropped (rooted path). *)
Definition clean_step (rooted : bool) (kept : list string) (e : string)
  : list string :=
  if String.eqb e "" || String.eqb e "." then kept
  else if String.eqb e ".." then
    match kept with
    | top :: below =>
        if String.eqb top ".." then e :: kept else below
    | [] => if rooted then kept else [e]
    end
  else e :: kept.

(** [filepath.Clean]. *)
Definition Clean (path : string) : string :=
  let rooted := HasPrefix path "/" in
  let kept := rev (fold_left (clean_step rooted) (Split path "/") []) in
  match rooted, kept with
  | false, [] => "."
  | false, _ => Join kept "/"
  | true, _ => "/" +:+ Join kept "/"
  end.

(** [filepath.Join]: the elements from the first non-empty one on,
    separated by slashes, then cleaned; the empty string when all are
    empty. *)
Fixpoint Join (elem : list string) : string :=
  match elem with
  | [] => ""
  | e :: rest =>
      if String.eqb e "" then Join rest
      else Clean (GoString.Join elem "/")
  end.

(** A path element that [Clean] keeps as it is. *)
Definition proper_element (e : string) : bool :=
  negb (String.eqb e "" || String.eqb e "." || String.eqb e "..").

(** A path with no empty, [.] or [..] element. *)
Definition proper_path (path : string) : bool :=
  forallb proper_element (Split path "/").

End filepath.

(* ===================================================================== *)
(** ** [encoding/json]                                                    *)
(* ===================================================================== *)

#[warnings="-register-all"]
Inductive json : Type :=
| JNull
| JBool (b : bool)
| JNumber (literal : string)
| JString (s : string)
| JArray (elems : list json)
| JObject (members : list (string * json)).

Module Json.

Definition maxNestingDepth : Z := 10000.

Fixpoint skip_ws (s : string) : string :=
  match s with
  | String c r =>
      if Ascii.eqb c " " || Ascii.eqb c "009" || Ascii.eqb c "010" ||
         Ascii.eqb c "013"
      then skip_ws r else s
  | EmptyString => s
  end.

(** The number grammar: an optional minus sign; a zero or a non-zero
    digit followed by digits; optionally a dot and at least one digit;
    optionally [e] or [E], an optional sign and at least one digit.
    Returns the literal and what follows it. *)
Definition scan_number (s : string) : option (string * string) :=
  let '(sign, s1) :=
    match s with
    | String "-" r => ("-", r)
    | _ => ("", s)
    end in
  let '(ip, s2) := span_digits s1 in
  let int_ok :=
    match ip with
    | EmptyString => false
    | String "0" (String _ _) => false
    | _ => true
    end in
  let frac : option (string * string) :=
    match s2 with
    | String "." r =>
        match span_digits r with
        | (EmptyString, _) => None
        | (fp, r') => Some ("." +:+ fp, r')
        end
    | _ => Some ("", s2)
    end in
  match int_ok, frac with
  | true, Some (fp, s3) =>
      let mantissa := sign +:+ ip +:+ fp in
      let exponent (e r : string) : option (string * string) :=
        let '(esign, r1) :=
          match r with
          | String "-" r' => ("-", r')
          | String "+" r' => ("+", r')
          | _ => ("", r)
          end in
        match span_digits r1 with
        | (EmptyString, _) => None
        | (ed, r') => Some (mantissa +:+ e +:+ esign +:+ ed, r')
        end in
      match s3 with
      | String "e" r => exponent "e" r
      | String "E" r => exponent "E" r
      | _ => Some (mantissa, s3)
      end
  | _, _ => None
  end.

Definition hex_val (c : ascii) : option Z :=
  let n := Z.of_nat (nat_of_ascii c) in
  if (48 <=? n) && (n <=? 57) then Some (n - 48)
  else if (97 <=? n) && (n <=? 102) then Some (n - 87)
  else if (65 <=? n) && (n <=? 70) then Some (n - 55)
  else None.

(** [getu4] on the four bytes after a backslash-u. *)
Definition hex4 (a b c d : ascii) : option Z :=
  match hex_val a, hex_val b, hex_val c, hex_val d with
  | Some x, Some y, Some z, Some w => Some (((x * 16 + y) * 16 + z) * 16 + w)
  | _, _, _, _ => None
  end.

Definition byte (n : Z) : ascii := ascii_of_nat (Z.to_nat n).

(** [utf8.EncodeRune]; surrogates and values out of range give the
    encoding of U+FFFD. *)
Definition utf8 (r : Z) : string :=
  if r <? 128 then String (byte r) ""
  else if r <? 2048 then
    String (byte (192 + r / 64)) (String (byte (128 + r mod 64)) "")
  else if ((55296 <=? r) && (r <=? 57343)) || (1114111 <? r) then
    bytes [239; 191; 189]%nat
  else if r <? 65536 then
    String (byte (224 + r / 4096))
      (String (byte (128 + (r / 64) mod 64))
         (String (byte (128 + r mod 64)) ""))
  else
    String (byte (240 + r / 262144))
      (String (byte (128 + (r / 4096) mod 64))
         (String (byte (128 + (r / 64) mod 64))
            (String (byte (128 + r mod 64)) ""))).

Definition is_high_surrogate (r : Z) : bool := (55296 <=? r) && (r <? 56320).
Definition is_low_surrogate (r : Z) : bool := (56320 <=? r) && (r <? 57344).

(** The rest of a string literal after its opening quote: the string it
    denotes and what follows the closing quote.  Bytes below 0x20 are
    refused; escapes are decoded, a pair of surrogate escapes to one
    rune. Bytes that are not valid UTF-8 are kept as they are (the
    library stores U+FFFD for them). *)
Fixpoint scan_string (fuel : nat) (s : string) : option (string * string) :=
  match fuel with
  | O => None
  | S fuel' =>
      let cons (p : string) (r : string) :=
        match scan_string fuel' r with
        | Some (t, r') => Some (p +:+ t, r')
        | None => None
        end in
      match s with
      | EmptyString => None
      | String "034" r => Some ("", r)
      | String "\" (String "u" (String a (String b (String c (String d r))))) =>
          match hex4 a b c d with
          | None => None
          | Some hi =>
              match r with
              | String "\" (String "u"
                  (String a' (String b' (String c' (String d' r'))))) =>
                  match hex4 a' b' c' d' with
                  | Some lo =>
                      if is_high_surrogate hi && is_low_surrogate lo then
                        cons (utf8 (65536 + (hi - 55296) * 1024
                                    + (lo - 56320))) r'
                      else cons (utf8 hi) r
                  | None => cons (utf8 hi) r
                  end
              | _ => cons (utf8 hi) r
              end
          end
      | String "\" (String e r) =>
          if Ascii.eqb e "034" then cons (bytes [34%nat]) r
          else if Ascii.eqb e "\" then cons "\" r
          else if Ascii.eqb e "/" then cons "/" r
          else if Ascii.eqb e "b" then cons (bytes [8%nat]) r
          else if Ascii.eqb e "f" then cons (bytes [12%nat]) r
          else if Ascii.eqb e "n" then cons (bytes [10%nat]) r
          else if Ascii.eqb e "r" then cons (bytes [13%nat]) r
          else if Ascii.eqb e "t" then cons (bytes [9%nat]) r
          else None
      | String "\" EmptyString => None
      | String c r =>
          if (nat_of_ascii c <? 32)%nat then None
          else cons (String c "") r
      end
  end.

Fixpoint parse_value (fuel : nat) (depth : Z) (s : string) {struct fuel}
  : option (json * string) :=
  match fuel with
  | O => None
  | S fuel' =>
      match skip_ws s with
      | String "{" r =>
          if maxNestingDepth <? depth + 1 then None
          else
            match skip_ws r with
            | String "}" r' => Some (JObject [], r')
            | r1 => parse_members fuel' (depth + 1) r1 []
            end
      | String "[" r =>
          if maxNestingDepth <? depth + 1 then None
          else
            match skip_ws r with
            | String "]" r' => Some (JArray [], r')
            | r1 => parse_elems fuel' (depth + 1) r1 []
            end
      | String "034" r =>
          match scan_string (S (String.length r)) r with
          | Some (t, r') => Some (JString t, r')
          | None => None
          end
      | s1 =>
          if HasPrefix s1 "true" then Some (JBool true, drop 4 s1)
          else if HasPrefix s1 "false" then Some (JBool false, drop 5 s1)
          else if HasPrefix s1 "null" then Some (JNull, drop 4 s1)
          else
            match scan_number s1 with
            | Some (lit, r) => Some (JNumber lit, r)
            | None => None
            end
      end
  end
with parse_elems (fuel : nat) (depth : Z) (s : string) (acc : list json)
     {struct fuel} : option (json * string) :=
  match fuel with
  | O => None
  | S fuel' =>
      match parse_value fuel' depth s with
      | Some (v, r) =>
          match skip_ws r with
          | String "," r' => parse_elems fuel' depth r' (v :: acc)
          | String "]" r' => Some (JArray (rev (v :: acc)), r')
          | _ => None
          end
      | None => None
      end
  end
with parse_members (fuel : nat) (depth : Z) (s : string)
       (acc : list (string * json)) {struct fuel} : option (json * string) :=
  match fuel with
  | O => None
  | S fuel' =>
      match skip_ws s with
      | String "034" r =>
          match scan_string (S (String.length r)) r with
          | Some (k, r1) =>
              match skip_ws r1 with
              | String ":" r2 =>
                  match parse_value fuel' depth r2 with
                  | Some (v, r3) =>
                      match skip_ws r3 with
                      | String "," r4 =>
                          parse_members fuel' depth r4 ((k, v) :: acc)
                      | String "}" r4 =>
                          Some (JObject (rev ((k, v) :: acc)), r4)
                      | _ => None
                      end
                  | None => None
                  end
              | _ => None
              end
          | None => None
          end
      | _ => None
      end
  end.

(** The value a JSON text denotes; [None] when the bytes are not one
    JSON value surrounded by white space ([checkValid] fails).  Every
    call consumes a unit of fuel and at most two calls follow each other
    without consuming a byte. *)
Definition parse (data : string) : option json :=
  match parse_value (2 * String.length data + 2) 0 data with
  | Some (v, r) =>
      match skip_ws r with
      | EmptyString => Some v
      | _ => None
      end
  | None => None
  end.

End Json.

(** [type Statistics struct { Total struct { ... } }]. *)
Record TotalStats : Type := mkTotal {
  SampleCount : Z;
  ErrorPct : float64;
  MeanResTime : float64;
  Throughput : float64;
  Errorcount : Z
}.

Record Statistics : Type := mkStatistics { Total : TotalStats }.

Module Unmarshal.

(** The zero value of [var stats Statistics]. *)
Definition zero_total : TotalStats := mkTotal 0 zero zero zero 0.
Definition zero_stats : Statistics := mkStatistics zero_total.

(** Case folding of an object key, as far as it can make the key equal
    to a field name in ASCII letters: letters go to upper case, and so do
    the two runes that fold to an ASCII letter, U+017F (long s) and
    U+212A (Kelvin sign). *)
Fixpoint foldName (s : string) : string :=
  match s with
  | EmptyString => EmptyString
  | String "197" (String "191" r) => String "S" (foldName r)
  | String "226" (String "132" (String "170" r)) => String "K" (foldName r)
  | String c r =>
      let n := nat_of_ascii c in
      String (if (97 <=? n)%nat && (n <=? 122)%nat
              then ascii_of_nat (n - 32) else c)
             (foldName r)
  end.

(** A key names a field when it is the field's JSON name up to case
    folding (no two fields of this program fold to the same name). *)
Definition names (key field : string) : bool :=
  String.eqb (foldName key) (foldName field).

(** [d.saveError]: the first error is the one kept. *)
Definition saveError (saved : option error) (e : error) : option error :=
  match saved with
  | Some _ => saved
  | None => Some e
  end.

(** How [UnmarshalTypeError.Value] describes a JSON value that has the
    wrong kind; a number literal that fails to parse is described with
    its text. *)
Definition describe (v : json) : string :=
  match v with
  | JNull => "null"
  | JBool _ => "bool"
  | JNumber _ => "number"
  | JString _ => "string"
  | JArray _ => "array"
  | JObject _ => "object"
  end.

(** Storing a JSON value into an [int] field: [null] leaves the field
    alone, a number literal must pass [ParseInt], anything else is a type
    error; after an error the field keeps its value and decoding goes
    on. *)
Definition store_int (field : string) (v : json) (old : Z)
           (saved : option error) : Z * option error :=
  match v with
  | JNull => (old, saved)
  | JNumber lit =>
      match ParseInt lit with
      | inr n => (n, saved)
      | inl _ =>
          (old, saveError saved (UnmarshalTypeError ("number " +:+ lit) field))
      end
  | _ => (old, saveError saved (UnmarshalTypeError (describe v) field))
  end.

(** The same for a [float64] field, with [ParseFloat]. *)
Definition store_float (field : string) (v : json) (old : float64)
           (saved : option error) : float64 * option error :=
  match v with
  | JNull => (old, saved)
  | JNumber lit =>
      match ParseFloat lit with
      | inr x => (x, saved)
      | inl _ =>
          (old, saveError saved (UnmarshalTypeError ("number " +:+ lit) field))
      end
  | _ => (old, saveError saved (UnmarshalTypeError (describe v) field))
  end.

(** One member of the object stored into [Total]: a key that names no
    field is skipped. *)
Definition store_total_member (st : TotalStats * option error)
           (kv : string * json) : TotalStats * option error :=
  let '(t, saved) := st in
  let '(key, v) := kv in
  if names key "sampleCount" then
    let '(n, saved') := store_int "Total.sampleCount" v (SampleCount t) saved in
    (mkTotal n (ErrorPct t) (MeanResTime t) (Throughput t) (Errorcount t),
     saved')
  else if names key "errorPct" then
    let '(x, saved') := store_float "Total.errorPct" v (ErrorPct t) saved in
    (mkTotal (SampleCount t) x (MeanResTime t) (Throughput t) (Errorcount t),
     saved')
  else if names key "meanResTime" then
    let '(x, saved') := store_float "Total.meanResTime" v (MeanResTime t) saved in
    (mkTotal (SampleCount t) (ErrorPct t) x (Throughput t) (Errorcount t),
     saved')
  else if names key "throughput" then
    let '(x, saved') := store_float "Total.throughput" v (Throughput t) saved in
    (mkTotal (SampleCount t) (ErrorPct t) (MeanResTime t) x (Errorcount t),
     saved')
  else if names key "errorCount" then
    let '(n, saved') := store_int "Total.errorCount" v (Errorcount t) saved in
    (mkTotal (SampleCount t) (ErrorPct t) (MeanResTime t) (Throughput t) n,
     saved')
  else (t, saved).

(** Storing a JSON value into the struct field [Total]. *)
Definition store_total (v : json) (old : TotalStats) (saved : option error)
  : TotalStats * option error :=
  match v with
  | JNull => (old, saved)
  | JObject members => fold_left store_total_member members (old, saved)
  | _ => (old, saveError saved (UnmarshalTypeError (describe v) "Total"))
  end.

Definition store_stats_member (st : Statistics * option error)
           (kv : string * json) : Statistics * option error :=
  let '(s, saved) := st in
  let '(key, v) := kv in
  if names key "Total" then
    let '(t, saved') := store_total v (Total s) saved in
    (mkStatistics t, saved')
  else (s, saved).

(** Storing the top-level value into [*Statistics]. *)
Definition store_stats (v : json) (old : Statistics) (saved : option error)
  : Statistics * option error :=
  match v with
  | JNull => (old, saved)
  | JObject members => fold_left store_stats_member members (old, saved)
  | _ => (old, saveError saved (UnmarshalTypeError (describe v) ""))
  end.

(** [json.Unmarshal(data, &stats)] for a fresh [stats]: a syntax error
    when the bytes are not a JSON text, else the first type error met
    while storing, else the filled struct. *)
Definition Unmarshal (data : string) : error + Statistics :=
  match Json.parse data with
  | None => inl SyntaxError
  | Some v =>
      match store_stats v zero_stats None with
      | (_, Some e) => inl e
      | (s, None) => inr s
      end
  end.

(** *** What a document gives each field *)

(** The members of the objects stored into [Total], in the order in
    which they are stored. *)
Definition total_members (v : json) : list (string * json) :=
  match v with
  | JObject members =>
      flat_map (fun kv => if names (fst kv) "Total" then
                            match snd kv with
                            | JObject m => m
                            | _ => []
                            end
                          else []) members
  | _ => []
  end.

(** The literal of the last number among [members] whose key names
    [field]. *)
Fixpoint last_literal (field : string) (members : list (string * json))
  : option string :=
  match members with
  | [] => None
  | (key, v) :: rest =>
      match last_literal field rest with
      | Some lit => Some lit
      | None =>
          if names key field then
            match v with
            | JNumber lit => Some lit
            | _ => None
            end
          else None
      end
  end.

(** The number literal a document gives a field of [Total], if any. *)
Definition field_literal (v : json) (field : string) : option string :=
  last_literal field (total_members v).

(** A document lacks a field of [Total] when no key of what it stores
    into [Total] names the field. *)
Definition lacks (v : json) (field : string) : bool :=
  forallb (fun kv => negb (names (fst kv) field)) (total_members v).

Definition int_ok (v : json) : bool :=
  match v with
  | JNull => true
  | JNumber lit => match ParseInt lit with inr _ => true | inl _ => false end
  | _ => false
  end.

Definition float_ok (v : json) : bool :=
  match v with
  | JNull => true
  | JNumber lit => match ParseFloat lit with inr _ => true | inl _ => false end
  | _ => false
  end.

(** A member of a [Total] object fits: its key names no field, or its
    value is [null] or a number the field can hold. *)
Definition member_ok (kv : string * json) : bool :=
  let '(key, v) := kv in
  if names key "sampleCount" then int_ok v
  else if names key "errorPct" then float_ok v
  else if names key "meanResTime" then float_ok v
  else if names key "throughput" then float_ok v
  else if names key "errorCount" then int_ok v
  else true.

Definition total_ok (v : json) : bool :=
  match v with
  | JNull => true
  | JObject members => forallb member_ok members
  | _ => false
  end.

(** A document fits the struct: it is [null] or an object, what it
    stores into [Total] is [null] or an object, and every member of
    such an object fits. *)
Definition fits (v : json) : bool :=
  match v with
  | JNull => true
  | JObject members =>
      forallb (fun kv => if names (fst kv) "Total" then total_ok (snd kv)
                         else true) members
  | _ => false
  end.

Definition int_of (lit : option string) (otherwise : Z) : Z :=
  match lit with
  | Some l => match ParseInt l with inr n => n | inl _ => otherwise end
  | None => otherwise
  end.

Definition float_of (lit : option string) (otherwise : float64) : float64 :=
  match lit with
  | Some l => match ParseFloat l with inr x => x | inl _ => otherwise end
  | None => otherwise
  end.

(** The struct after storing [members] into a [Total] that held [t]. *)
Definition stored (members : list (string * json)) (t : TotalStats)
  : TotalStats :=
  mkTotal (int_of (last_literal "sampleCount" members) (SampleCount t))
          (float_of (last_literal "errorPct" members) (ErrorPct t))
          (float_of (last_literal "meanResTime" members) (MeanResTime t))
          (float_of (last_literal "throughput" members) (Throughput t))
          (int_of (last_literal "errorCount" members) (Errorcount t)).

(** What a document that fits decodes to. *)
Definition decoded (v : json) : Statistics :=
  mkStatistics (stored (total_members v) zero_total).

End Unmarshal.

(* ===================================================================== *)
(** ** The XML reader                                                     *)
(* ===================================================================== *)

(** [github.com/antchfx/xmlquery], as far as the program uses it: parsing a
    document, the first node an XPath expression selects ([nil] when there
    is none), and the text inside a node. *)
Class XmlQuery : Type := {
  Node : Type;
  xmlquery_Parse : string -> error + Node;
  xmlquery_FindOne : Node -> string -> option Node;
  InnerText : Node -> string
}.

(* ===================================================================== *)
(** ** Programs                                                           *)
(* ===================================================================== *)

(** [os.FileInfo], as far as the program reads it. *)
Record FileInfo : Type := mkFileInfo { Name : string; IsDir : bool }.

(** An open [*os.File]: the name and the flags it was opened with. *)
Record File : Type := mkFile { file_name : string; file_flag : Z }.

Inductive stream : Type := os_Stdout | os_Stderr.

(** [exec.Cmd]: the program to run, its argument vector (the name first)
    and where its output goes ([None] discards it). *)
Record Cmd : Type := mkCmd {
  Path : string;
  Args : list string;
  Stdout : option stream;
  Stderr : option stream
}.

Definition O_WRONLY : Z := 1.
Definition O_CREATE : Z := 64.
Definition O_TRUNC : Z := 512.
Definition O_APPEND : Z := 1024.

(** A program is a tree: a leaf returns, exits the process or panics, a
    node is one call to the outside world, with one subtree per answer. *)
Inductive prog (A : Type) : Type :=
| Ret (a : A)
| Exit (code : Z)
| Panic (msg : string)
| Now (k : Time -> prog A)
| Stat (name : string) (k : option error -> prog A)
| MkdirAll (path : string) (perm : Z) (k : option error -> prog A)
| OpenFile (name : string) (flag perm : Z) (k : error + File -> prog A)
| WriteString (f : File) (s : string) (k : option error -> prog A)
| Close (f : File) (k : prog A)
| ReadDir (dirname : string) (k : error + list FileInfo -> prog A)
| ReadFile (filename : string) (k : error + string -> prog A)
| Scanln (k : string -> prog A)
| Print (s : string) (k : prog A)
| LogOutput (s : string) (k : prog A)
| Run (c : Cmd) (k : option error -> prog A).

Arguments Ret {A} a.
Arguments Exit {A} code.
Arguments Panic {A} msg.
Arguments Now {A} k.
Arguments Stat {A} name k.
Arguments MkdirAll {A} path perm k.
Arguments OpenFile {A} name flag perm k.
Arguments WriteString {A} f s k.
Arguments Close {A} f k.
Arguments ReadDir {A} dirname k.
Arguments ReadFile {A} filename k.
Arguments Scanln {A} k.
Arguments Print {A} s k.
Arguments LogOutput {A} s k.
Arguments Run {A} c k.

Fixpoint bind {A B : Type} (p : prog A) (f : A -> prog B) : prog B :=
  match p with
  | Ret a => f a
  | Exit code => Exit code
  | Panic msg => Panic msg
  | Now k => Now (fun t => bind (k t) f)
  | Stat name k => Stat name (fun r => bind (k r) f)
  | MkdirAll path perm k => MkdirAll path perm (fun r => bind (k r) f)
  | OpenFile name flag perm k => OpenFile name flag perm (fun r => bind (k r) f)
  | WriteString fl s k => WriteString fl s (fun r => bind (k r) f)
  | Close fl k => Close fl (bind k f)
  | ReadDir d k => ReadDir d (fun r => bind (k r) f)
  | ReadFile n k => ReadFile n (fun r => bind (k r) f)
  | Scanln k => Scanln (fun r => bind (k r) f)
  | Print s k => Print s (bind k f)
  | LogOutput s k => LogOutput s (bind k f)
  | Run c k => Run c (fun r => bind (k r) f)
  end.

#[global] Instance prog_ret : MRet prog := @Ret.
#[global] Instance prog_bind : MBind prog := fun A B f p => bind p f.

(** The calls, as programs. *)
Definition time_Now : prog Time := Now Ret.
Definition os_Stat (name : string) : prog (option error) := Stat name Ret.
Definition os_MkdirAll (path : string) (perm : Z) : prog (option error) :=
  MkdirAll path perm Ret.
Definition os_OpenFile (name : string) (flag perm : Z) : prog (error + File) :=
  OpenFile name flag perm Ret.
Definition file_WriteString (f : File) (s : string) : prog (option error) :=
  WriteString f s Ret.
Definition file_Close (f : File) : prog unit := Close f (Ret tt).
Definition ioutil_ReadDir (dirname : string) : prog (error + list FileInfo) :=
  ReadDir dirname Ret.
Definition ioutil_ReadFile (filename : string) : prog (error + string) :=
  ReadFile filename Ret.
(** [fmt.Scanln(&v)] on an empty string variable: the value of the
    variable afterwards (the word read, or still empty). *)
Definition fmt_Scanln : prog string := Scanln Ret.
(** [fmt.Print], [fmt.Printf], [fmt.Println]: the text written to standard
    output. *)
Definition fmt_Print (s : string) : prog unit := Print s (Ret tt).
Definition fmt_Println (s : string) : prog unit := Print (s +:+ nl) (Ret tt).
(** The standard logger: the text handed to it (it writes the text to
    standard error behind the date and time). *)
Definition log_Println (s : string) : prog unit := LogOutput (s +:+ nl) (Ret tt).
(** [log.Fatalf]: the text, then [os.Exit(1)]. *)
Definition log_Fatalf {A : Type} (s : string) : prog A := LogOutput s (Exit 1).
Definition os_Exit {A : Type} (code : Z) : prog A := Exit code.
Definition cmd_Run (c : Cmd) : prog (option error) := Run c Ret.

(** [exec.Command(name, arg...)]. *)
Definition exec_Command (name : string) (arg : list string) : Cmd :=
  mkCmd name (name :: arg) None None.

(** What a map of type [map[string]interface{}] holds in this program. *)
Inductive value : Type :=
| VInt (n : Z)
| VFloat (x : float64).

(** The type assertions [v.(float64)] and [v.(int)] on a map element: a
    missing key gives [nil], and the assertion panics on [nil] and on a
    value of the other type. *)
Definition assert_float64 (v : option value) : prog float64 :=
  match v with
  | Some (VFloat x) => Ret x
  | _ => Panic "interface conversion"
  end.

Definition assert_int (v : option value) : prog Z :=
  match v with
  | Some (VInt n) => Ret n
  | _ => Panic "interface conversion"
  end.

(* ===================================================================== *)
(** ** [run.go]                                                           *)
(* ===================================================================== *)

Definition reportDir : string := "Reporter".
Definition jtlDir : string := "Jtl".
Definition debugDir : string := "Debug".
Definition logFile : string := filepath.Join [debugDir; "pmeter.log"].

Section Program.

Context {error_text : ErrorText} {xml : XmlQuery}.

Definition ensureDir (dir : string) : prog unit :=
  err ← os_Stat dir;
  if IsNotExist err then
    err ← os_MkdirAll dir 493 (* 0755 *);
    match err with
    | Some e => log_Fatalf ("无法创建目录 " +:+ dir +:+ ": " +:+ Error e +:+ nl)
    | None => Ret tt
    end
  else Ret tt.

Definition writeLog (msg : string) : prog unit :=
  now ← time_Now;
  let timestamp := time.Format_datetime now in
  ensureDir debugDir;;
  opened ← os_OpenFile logFile (Z.lor (Z.lor O_APPEND O_CREATE) O_WRONLY)
                       420 (* 0644 *);
  match opened with
  | inl err => log_Println ("无法打开日志文件: " +:+ Error err)
  | inr file =>
      let logEntry := "[" +:+ timestamp +:+ "] " +:+ msg +:+ nl in
      err ← file_WriteString file logEntry;
      match err with
      | Some e => log_Println ("写入日志失败: " +:+ Error e)
      | None => Ret tt
      end;;
      file_Close file
  end.

(** The loop of [listJMXFiles] that collects the names. *)
Definition collect_jmx (files : list FileInfo) : list string :=
  fold_left
    (fun jmxFiles file =>
       if negb (IsDir file) && HasSuffix (Name file) ".jmx"
       then jmxFiles ++ [Name file]
       else jmxFiles)
    files [].

(** The loop of [listJMXFiles] that prints the numbered names, from
    index [idx] on. *)
Fixpoint print_numbered (idx : Z) (jmxFiles : list string) : prog unit :=
  match jmxFiles with
  | [] => Ret tt
  | file :: rest =>
      fmt_Print (Itoa (idx + 1) +:+ ". " +:+ file +:+ nl);;
      print_numbered (idx + 1) rest
  end.

Definition listJMXFiles : prog (list string) :=
  listed ← ioutil_ReadDir ".";
  match listed with
  | inl err =>
      writeLog ("读取目录失败: " +:+ Error err);;
      fmt_Println "无法读取当前目录";;
      os_Exit 1
  | inr files =>
      let jmxFiles := collect_jmx files in
      if (length jmxFiles =? 0)%nat then
        writeLog "未找到 .jmx 文件，程序退出。";;
        fmt_Println "当前目录下没有找到 .jmx 文件。";;
        os_Exit 1
      else
        fmt_Println "可用的 .jmx 文件：";;
        print_numbered 0 jmxFiles;;
        Ret jmxFiles
  end.

Definition selectJMXFile (jmxFiles : list string) : prog string :=
  fmt_Print "请选择要运行的测试文件编号：";;
  choice ← fmt_Scanln;
  let invalid : prog string :=
    writeLog ("无效的文件编号输入：" +:+ choice +:+ "，程序退出。");;
    fmt_Println "输入无效，退出。";;
    os_Exit 1 in
  match Atoi choice with
  | inl _ => invalid
  | inr index =>
      if (index <? 1) || (Z.of_nat (length jmxFiles) <? index) then invalid
      else
        match jmxFiles !! Z.to_nat (index - 1) with
        | Some file => Ret file
        | None => Panic "index out of range"
        end
  end.

Definition getTimestamp : prog string :=
  now ← time_Now;
  Ret (time.Format_compact now).

Definition getResultFilename : prog string :=
  fmt_Print "请输入结果文件名（例如 result_200 或 result_200.jtl，回车则使用时间戳）：";;
  name ← fmt_Scanln;
  let name := TrimSpace name in
  name ←
    (if String.eqb name "" then
       timestamp ← getTimestamp;
       let name := "result_" +:+ timestamp +:+ ".jtl" in
       fmt_Print ("已自动生成结果文件名：" +:+ name +:+ nl);;
       Ret name
     else if negb (HasSuffix name ".jtl") then Ret (name +:+ ".jtl")
     else Ret name);
  Ret (filepath.Join [jtlDir; name]).

Definition getReportFolder : prog string :=
  fmt_Print "请输入输出报告文件夹名称（例如 report_fold，回车则使用时间戳）：";;
  folder ← fmt_Scanln;
  let folder := TrimSpace folder in
  folder ←
    (if String.eqb folder "" then
       timestamp ← getTimestamp;
       let folder := "report_" +:+ timestamp in
       fmt_Print ("已自动生成报告文件夹：" +:+ folder +:+ nl);;
       Ret folder
     else Ret folder);
  let fullPath := filepath.Join [reportDir; folder] in
  ensureDir fullPath;;
  fmt_Print ("报告文件夹路径：" +:+ fullPath +:+ nl);;
  Ret fullPath.

Definition getRDebugFilename : prog string :=
  fmt_Print "请输入DEBUG日志文件名（例如 XXXXX_debug.log，回车则使用时间戳）：";;
  name ← fmt_Scanln;
  let name := TrimSpace name in
  name ←
    (if String.eqb name "" then
       timestamp ← getTimestamp;
       let name := "Debug_" +:+ timestamp +:+ ".log" in
       fmt_Print ("已自动生成Debug日志文件名：" +:+ name +:+ nl);;
       Ret name
     else if negb (HasSuffix name ".log") then Ret (name +:+ ".log")
     else Ret name);
  Ret (filepath.Join [debugDir; name]).

Definition thread_count_query : string :=
  "//intProp[@name='ThreadGroup.num_threads']".

Definition parseThreadCount (jmxFile : string) : prog Z :=
  read ← ioutil_ReadFile jmxFile;
  match read with
  | inl err => writeLog ("读取JMX文件失败: " +:+ Error err);; Ret 0
  | inr data =>
      match xmlquery_Parse data with
      | inl err => writeLog ("解析XML失败: " +:+ Error err);; Ret 0
      | inr doc =>
          match xmlquery_FindOne doc thread_count_query with
          | None => writeLog "未找到线程数配置";; Ret 0
          | Some node =>
              match Atoi (InnerText node) with
              | inl err => writeLog ("转换线程数失败: " +:+ Error err);; Ret 0
              | inr count => Ret count
              end
          end
      end
  end.

(** The map literal of [parseStatistics]. *)
Definition stats_map (stats : Statistics) : gmap string value :=
  <["sampleCount" := VInt (SampleCount (Total stats))]>
  (<["errorPct" := VFloat (ErrorPct (Total stats))]>
  (<["meanResTime" := VFloat (MeanResTime (Total stats))]>
  (<["throughput" := VFloat (Throughput (Total stats))]>
  (<["Errorcount" := VInt (Errorcount (Total stats))]> ∅)))).

Definition parseStatistics (reportFolder : string)
  : prog (error + gmap string value) :=
  let statFile := filepath.Join [reportFolder; "statistics.json"] in
  read ← ioutil_ReadFile statFile;
  match read with
  | inl err => Ret (inl err)
  | inr data =>
      match Unmarshal.Unmarshal data with
      | inl err => Ret (inl err)
      | inr stats => Ret (inr (stats_map stats))
      end
  end.

Definition jmeter_command (jmxFile resultFile reportFolder debugFile : string)
  : Cmd :=
  exec_Command "jmeter"
    ["-n"; "-t"; jmxFile; "-l"; resultFile; "-e"; "-o"; reportFolder;
     "-j"; debugFile].

(** [runJMeter] from the return of [cmd.Run()] on. *)
Definition summarize (jmxFile reportFolder : string)
           (startTime endTime : Time) (err : option error) : prog unit :=
  let duration := time.Seconds (time.Sub endTime startTime) in
  match err with
  | Some e =>
      writeLog ("命令执行失败，耗时 " +:+ format_f2 duration +:+ " 秒。错误: "
                +:+ Error e);;
      fmt_Println "命令执行失败，请检查日志文件 pmeter.log。"
  | None =>
      writeLog ("命令执行成功，耗时 " +:+ format_f2 duration +:+ " 秒。");;
      threadCount ← parseThreadCount jmxFile;
      parsed ← parseStatistics reportFolder;
      match parsed with
      | inr stats =>
          writeLog "====== 测试统计信息 ======";;
          writeLog ("线程数：" +:+ Itoa threadCount);;
          errorPct ← assert_float64 (stats !! "errorPct");
          writeLog ("报错率：" +:+ format_f2 errorPct +:+ "%");;
          throughput ← assert_float64 (stats !! "throughput");
          writeLog ("吞吐量：" +:+ format_f2 throughput);;
          meanResTime ← assert_float64 (stats !! "meanResTime");
          writeLog ("响应时间：" +:+ format_f2 meanResTime +:+ " ms");;
          sampleCount ← assert_int (stats !! "sampleCount");
          writeLog ("总请求数：" +:+ Itoa sampleCount);;
          errorCount ← assert_int (stats !! "Errorcount");
          writeLog ("总错误数：" +:+ Itoa errorCount);;
          writeLog "=========================="
      | inl e => writeLog ("解析统计数据失败: " +:+ Error e)
      end
  end.

Definition runJMeter (jmxFile resultFile reportFolder debugFile : string)
  : prog unit :=
  let cmd := jmeter_command jmxFile resultFile reportFolder debugFile in
  startTime ← time_Now;
  let cmdStr := GoString.Join (Args cmd) " " in
  writeLog "开始执行命令：";;
  writeLog cmdStr;;
  fmt_Println (nl +:+ "执行命令： " +:+ cmdStr);;
  let cmd := mkCmd (Path cmd) (Args cmd) (Some os_Stdout) (Some os_Stderr) in
  err ← cmd_Run cmd;
  endTime ← time_Now;
  summarize jmxFile reportFolder startTime endTime err.

Definition main : prog unit :=
  ensureDir reportDir;;
  ensureDir jtlDir;;
  ensureDir debugDir;;
  jmxFiles ← listJMXFiles;
  jmxFile ← selectJMXFile jmxFiles;
  resultFile ← getResultFilename;
  reportFolder ← getReportFolder;
  debugFile ← getRDebugFilename;
  runJMeter jmxFile resultFile reportFolder debugFile.

(** [main] from the selection on. *)
Definition after_selection (jmxFile : string) : prog unit :=
  resultFile ← getResultFilename;
  reportFolder ← getReportFolder;
  debugFile ← getRDebugFilename;
  runJMeter jmxFile resultFile reportFolder debugFile.

End Program.

(* ===================================================================== *)
(** ** Running a program                                                  *)
(* ===================================================================== *)

(** The outside world: a state and, for each call, the answer and the
    next state. *)
Record OS (W : Type) : Type := mkOS {
  os_now : W -> Time * W;
  os_stat : string -> W -> option error * W;
  os_mkdirall : string -> Z -> W -> option error * W;
  os_open : string -> Z -> Z -> W -> option error * W;
  os_write : File -> string -> W -> option error * W;
  os_close : File -> W -> W;
  os_readdir : string -> W -> (error + list FileInfo) * W;
  os_readfile : string -> W -> (error + string) * W;
  os_scanln : W -> string * W;
  os_run : Cmd -> W -> option error * W
}.

Arguments os_now {W} _ _.
Arguments os_stat {W} _ _ _.
Arguments os_mkdirall {W} _ _ _ _.
Arguments os_open {W} _ _ _ _ _.
Arguments os_write {W} _ _ _ _.
Arguments os_close {W} _ _ _.
Arguments os_readdir {W} _ _ _.
Arguments os_readfile {W} _ _ _.
Arguments os_scanln {W} _ _.
Arguments os_run {W} _ _ _.

(** What a run leaves behind for an observer: every call with its answer,
    and every text written to the terminal. *)
Inductive event : Type :=
| EvNow (t : Time)
| EvStat (name : string) (r : option error)
| EvMkdirAll (path : string) (perm : Z) (r : option error)
| EvOpenFile (name : string) (flag perm : Z) (r : option error)
| EvWriteString (f : File) (s : string) (r : option error)
| EvClose (f : File)
| EvReadDir (dirname : string) (r : error + list FileInfo)
| EvReadFile (filename : string) (r : error + string)
| EvScanln (s : string)
| EvPrint (s : string)
| EvLogOutput (s : string)
| EvRun (c : Cmd) (r : option error).

(** How a run ends: the function returns, the process exits with a
    status, or the Go runtime panics. *)
Inductive outcome (A : Type) : Type :=
| Returned (a : A)
| Exited (code : Z)
| Panicked (msg : string).

Arguments Returned {A} a.
Arguments Exited {A} code.
Arguments Panicked {A} msg.

Record run_result (W A : Type) : Type := mkRun {
  trace : list event;
  result : outcome A;
  final : W
}.

Arguments mkRun {W A} _ _ _.
Arguments trace {W A} _.
Arguments result {W A} _.
Arguments final {W A} _.

Definition after {W A} (e : event) (r : run_result W A) : run_result W A :=
  mkRun (e :: trace r) (result r) (final r).

Fixpoint exec {W A : Type} (os : OS W) (p : prog A) (w : W) : run_result W A :=
  match p with
  | Ret a => mkRun [] (Returned a) w
  | Exit code => mkRun [] (Exited code) w
  | Panic msg => mkRun [] (Panicked msg) w
  | Now k =>
      let '(t, w') := os_now os w in after (EvNow t) (exec os (k t) w')
  | Stat name k =>
      let '(r, w') := os_stat os name w in
      after (EvStat name r) (exec os (k r) w')
  | MkdirAll path perm k =>
      let '(r, w') := os_mkdirall os path perm w in
      after (EvMkdirAll path perm r) (exec os (k r) w')
  | OpenFile name flag perm k =>
      let '(r, w') := os_open os name flag perm w in
      after (EvOpenFile name flag perm r)
            (exec os (k match r with
                        | Some e => inl e
                        | None => inr (mkFile name flag)
                        end) w')
  | WriteString f s k =>
      let '(r, w') := os_write os f s w in
      after (EvWriteString f s r) (exec os (k r) w')
  | Close f k => after (EvClose f) (exec os k (os_close os f w))
  | ReadDir d k =>
      let '(r, w') := os_readdir os d w in
      after (EvReadDir d r) (exec os (k r) w')
  | ReadFile n k =>
      let '(r, w') := os_readfile os n w in
      after (EvReadFile n r) (exec os (k r) w')
  | Scanln k =>
      let '(s, w') := os_scanln os w in after (EvScanln s) (exec os (k s) w')
  | Print s k => after (EvPrint s) (exec os k w)
  | LogOutput s k => after (EvLogOutput s) (exec os k w)
  | Run c k =>
      let '(r, w') := os_run os c w in after (EvRun c r) (exec os (k r) w')
  end.

(** The exit status of the process when [main] ends this way: 0 when
    [main] returns, the argument of [os.Exit], 2 after a panic. *)
Definition exit_status {A} (o : outcome A) : Z :=
  match o with
  | Returned _ => 0
  | Exited code => code
  | Panicked _ => 2
  end.

(** Running [p] and then [f] on its value. *)
Definition then_run {W A B} (os : OS W) (r : run_result W A)
           (f : A -> prog B) : run_result W B :=
  match result r with
  | Returned a =>
      let r' := exec os (f a) (final r) in
      mkRun (trace r ++ trace r') (result r') (final r')
  | Exited code => mkRun (trace r) (Exited code) (final r)
  | Panicked msg => mkRun (trace r) (Panicked msg) (final r)
  end.

(* ===================================================================== *)
(** ** A file system                                                      *)
(* ===================================================================== *)

(** One world the program can run in: files and directories by path, a
    clock, the words typed at the prompts, paths the process may neither
    create nor open for writing, the room left on the device, and what the
    child process does to the files. *)
Module Posix.

Inductive inode : Type :=
| Dir
| Reg (content : string).

Record world : Type := mkWorld {
  fs : gmap string inode;
  clock : list Time;
  stdin : list string;
  denied : gset string;
  room : option nat;
  child : Cmd -> gmap string inode -> option error * gmap string inode
}.

Definition with_fs (w : world) (fs' : gmap string inode) : world :=
  mkWorld fs' (clock w) (stdin w) (denied w) (room w) (child w).

Definition ENOENT (op path : string) : error :=
  OSError (op +:+ " " +:+ path +:+ ": no such file or directory") true.
Definition EACCES (op path : string) : error :=
  OSError (op +:+ " " +:+ path +:+ ": permission denied") false.
Definition ENOTDIR (op path : string) : error :=
  OSError (op +:+ " " +:+ path +:+ ": not a directory") false.
Definition EISDIR (op path : string) : error :=
  OSError (op +:+ " " +:+ path +:+ ": is a directory") false.
Definition ENOSPC (op path : string) : error :=
  OSError (op +:+ " " +:+ path +:+ ": no space left on device") false.
Definition EBADF (op path : string) : error :=
  OSError (op +:+ " " +:+ path +:+ ": bad file descriptor") false.

Definition epoch : Time := mkTime 1970 1 1 0 0 0 0.

Definition now (w : world) : Time * world :=
  match clock w with
  | [] => (epoch, w)
  | [t] => (t, w)
  | t :: later =>
      (t, mkWorld (fs w) later (stdin w) (denied w) (room w) (child w))
  end.

Definition stat (name : string) (w : world) : option error * world :=
  match fs w !! name with
  | Some _ => (None, w)
  | None => (Some (ENOENT "stat" name), w)
  end.

(** The directory a path lies in ([.] for a single element). *)
Definition parent (path : string) : string :=
  match rev (Split path "/") with
  | _ :: (_ :: _) as above => GoString.Join (rev above) "/"
  | _ => "."
  end.

(** The path itself and the directories above it, outermost first. *)
Fixpoint ancestors (prefix : string) (elems : list string) : list string :=
  match elems with
  | [] => []
  | e :: rest =>
      let p := if String.eqb prefix "" then e else prefix +:+ "/" +:+ e in
      p :: ancestors p rest
  end.

Definition mkdir_one (denied : gset string)
           (st : option error * gmap string inode) (p : string)
  : option error * gmap string inode :=
  match st with
  | (Some e, m) => (Some e, m)
  | (None, m) =>
      match m !! p with
      | Some Dir => (None, m)
      | Some (Reg _) => (Some (ENOTDIR "mkdir" p), m)
      | None =>
          if decide (p ∈ denied) then (Some (EACCES "mkdir" p), m)
          else (None, <[p := Dir]> m)
      end
  end.

Definition mkdirall (path : string) (perm : Z) (w : world)
  : option error * world :=
  let '(r, m) :=
    fold_left (mkdir_one (denied w)) (ancestors "" (Split path "/"))
              (None, fs w) in
  (r, with_fs w m).

Definition has_flag (flag bit : Z) : bool := negb (Z.land flag bit =? 0).

Definition open (name : string) (flag perm : Z) (w : world)
  : option error * world :=
  match fs w !! name with
  | Some Dir => (Some (EISDIR "open" name), w)
  | Some (Reg c) =>
      if decide (name ∈ denied w) then (Some (EACCES "open" name), w)
      else if has_flag flag O_TRUNC then
        (None, with_fs w (<[name := Reg ""]> (fs w)))
      else (None, w)
  | None =>
      if negb (has_flag flag O_CREATE) then (Some (ENOENT "open" name), w)
      else if decide (name ∈ denied w) then (Some (EACCES "open" name), w)
      else
        match parent name, fs w !! parent name with
        | ".", _ | _, Some Dir =>
            (None, with_fs w (<[name := Reg ""]> (fs w)))
        | _, Some (Reg _) => (Some (ENOTDIR "open" name), w)
        | _, None => (Some (ENOENT "open" name), w)
        end
  end.

Definition take (n : nat) (s : string) : string := substring 0 n s.

(** Writing through a fresh handle: at the end of the file when the
    handle was opened with [O_APPEND], else over the bytes from the
    start.  When the device has no room for all of it, the bytes that
    fit are written and the call fails. *)
Definition write (f : File) (s : string) (w : world) : option error * world :=
  match fs w !! file_name f with
  | Some (Reg c) =>
      let n := match room w with
               | Some k => Nat.min k (String.length s)
               | None => String.length s
               end in
      let c' := if has_flag (file_flag f) O_APPEND then c +:+ take n s
                else take n s +:+ drop n c in
      let w' := mkWorld (<[file_name f := Reg c']> (fs w)) (clock w)
                        (stdin w) (denied w)
                        ((fun k => (k - n)%nat) <$> room w) (child w) in
      (if (n <? String.length s)%nat
       then Some (ENOSPC "write" (file_name f)) else None, w')
  | _ => (Some (EBADF "write" (file_name f)), w)
  end.

Fixpoint insert_sorted (x : FileInfo) (l : list FileInfo) : list FileInfo :=
  match l with
  | [] => [x]
  | y :: l' =>
      if String.leb (Name x) (Name y) then x :: l
      else y :: insert_sorted x l'
  end.

(** The entries of a directory, sorted by name. *)
Definition readdir (dirname : string) (w : world)
  : (error + list FileInfo) * world :=
  let d := filepath.Clean dirname in
  match (if String.eqb d "." then Some Dir else fs w !! d) with
  | Some Dir =>
      let entry (kv : string * inode) : option FileInfo :=
        if String.eqb (parent (fst kv)) d then
          Some (mkFileInfo
                  (default "" (last (Split (fst kv) "/")))
                  (match snd kv with Dir => true | Reg _ => false end))
        else None in
      (inr (fold_right insert_sorted []
              (omap entry (map_to_list (fs w)))), w)
  | Some (Reg _) => (inl (ENOTDIR "open" dirname), w)
  | None => (inl (ENOENT "open" dirname), w)
  end.

Definition readfile (name : string) (w : world) : (error + string) * world :=
  match fs w !! name with
  | Some (Reg c) => (inr c, w)
  | Some Dir => (inl (EISDIR "read" name), w)
  | None => (inl (ENOENT "open" name), w)
  end.

Definition scanln (w : world) : string * world :=
  match stdin w with
  | [] => ("", w)
  | word :: later =>
      (word, mkWorld (fs w) (clock w) later (denied w) (room w) (child w))
  end.

Definition run (c : Cmd) (w : world) : option error * world :=
  let '(r, m) := child w c (fs w) in (r, with_fs w m).

Definition os : OS world :=
  mkOS world now stat mkdirall open write (fun _ w => w) readdir readfile
       scanln run.

(** The bytes of the regular file at a path; none when there is no such
    file. *)
Definition content (w : world) (path : string) : string :=
  match fs w !! path with
  | Some (Reg c) => c
  | _ => ""
  end.

(** Every regular file keeps its bytes, and only the log file may have
    bytes added after them. *)
Definition grows (m m' : gmap string inode) : Prop :=
  forall p c, m !! p = Some (Reg c) ->
              exists added, m' !! p = Some (Reg (c +:+ added)) /\
                            (p <> logFile -> added = "").

(** The flags [writeLog] opens the log file with. *)
Definition append_flags : Z := Z.lor (Z.lor O_APPEND O_CREATE) O_WRONLY.

(** Error texts for the examples: the system's text for a system error,
    the formats of [strconv] and [encoding/json] for theirs (a quoted
    string is shown between plain quotes, a syntax error without its
    position). *)
#[global] Instance error_text : ErrorText := fun e =>
  match e with
  | OSError text _ => text
  | NumError fn num range =>
      "strconv." +:+ fn +:+ ": parsing " +:+ dquote +:+ num +:+ dquote
      +:+ (if range then ": value out of range" else ": invalid syntax")
  | SyntaxError => "invalid character in JSON input"
  | UnmarshalTypeError v field =>
      "json: cannot unmarshal " +:+ v +:+ " into Go struct field "
      +:+ field
  | XMLError text => text
  end.

End Posix.

(** An XML reader for the examples: element trees, a reader that knows the
    documents of a table, and the search for the thread-count element in
    document order. *)
Module XmlTree.

#[warnings="-register-all"]
Inductive tree : Type :=
| Document (children : list tree)
| Element (name : string) (attrs : list (string * string))
          (children : list tree)
| Text (data : string).

Fixpoint inner_text (t : tree) : string :=
  match t with
  | Document cs | Element _ _ cs =>
      fold_right (fun c s => inner_text c +:+ s) "" cs
  | Text d => d
  end.

Definition is_thread_count (name : string) (attrs : list (string * string))
  : bool :=
  String.eqb name "intProp" &&
  existsb (fun kv => String.eqb (fst kv) "name" &&
                     String.eqb (snd kv) "ThreadGroup.num_threads") attrs.

Fixpoint find (t : tree) : option tree :=
  let among := fix among (cs : list tree) : option tree :=
    match cs with
    | [] => None
    | c :: cs' =>
        match find c with
        | Some n => Some n
        | None => among cs'
        end
    end in
  match t with
  | Document cs => among cs
  | Element name attrs cs =>
      if is_thread_count name attrs then Some t else among cs
  | Text _ => None
  end.

Definition reader (table : list (string * tree)) : XmlQuery := {|
  Node := tree;
  xmlquery_Parse := fun data =>
    match List.find (fun kv => String.eqb (fst kv) data) table with
    | Some (_, t) => inr t
    | None => inl (XMLError "XML syntax error")
    end;
  xmlquery_FindOne := fun doc expr =>
    if String.eqb expr "//intProp[@name='ThreadGroup.num_threads']"
    then find doc else None;
  InnerText := inner_text
|}.

End XmlTree.

(* ===================================================================== *)
(** ** Observations on a run                                              *)
(* ===================================================================== *)

(** A directory could not be created. *)
Definition mkdir_failed (tr : list event) : bool :=
  existsb (fun ev => match ev with
                     | EvMkdirAll _ _ (Some _) => true
                     | _ => false
                     end) tr.

(** The commands launched, in order. *)
Definition commands (tr : list event) : list Cmd :=
  omap (fun ev => match ev with
                  | EvRun c _ => Some c
                  | _ => None
                  end) tr.

(** The answer to the first directory listing. *)
Definition listing (tr : list event) : option (error + list FileInfo) :=
  head (omap (fun ev => match ev with
                        | EvReadDir _ r => Some r
                        | _ => None
                        end) tr).

(** The first word read from the terminal. *)
Definition first_word (tr : list event) : option string :=
  head (omap (fun ev => match ev with
                        | EvScanln s => Some s
                        | _ => None
                        end) tr).

(** The texts the logger wrote to the terminal. *)
Definition logger_output (tr : list event) : list string :=
  omap (fun ev => match ev with
                  | EvLogOutput s => Some s
                  | _ => None
                  end) tr.

(** A program that writes to the terminal and then exits with status 1. *)
Inductive dying {A : Type} : prog A -> Prop :=
| dying_Exit : dying (Exit 1)
| dying_Print s k : dying k -> dying (Print s k)
| dying_LogOutput s k : dying k -> dying (LogOutput s k).

(** A program that lists no directory, never panics, dies after every
    failure to create a directory and has no other way to exit; it may
    launch a command only when [launches] is set. *)
Inductive tame (launches : bool) {A : Type} : prog A -> Prop :=
| tame_Ret a : tame launches (Ret a)
| tame_Now k : (forall t, tame launches (k t)) -> tame launches (Now k)
| tame_Stat name k :
    (forall r, tame launches (k r)) -> tame launches (Stat name k)
| tame_MkdirAll path perm k :
    tame launches (k None) -> (forall e, dying (k (Some e))) ->
    tame launches (MkdirAll path perm k)
| tame_OpenFile name flag perm k :
    (forall r, tame launches (k r)) -> tame launches (OpenFile name flag perm k)
| tame_WriteString f s k :
    (forall r, tame launches (k r)) -> tame launches (WriteString f s k)
| tame_Close f k : tame launches k -> tame launches (Close f k)
| tame_ReadFile n k :
    (forall r, tame launches (k r)) -> tame launches (ReadFile n k)
| tame_Scanln k : (forall s, tame launches (k s)) -> tame launches (Scanln k)
| tame_Print s k : tame launches k -> tame launches (Print s k)
| tame_LogOutput s k : tame launches k -> tame launches (LogOutput s k)
| tame_Run c k :
    launches = true -> (forall r, tame launches (k r)) ->
    tame launches (Run c k).

(** The outcome of a run that goes on with a program that only
    returns [b]. *)
Definition and_return {A B : Type} (o : outcome A) (b : B) : outcome B :=
  match o with
  | Returned _ => Returned b
  | Exited code => Exited code
  | Panicked msg => Panicked msg
  end.

(** What is printed after a call to the logger: nothing when the logger
    ended the process. *)
Definition printed_after {A : Type} (o : outcome A) (s : string) : list event :=
  match o with
  | Returned _ => [EvPrint s]
  | _ => []
  end.

(** The test of [listJMXFiles] on a directory entry. *)
Definition is_jmx (file : FileInfo) : bool :=
  negb (IsDir file) && HasSuffix (Name file) ".jmx".

(** A fatal condition met in world [w]: the message goes to the logger,
    the diagnostic is printed (unless the logger ended the process) and the
    process exits with status 1.  [before] is what the run did until
    then. *)
Definition stops {W A} {texts : ErrorText} (os : OS W) (r : run_result W A)
           (before : list event) (w : W) (msg diag : string) : Prop :=
  let l := exec os (writeLog msg) w in
  result r = Exited 1 /\
  trace r = before ++ trace l ++ printed_after (result l) (diag +:+ nl).

(** A word that selects one of [jmxFiles]. *)
Definition valid_choice (jmxFiles : list string) (choice : string) : bool :=
  match Atoi choice with
  | inr index => (1 <=? index) && (index <=? Z.of_nat (length jmxFiles))
  | inl _ => false
  end.

(** The fatal conditions of a run of [main], read off its trace: a
    directory could not be created, the listing failed, it held no test
    plan, or the word typed at the first prompt selects none. *)
Definition exit_cause (tr : list event) : bool :=
  mkdir_failed tr ||
  match listing tr with
  | Some (inl _) => true
  | Some (inr files) =>
      match map Name (List.filter is_jmx files) with
      | [] => true
      | jmxFiles =>
          match first_word tr with
          | Some choice => negb (valid_choice jmxFiles choice)
          | None => false
          end
      end
  | None => false
  end.

(** The name [getResultFilename] makes of a word that is not blank. *)
Definition with_suffix (name suffix : string) : string :=
  if HasSuffix name suffix then name else name +:+ suffix.

(* ===================================================================== *)
(** ** More observations, and properties of runs                          *)
(* ===================================================================== *)

(** The words read from the terminal, in order. *)
Definition words (tr : list event) : list string :=
  omap (fun ev => match ev with
                  | EvScanln s => Some s
                  | _ => None
                  end) tr.

(** The files read, in order. *)
Definition files_read (tr : list event) : list string :=
  omap (fun ev => match ev with
                  | EvReadFile n _ => Some n
                  | _ => None
                  end) tr.

(** The texts written to standard output, in order. *)
Definition printed (tr : list event) : list string :=
  omap (fun ev => match ev with
                  | EvPrint s => Some s
                  | _ => None
                  end) tr.

(** Every run of [p], in every world, leaves a trace with the
    property [P]. *)
Definition always {A : Type} (P : list event -> Prop) (p : prog A) : Prop :=
  forall (W : Type) (os : OS W) (w : W), P (trace (exec os p w)).

(** The same open file: the same name opened with the same flags. *)
Definition File_eqb (f g : File) : bool :=
  String.eqb (file_name f) (file_name g) && (file_flag f =? file_flag g).

(** Closing [f]: one of the handles on it goes. *)
Fixpoint close_one (f : File) (open : list File) : list File :=
  match open with
  | [] => []
  | g :: rest => if File_eqb f g then rest else g :: close_one f rest
  end.

(** The files the process holds open after the events [tr], having held
    [open] before them. *)
Fixpoint left_open (open : list File) (tr : list event) : list File :=
  match tr with
  | [] => open
  | EvOpenFile name flag _ None :: rest =>
      left_open (mkFile name flag :: open) rest
  | EvClose f :: rest => left_open (close_one f open) rest
  | _ :: rest => left_open open rest
  end.

(** The events [tr], starting with the files [open], use files in
    order: a write and a close go to a file that is open, and a command
    is launched while no file is open. *)
Fixpoint disciplined (open : list File) (tr : list event) : bool :=
  match tr with
  | [] => true
  | EvOpenFile name flag _ None :: rest =>
      disciplined (mkFile name flag :: open) rest
  | EvWriteString f _ _ :: rest =>
      existsb (File_eqb f) open && disciplined open rest
  | EvClose f :: rest =>
      existsb (File_eqb f) open && disciplined (close_one f open) rest
  | EvRun _ _ :: rest =>
      match open with
      | [] => disciplined open rest
      | _ => false
      end
  | _ :: rest => disciplined open rest
  end.

(** What [ensureDir] and [writeLog] may do: read the clock, look at a
    directory and create it with mode 0755, open the log file for
    appending with mode 0644, write to it and close it, and tell the
    logger.  They read no file, list no directory, ask and print
    nothing on standard output, and launch nothing. *)
Definition log_event (ev : event) : Prop :=
  match ev with
  | EvNow _ | EvStat _ _ | EvLogOutput _ => True
  | EvMkdirAll _ perm _ => perm = 493
  | EvOpenFile name flag perm _ =>
      name = logFile /\ flag = Posix.append_flags /\ perm = 420
  | EvWriteString f _ _ | EvClose f => f = mkFile logFile Posix.append_flags
  | _ => False
  end.

(** What the program may do to the world around it: create directories
    with mode 0755, list the working directory, open the log file for
    appending and write to it, and launch [jmeter] on its own terminal;
    besides, it looks at directories, reads files, the clock and the
    terminal, and prints. *)
Definition main_event (ev : event) : Prop :=
  match ev with
  | EvOpenFile name flag perm _ =>
      name = logFile /\ flag = Posix.append_flags /\ perm = 420
  | EvWriteString f _ _ | EvClose f => f = mkFile logFile Posix.append_flags
  | EvMkdirAll _ perm _ => perm = 493
  | EvReadDir d _ => d = "."
  | EvRun c _ =>
      Path c = "jmeter" /\ Stdout c = Some os_Stdout /\
      Stderr c = Some os_Stderr
  | _ => True
  end.

(** The names the three prompts of [main] make of the word read, [t]
    being the time read when the word is blank. *)
Definition result_name (word : string) (t : Time) : string :=
  let name := TrimSpace word in
  if String.eqb name "" then "result_" +:+ time.Format_compact t +:+ ".jtl"
  else with_suffix name ".jtl".

Definition folder_name (word : string) (t : Time) : string :=
  let folder := TrimSpace word in
  if String.eqb folder "" then "report_" +:+ time.Format_compact t
  else folder.

Definition debug_name (word : string) (t : Time) : string :=
  let name := TrimSpace word in
  if String.eqb name "" then "Debug_" +:+ time.Format_compact t +:+ ".log"
  else with_suffix name ".log".

(** An event that is no question on the terminal and no launch. *)
Definition silent_event (ev : event) : Prop :=
  match ev with
  | EvScanln _ | EvRun _ _ => False
  | _ => True
  end.

(** An event of a program that asks nothing, lists nothing and launches
    no command but [cmd]. *)
Definition launch_event (cmd : Cmd) (ev : event) : Prop :=
  match ev with
  | EvScanln _ | EvReadDir _ _ => False
  | EvRun c _ => c = cmd
  | _ => True
  end.

(** The launched command failed. *)
Definition run_failed (tr : list event) : bool :=
  existsb (fun ev => match ev with
                     | EvRun _ (Some _) => true
                     | _ => false
                     end) tr.

(** The trace uses files in order from its first event on, and leaves
    none open. *)
Definition tidy (tr : list event) : Prop :=
  disciplined [] tr = true /\ left_open [] tr = [].

(** An event that opens no file and uses none. *)
Definition fileless (ev : event) : Prop :=
  match ev with
  | EvOpenFile _ _ _ _ | EvWriteString _ _ _ | EvClose _ => False
  | _ => True
  end.

(** A property [P] of traces that can be checked event by event: it
    holds of the empty trace, of a trace with one more event in front
    that passes [Q], and of two traces one after the other. *)
Record stepwise (P : list event -> Prop) (Q : event -> Prop) : Prop := {
  step_nil : P [];
  step_cons : forall ev tr, Q ev -> P tr -> P (ev :: tr);
  step_app : forall a b, P a -> P b -> P (a ++ b)
}.

(** An event of a program that lists nothing and launches nothing. *)
Definition prompt_event (ev : event) : Prop :=
  match ev with
  | EvReadDir _ _ | EvRun _ _ => False
  | _ => True
  end.

(* ===================================================================== *)
(** ** The log of a run                                                   *)
(* ===================================================================== *)

(** The strings handed to [WriteString], in order. *)
Definition written (tr : list event) : list string :=
  omap (fun ev => match ev with
                  | EvWriteString _ s _ => Some s
                  | _ => None
                  end) tr.

(** The readings of the clock, in order. *)
Definition readings (tr : list event) : list Time :=
  omap (fun ev => match ev with
                  | EvNow t => Some t
                  | _ => None
                  end) tr.

(** The line [writeLog] makes of a message at time [t]. *)
Definition log_line (t : Time) (msg : string) : string :=
  "[" +:+ time.Format_datetime t +:+ "] " +:+ msg +:+ nl.

Section Reports.

Context {error_text : ErrorText} {xml : XmlQuery}.

(** Calls of [writeLog] in a row. *)
Fixpoint log_all (msgs : list string) : prog unit :=
match msgs with
| [] => Ret tt
| msg :: rest =>
    match rest with
    | [] => writeLog msg
    | _ :: _ => writeLog msg;; log_all rest
    end
end.

(** What [parseThreadCount] logs and returns, by what reading the test
  plan gave. *)
Definition thread_report (read : error + string) : list string * Z :=
match read with
| inl err => (["读取JMX文件失败: " +:+ Error err], 0)
| inr data =>
    match xmlquery_Parse data with
    | inl err => (["解析XML失败: " +:+ Error err], 0)
    | inr doc =>
        match xmlquery_FindOne doc thread_count_query with
        | None => (["未找到线程数配置"], 0)
        | Some node =>
            match Atoi (InnerText node) with
            | inl err => (["转换线程数失败: " +:+ Error err], 0)
            | inr count => ([], count)
            end
        end
    end
end.

(** What [parseStatistics] returns, by what reading the statistics
  file gave. *)
Definition statistics_of (read : error + string) : error + Statistics :=
match read with
| inl err => inl err
| inr data => Unmarshal.Unmarshal data
end.

(** The messages [runJMeter] logs after a command that succeeded, by
  the thread count and the statistics. *)
Definition stats_report (threadCount : Z) (parsed : error + Statistics)
: list string :=
match parsed with
| inr stats =>
    ["====== 测试统计信息 ======";
     "线程数：" +:+ Itoa threadCount;
     "报错率：" +:+ format_f2 (ErrorPct (Total stats)) +:+ "%";
     "吞吐量：" +:+ format_f2 (Throughput (Total stats));
     "响应时间：" +:+ format_f2 (MeanResTime (Total stats)) +:+ " ms";
     "总请求数：" +:+ Itoa (SampleCount (Total stats));
     "总错误数：" +:+ Itoa (Errorcount (Total stats));
     "=========================="]
| inl e => ["解析统计数据失败: " +:+ Error e]
end.

(** The messages [runJMeter] logs, by the two readings of the clock
  around the command, what the command returned and what reading the
  test plan and the statistics file gave. *)
Definition run_report (jmxFile resultFile reportFolder debugFile : string)
         (startTime endTime : Time) (err : option error)
         (plan statistics : error + string) : list string :=
let duration := time.Seconds (time.Sub endTime startTime) in
["开始执行命令：";
 GoString.Join ["jmeter"; "-n"; "-t"; jmxFile; "-l"; resultFile; "-e";
                "-o"; reportFolder; "-j"; debugFile] " "] ++
match err with
| Some e =>
    ["命令执行失败，耗时 " +:+ format_f2 duration +:+ " 秒。错误: " +:+ Error e]
| None =>
    ["命令执行成功，耗时 " +:+ format_f2 duration +:+ " 秒。"] ++
    fst (thread_report plan) ++
    stats_report (snd (thread_report plan)) (statistics_of statistics)
end.

End Reports.

(* ===================================================================== *)
(** ** Example worlds                                                     *)
(* ===================================================================== *)

Module Examples.

Import Posix XmlTree.

Definition noon : Time := mkTime 2024 3 9 12 0 0 0.

Definition idle (c : Cmd) (m : gmap string inode)
  : option error * gmap string inode := (None, m).

(** A working directory in which [Debug] may not be created. *)
Definition locked : world :=
  mkWorld ∅ [noon] [] {["Debug"]} None idle.

(** An operator who types one word. *)
Definition typed (word : string) : world :=
  mkWorld ∅ [noon] [word] ∅ None idle.

(** A test plan with the given text as its thread count. *)
Definition plan (threads : string) : string :=
  "<jmeterTestPlan><intProp name=" +:+ dquote +:+ "ThreadGroup.num_threads"
  +:+ dquote +:+ ">" +:+ threads +:+ "</intProp></jmeterTestPlan>".

Definition plan_tree (threads : string) : tree :=
  Document
    [Element "jmeterTestPlan" []
       [Element "intProp" [("name", "ThreadGroup.num_threads")]
          [Text threads]]].

Definition reads (threads : string) : XmlQuery :=
  reader [(plan threads, plan_tree threads)].

Definition holding (threads : string) : world :=
  mkWorld (<["Debug" := Dir]> (<["plan.jmx" := Reg (plan threads)]> ∅))
          [noon] [] ∅ None idle.

Definition quoted (s : string) : string := dquote +:+ s +:+ dquote.

(** The statistics of the specification's example. *)
Definition summary : string :=
  "{" +:+ quoted "Total" +:+ ": {" +:+
  quoted "sampleCount" +:+ ": 100, " +:+
  quoted "errorPct" +:+ ": 2.5, " +:+
  quoted "meanResTime" +:+ ": 123.4, " +:+
  quoted "throughput" +:+ ": 50.0, " +:+
  quoted "errorCount" +:+ ": 2}}".

(** The struct the example decodes to. *)
Definition summary_stats : Statistics :=
  mkStatistics
    (mkTotal 100 (Float64.div (of_int 5) (of_int 2))
             (Float64.div (of_int 1234) (of_int 10)) (of_int 50) 2).

(** A summary that gives [sampleCount] a fraction and no other field. *)
Definition fraction : string :=
  "{" +:+ quoted "Total" +:+ ": {" +:+ quoted "sampleCount" +:+ ": 1.5}}".

(** A report folder holding the given statistics. *)
Definition report (statistics : string) : world :=
  mkWorld (<["Reporter/run/statistics.json" := Reg statistics]>
           (<["Reporter/run" := Dir]> (<["Reporter" := Dir]> ∅)))
          [noon] [] ∅ None idle.

(** A working directory with one test plan, the three directories in
    place, and an operator who picks the plan and names the outputs. *)
Definition session (denied : gset string)
           (child : Cmd -> gmap string inode
                    -> option error * gmap string inode) : world :=
  mkWorld (<["plan.jmx" := Reg (plan "7")]>
           (<["Reporter" := Dir]> (<["Jtl" := Dir]> (<["Debug" := Dir]> ∅))))
          [noon] ["1"; "out"; "run1"; "trace"] denied None child.

(** A [jmeter] that cannot be launched. *)
Definition missing (c : Cmd) (m : gmap string inode)
  : option error * gmap string inode :=
  (Some (OSError "exec: jmeter: executable file not found in $PATH" false), m).

(** A reading of the clock five milliseconds after [noon]. *)
Definition later : Time := mkTime 2024 3 9 12 0 0 5000000.

(** A world in which nothing has happened yet but the time. *)
Definition at_time (t : Time) : world :=
  mkWorld ∅ [t] [] ∅ None idle.

(** The command of the session: the plan, and the outputs as named. *)
Definition launched : Cmd :=
  {| Path := "jmeter";
     Args := ["jmeter"; "-n"; "-t"; "plan.jmx"; "-l"; "Jtl/out.jtl"; "-e";
              "-o"; "Reporter/run1"; "-j"; "Debug/trace.log"];
     Stdout := Some os_Stdout;
     Stderr := Some os_Stderr |}.

(** The session after a test that went well: the report folder holds
    the statistics of the specification's example. *)
Definition finished : world :=
  mkWorld (<["Reporter/run1/statistics.json" := Reg summary]>
           (<["Reporter/run1" := Dir]>
           (<["plan.jmx" := Reg (plan "7")]>
           (<["Reporter" := Dir]> (<["Jtl" := Dir]> (<["Debug" := Dir]> ∅))))))
          [noon; later] [] ∅ None idle.

End Examples.

(* ===================================================================== *)
(** * Properties                                                         *)
(* ===================================================================== *)

(* ===================================================================== *)
(** ** The library functions on known inputs                              *)
(* ===================================================================== *)

Module Known.

Import Examples.

Example TrimSpace_both_ends :
  TrimSpace (bytes [32; 9]%nat +:+ "run 7" +:+ bytes [13; 10]%nat) = "run 7"
  /\ TrimSpace (bytes [194; 160; 32; 227; 128; 128]%nat) = ""
  /\ TrimSpace "x" = "x".
Proof. repeat split. Qed.

Example HasSuffix_bytes :
  HasSuffix "a.jtl" ".jtl" = true /\ HasSuffix "jtl" ".jtl" = false
  /\ HasSuffix "a.JTL" ".jtl" = false /\ HasSuffix ".jtl" ".jtl" = true.
Proof. repeat split. Qed.

Example Atoi_forms :
  Atoi "7" = inr 7 /\ Atoi "+07" = inr 7 /\ Atoi "-12" = inr (-12)
  /\ Atoi "" = inl (NumError "Atoi" "" false)
  /\ Atoi " 7" = inl (NumError "Atoi" " 7" false)
  /\ Atoi "1_000" = inl (NumError "Atoi" "1_000" false)
  /\ Atoi "9223372036854775807" = inr 9223372036854775807
  /\ Atoi "-9223372036854775808" = inr (-9223372036854775808)
  /\ Atoi "-9223372036854775809"
     = inl (NumError "Atoi" "-9223372036854775809" true).
Proof. repeat split. Qed.

Example Itoa_forms :
  Itoa 0 = "0" /\ Itoa 7 = "7" /\ Itoa (-120) = "-120"
  /\ Itoa 1024 = "1024" /\ pad 2 5 = "05" /\ pad 4 12345 = "12345".
Proof. repeat split. Qed.

Example Clean_rules :
  filepath.Clean "a//b/./c/.." = "a/b" /\ filepath.Clean "../../a" = "../../a"
  /\ filepath.Clean "/../a" = "/a" /\ filepath.Clean "a/.." = "."
  /\ filepath.Clean "" = "." /\ filepath.Clean "a/b/../../.." = ".."
  /\ filepath.Clean "abc/" = "abc".
Proof. repeat split. Qed.

Example Join_rules :
  filepath.Join ["Debug"; "pmeter.log"] = "Debug/pmeter.log"
  /\ filepath.Join [""; "a"] = "a" /\ filepath.Join ["a"; ""] = "a"
  /\ filepath.Join [""; ""] = ""
  /\ filepath.Join ["Reporter/run"; "statistics.json"]
     = "Reporter/run/statistics.json".
Proof. repeat split. Qed.

Example Format_layouts :
  time.Format_datetime (mkTime 2024 3 9 7 5 1 0) = "2024-03-09 07:05:01"
  /\ time.Format_compact (mkTime 2024 3 9 7 5 1 0) = "20240309_070501".
Proof. repeat split. Qed.

(** The nearest doubles: 0.1 is 0x1999999999999A * 2^-56, and 1e23
    rounds down. *)
Example ParseFloat_nearest :
  ParseFloat "0.1" = inr (S754_finite false 7205759403792794 (-56))
  /\ ParseFloat "1e23" = inr (S754_finite false 5960464477539062 24)
  /\ ParseFloat "2.5" = inr (S754_finite false 5629499534213120 (-51))
  /\ ParseFloat "-0" = inr (S754_zero true)
  /\ ParseFloat "1e400" = inl (NumError "ParseFloat" "1e400" true)
  /\ ParseFloat "1e-400" = inr (S754_zero false).
Proof. repeat split; vm_compute; reflexivity. Qed.

Example format_f2_rounds :
  format_f2 (of_int 3) = "3.00"
  /\ format_f2 (Float64.div (of_int 1) (of_int 3)) = "0.33"
  /\ format_f2 (Float64.div (of_int (-2)) (of_int 3)) = "-0.67"
  /\ format_f2 (Float64.div (of_int 1) (of_int 8)) = "0.12"
  /\ format_f2 (Float64.div (of_int 3) (of_int 8)) = "0.38"
  /\ format_f2 (time.Seconds 1234567890) = "1.23".
Proof. repeat split; vm_compute; reflexivity. Qed.

Example parse_values :
  Json.parse summary
  = Some (JObject
            [("Total",
              JObject [("sampleCount", JNumber "100");
                       ("errorPct", JNumber "2.5");
                       ("meanResTime", JNumber "123.4");
                       ("throughput", JNumber "50.0");
                       ("errorCount", JNumber "2")])])
  /\ Json.parse "[1, -0.5e+3, true, null, {}]"
     = Some (JArray [JNumber "1"; JNumber "-0.5e+3"; JBool true; JNull;
                     JObject []])
  /\ Json.parse "01" = None /\ Json.parse "[1,]" = None
  /\ Json.parse "{} x" = None /\ Json.parse "" = None.
Proof. repeat split; vm_compute; reflexivity. Qed.

(** Keys are matched without regard to case, the last value wins,
    [null] changes nothing and unknown keys are skipped. *)
Example Unmarshal_keys :
  Unmarshal.Unmarshal
    ("{" +:+ quoted "total" +:+ ": {" +:+ quoted "SAMPLECOUNT" +:+ ": 7, "
     +:+ quoted "sampleCount" +:+ ": 9, " +:+ quoted "samplecount"
     +:+ ": null, " +:+ quoted "other" +:+ ": [1]}}")
  = inr (mkStatistics (mkTotal 9 zero zero zero 0))
  /\ Unmarshal.Unmarshal "[]" = inl (UnmarshalTypeError "array" "")
  /\ Unmarshal.Unmarshal "null" = inr Unmarshal.zero_stats
  /\ Unmarshal.Unmarshal "{" = inl SyntaxError.
Proof. repeat split; vm_compute; reflexivity. Qed.

End Known.

(* ===================================================================== *)
(** ** Laws of running                                                    *)
(* ===================================================================== *)

Section Laws.

Context {W : Type} (os : OS W).

Lemma then_run_after {A B} (e : event) (r : run_result W A) (f : A -> prog B) :
  then_run os (after e r) f = after e (then_run os r f).
Proof. unfold then_run, after; simpl. destruct (result r); reflexivity. Qed.

Lemma exec_bind {A B} (p : prog A) (f : A -> prog B) (w : W) :
  exec os (bind p f) w = then_run os (exec os p w) f.
Proof.
  revert w; induction p; intros w; simpl;
    repeat match goal with
           | |- context [let '(_, _) := ?x in _] => destruct x
           end;
    rewrite ?then_run_after; try (f_equal; auto).
  unfold then_run; simpl. destruct (exec os (f a) w); reflexivity.
Qed.

Lemma dying_exec {A} (p : prog A) (w : W) :
  dying p ->
  result (exec os p w) = Exited 1 /\
  mkdir_failed (trace (exec os p w)) = false /\
  commands (trace (exec os p w)) = [] /\
  listing (trace (exec os p w)) = None /\
  first_word (trace (exec os p w)) = None /\
  final (exec os p w) = w.
Proof.
  induction 1; simpl; [repeat split; reflexivity | |];
    destruct IHdying as (-> & Hm & Hc & Hl & Hf & ->);
    repeat split; first [reflexivity | assumption].
Qed.

End Laws.

Lemma dying_bind {A B} (p : prog A) (f : A -> prog B) : dying p -> dying (p ≫= f).
Proof. induction 1; simpl; constructor; auto. Qed.

Lemma tame_bind l {A B} (p : prog A) (f : A -> prog B) :
  tame l p -> (forall a, tame l (f a)) -> tame l (p ≫= f).
Proof.
  intros Hp Hf; induction Hp; simpl; auto;
    constructor; auto; intros e; apply (dying_bind (k (Some e)) f); auto.
Qed.

Lemma tame_launches {A} (p : prog A) : tame false p -> tame true p.
Proof. induction 1; constructor; auto. Qed.

(** Taking the answers of the world apart. *)
Ltac answers :=
  repeat match goal with
         | |- context [let '(_, _) := ?x in _] => destruct x eqn:?
         end.

Lemma tame_sound (l : bool) {A} (p : prog A) :
  tame l p ->
  forall W (os : OS W) (w : W),
    listing (trace (exec os p w)) = None /\
    (l = false -> commands (trace (exec os p w)) = []) /\
    ((exists a, result (exec os p w) = Returned a) /\
     mkdir_failed (trace (exec os p w)) = false \/
     result (exec os p w) = Exited 1 /\
     mkdir_failed (trace (exec os p w)) = true).
Proof.
  induction 1; intros W os w; simpl; answers; simpl;
    try (match goal with
         | IH : forall _ _ _ _, _ /\ _ |- _ => apply IH
         | IH : forall _ _ _, _ /\ _ |- _ => apply IH
         end; fail).
  - repeat split; eauto.
  - destruct o as [e|].
    + destruct (dying_exec os (k (Some e)) w0 (H0 e)) as (Hr & _ & Hc & Hl & _).
      repeat split; auto.
    + apply IHtame.
  - subst l. destruct (H1 o W os w0) as (Hl & Hc & Hr). repeat split; auto.
    discriminate.
Qed.

(* ===================================================================== *)
(** ** The functions of [run.go] that are tame                            *)
(* ===================================================================== *)

Create HintDb tame.

Ltac tame_step :=
  match goal with
  | |- forall _, _ => intro
  | |- dying _ => constructor
  | |- tame _ (bind (match ?x with _ => _ end) _) => destruct x
  | |- tame _ (bind _ _) => apply tame_bind; [solve [auto with tame] |]
  | |- tame _ (match ?x with _ => _ end) => destruct x
  | |- tame _ _ => solve [auto with tame]
  | |- tame _ _ => constructor
  | |- _ = _ => reflexivity
  | |- _ => progress cbn [bind]
  end.

Ltac tame_tac := unfold mbind, prog_bind; cbn [bind]; repeat tame_step.

Section Tame.

Context {error_text : ErrorText} {xml : XmlQuery}.

Lemma tame_ensureDir l dir : tame l (ensureDir dir).
Proof. unfold ensureDir, os_Stat, os_MkdirAll, log_Fatalf. tame_tac. Qed.
Hint Resolve tame_ensureDir : tame.

Lemma tame_writeLog l msg : tame l (writeLog msg).
Proof.
  unfold writeLog, time_Now, os_OpenFile, file_WriteString, file_Close,
    log_Println.
  tame_tac.
Qed.
Hint Resolve tame_writeLog : tame.

Lemma tame_getTimestamp l : tame l getTimestamp.
Proof. unfold getTimestamp, time_Now. tame_tac. Qed.
Hint Resolve tame_getTimestamp : tame.

Lemma tame_getResultFilename l : tame l getResultFilename.
Proof. unfold getResultFilename, fmt_Print, fmt_Scanln. tame_tac. Qed.

Lemma tame_getReportFolder l : tame l getReportFolder.
Proof. unfold getReportFolder, fmt_Print, fmt_Scanln. tame_tac. Qed.

Lemma tame_getRDebugFilename l : tame l getRDebugFilename.
Proof. unfold getRDebugFilename, fmt_Print, fmt_Scanln. tame_tac. Qed.

Lemma tame_parseThreadCount l jmxFile : tame l (parseThreadCount jmxFile).
Proof. unfold parseThreadCount, ioutil_ReadFile. tame_tac. Qed.

Lemma tame_parseStatistics l reportFolder : tame l (parseStatistics reportFolder).
Proof. unfold parseStatistics, ioutil_ReadFile. tame_tac. Qed.

Lemma stats_map_errorPct s :
  stats_map s !! "errorPct" = Some (VFloat (ErrorPct (Total s))).
Proof. reflexivity. Qed.

Lemma stats_map_throughput s :
  stats_map s !! "throughput" = Some (VFloat (Throughput (Total s))).
Proof. reflexivity. Qed.

Lemma stats_map_meanResTime s :
  stats_map s !! "meanResTime" = Some (VFloat (MeanResTime (Total s))).
Proof. reflexivity. Qed.

Lemma stats_map_sampleCount s :
  stats_map s !! "sampleCount" = Some (VInt (SampleCount (Total s))).
Proof. reflexivity. Qed.

Lemma stats_map_Errorcount s :
  stats_map s !! "Errorcount" = Some (VInt (Errorcount (Total s))).
Proof. reflexivity. Qed.

(** [parseStatistics] hands its caller an error or the map literal. *)
Lemma tame_parseStatistics_bind l reportFolder {B}
      (f : error + gmap string value -> prog B) :
  (forall e, tame l (f (inl e))) ->
  (forall s, tame l (f (inr (stats_map s)))) ->
  tame l (parseStatistics reportFolder ≫= f).
Proof.
  intros Herr Hok. unfold parseStatistics, ioutil_ReadFile, mbind, prog_bind.
  cbn [bind]. constructor. intros [e | data]; cbn [bind]; auto.
  destruct (Unmarshal.Unmarshal data); cbn [bind]; auto.
Qed.

(** The type assertions of [runJMeter] never panic: the keys it reads
    are the keys [parseStatistics] writes. *)
Lemma tame_summarize l jmxFile reportFolder startTime endTime err :
  tame l (summarize jmxFile reportFolder startTime endTime err).
Proof.
  pose proof tame_parseThreadCount.
  unfold summarize, fmt_Println, mbind, prog_bind.
  destruct err as [e |].
  - apply tame_bind; [solve [auto with tame] | intros _]. tame_tac.
  - apply tame_bind; [solve [auto with tame] | intros _].
    apply tame_bind; [solve [auto with tame] | intros threadCount].
    apply tame_parseStatistics_bind; [intros e; auto with tame |].
    intros s. rewrite stats_map_errorPct, stats_map_throughput,
      stats_map_meanResTime, stats_map_sampleCount, stats_map_Errorcount.
    unfold assert_float64, assert_int. cbn [bind].
    repeat (apply tame_bind; [solve [auto with tame] | intros _]).
    auto with tame.
Qed.
Hint Resolve tame_summarize : tame.

Lemma tame_runJMeter jmxFile resultFile reportFolder debugFile :
  tame true (runJMeter jmxFile resultFile reportFolder debugFile).
Proof.
  unfold runJMeter, time_Now, cmd_Run, fmt_Println, mbind, prog_bind.
  cbn [bind].
  constructor; intros t0.
  repeat (apply tame_bind; [solve [auto with tame] | intros _]).
  constructor. cbn [bind]. constructor; [reflexivity |]. intros err.
  constructor; intros t1. auto with tame.
Qed.

End Tame.

#[global] Hint Resolve tame_ensureDir tame_writeLog tame_getTimestamp
  tame_getResultFilename tame_getReportFolder tame_getRDebugFilename
  tame_parseThreadCount tame_parseStatistics tame_summarize tame_runJMeter
  : tame.

(** *** Appending strings *)

Lemma append_cons (a : ascii) (s t : string) :
  String a s +:+ t = String a (s +:+ t).
Proof. reflexivity. Qed.

Lemma append_empty (s : string) : s +:+ "" = s.
Proof. induction s; [reflexivity | rewrite append_cons; congruence]. Qed.

Lemma append_assoc (a b c : string) : (a +:+ b) +:+ c = a +:+ b +:+ c.
Proof. induction a; [reflexivity | rewrite !append_cons; congruence]. Qed.

(** *** The log file in the file system *)

Module PosixLog.

Import Posix.

Lemma take_all (s : string) : take (String.length s) s = s.
Proof. unfold take. induction s; simpl; congruence. Qed.

Lemma grows_refl m : grows m m.
Proof. intros p c H. exists "". rewrite append_empty. auto. Qed.

Lemma grows_trans m1 m2 m3 : grows m1 m2 -> grows m2 m3 -> grows m1 m3.
Proof.
  intros H12 H23 p c H. destruct (H12 p c H) as (a & Ha & Hna).
  destruct (H23 p _ Ha) as (b & Hb & Hnb). exists (a +:+ b).
  rewrite <- append_assoc. split; [assumption |].
  intros Hp. rewrite (Hna Hp), (Hnb Hp). reflexivity.
Qed.

Lemma grows_fresh m p i : m !! p = None -> grows m (<[p := i]> m).
Proof.
  intros Hnone q c Hq. exists "". rewrite append_empty.
  rewrite lookup_insert_ne by congruence. auto.
Qed.

Lemma now_fs w : fs (snd (now w)) = fs w.
Proof. unfold now. destruct (clock w) as [| t [| t' l]]; reflexivity. Qed.

Lemma now_room w : room (snd (now w)) = room w.
Proof. unfold now. destruct (clock w) as [| t [| t' l]]; reflexivity. Qed.

Lemma stat_same name w : snd (stat name w) = w.
Proof. unfold stat. destruct (fs w !! name); reflexivity. Qed.

(** Creating the log directory touches nothing but the path [Debug],
    which it may turn from absent into a directory. *)
Lemma mkdir_debug perm w :
  grows (fs w) (fs (snd (mkdirall debugDir perm w))) /\
  fs (snd (mkdirall debugDir perm w)) !! logFile = fs w !! logFile /\
  room (snd (mkdirall debugDir perm w)) = room w.
Proof.
  unfold mkdirall. simpl.
  destruct (fs w !! "Debug") as [[| c] |] eqn:Hd; simpl;
    try (split; [apply grows_refl | split; reflexivity]).
  destruct (decide ("Debug" ∈ denied w)); simpl;
    try (split; [apply grows_refl | split; reflexivity]).
  split; [apply grows_fresh; assumption |].
  split; [| reflexivity]. apply lookup_insert_ne. discriminate.
Qed.

(** Opening the log file for appending creates it empty when it is
    absent and leaves everything else as it is. *)
Lemma open_log perm w :
  grows (fs w) (fs (snd (open logFile append_flags perm w))) /\
  room (snd (open logFile append_flags perm w)) = room w /\
  (fst (open logFile append_flags perm w) = None ->
   fs (snd (open logFile append_flags perm w)) !! logFile =
     Some (Reg (content w logFile))).
Proof.
  unfold open, content. change (has_flag append_flags O_TRUNC) with false.
  change (has_flag append_flags O_CREATE) with true. cbv iota.
  destruct (fs w !! logFile) as [[| c] |] eqn:Hl; simpl.
  - split; [apply grows_refl | split; [reflexivity | discriminate]].
  - destruct (decide (logFile ∈ denied w)); simpl;
      (split; [apply grows_refl | split; [reflexivity |]]);
      [discriminate | auto].
  - destruct (decide (logFile ∈ denied w)); simpl;
      [split; [apply grows_refl | split; [reflexivity | discriminate]] |].
    change (parent logFile) with "Debug". cbv iota.
    destruct (fs w !! "Debug") as [[| c] |]; simpl;
      try (split; [apply grows_refl | split; [reflexivity | discriminate]]).
    split; [apply grows_fresh; assumption |].
    split; [reflexivity |]. intros _. apply lookup_insert_eq.
Qed.

(** Writing through the handle opened for appending puts a prefix of
    the bytes after the old ones, all of them when the call succeeds. *)
Lemma write_log s w :
  let f := mkFile logFile append_flags in
  grows (fs w) (fs (snd (write f s w))) /\
  (forall c, fs w !! logFile = Some (Reg c) ->
             fst (write f s w) = None ->
             fs (snd (write f s w)) !! logFile = Some (Reg (c +:+ s))) /\
  (fs w !! logFile = None -> fs (snd (write f s w)) !! logFile = None).
Proof.
  intros f. unfold write. simpl file_name.
  change (has_flag (file_flag f) O_APPEND) with true. cbv iota.
  destruct (fs w !! logFile) as [[| c] |] eqn:Hl; simpl.
  - split; [apply grows_refl | split; discriminate].
  - set (n := match room w with
              | Some k => Nat.min k (String.length s)
              | None => String.length s
              end).
    split; [| split; [| discriminate]].
    + intros p c' Hp. destruct (decide (p = logFile)) as [-> | Hne].
      * rewrite Hl in Hp. injection Hp as <-. exists (take n s).
        rewrite lookup_insert_eq. split; [reflexivity | congruence].
      * exists "". rewrite append_empty, lookup_insert_ne by congruence. auto.
    + intros c' Hc Hok. injection Hc as <-. rewrite lookup_insert_eq.
      destruct (n <? String.length s)%nat eqn:Hn; [discriminate |].
      apply Nat.ltb_ge in Hn.
      assert (n = String.length s) as ->.
      { subst n. destruct (room w); lia. }
      rewrite take_all. reflexivity.
  - split; [apply grows_refl | split; [discriminate | auto]].
Qed.

End PosixLog.

(* ===================================================================== *)
(** ** Decimal digits                                                     *)
(* ===================================================================== *)

Section Decimal.

Lemma digit_val_char (d : Z) :
  0 <= d < 10 ->
  is_digit (digit_char d) = true /\ digit_val (digit_char d) = d.
Proof.
  intros H.
  assert (d = 0 \/ d = 1 \/ d = 2 \/ d = 3 \/ d = 4 \/ d = 5 \/ d = 6 \/
          d = 7 \/ d = 8 \/ d = 9) as Hd by lia.
  repeat (destruct Hd as [-> | Hd]; [split; reflexivity |]).
  subst; split; reflexivity.
Qed.

Lemma digits_val_append (s t : string) (acc : Z) :
  digits_val acc (s +:+ t)
  = match digits_val acc s with
    | Some v => digits_val v t
    | None => None
    end.
Proof.
  revert acc; induction s as [| c s IH]; intros acc; [reflexivity |].
  rewrite append_cons. simpl. destruct (is_digit c); [apply IH | reflexivity].
Qed.

Lemma utoa_aux_append (fuel : nat) (n : Z) (acc : string) :
  utoa_aux fuel n acc = utoa_aux fuel n "" +:+ acc.
Proof.
  revert n acc; induction fuel as [| fuel IH]; intros n acc; simpl;
    [reflexivity |].
  destruct (n / 10 =? 0); [reflexivity |].
  rewrite (IH _ (String _ acc)), (IH _ (String _ "")), append_assoc.
  reflexivity.
Qed.

(** With fuel for every digit, the digits written denote the number. *)
Lemma utoa_aux_value (fuel : nat) (n : Z) :
  0 <= n < 10 ^ Z.of_nat (S fuel) ->
  digits_val 0 (utoa_aux fuel n "") = Some n.
Proof.
  revert n; induction fuel as [| fuel IH]; intros n Hn.
  - simpl in *. rewrite Z.mod_small by lia.
    destruct (digit_val_char n ltac:(lia)) as [-> ->]. reflexivity.
  - assert (Hq : 0 <= n / 10 < 10 ^ Z.of_nat (S fuel)).
    { split; [apply Z.div_pos; lia |].
      apply Z.div_lt_upper_bound; [lia |].
      replace (Z.of_nat (S (S fuel))) with (Z.succ (Z.of_nat (S fuel)))
        in Hn by lia.
      rewrite Z.pow_succ_r in Hn by lia. lia. }
    pose proof (Z.mod_pos_bound n 10 ltac:(lia)) as Hm.
    destruct (digit_val_char (n mod 10) Hm) as [Hd Hv].
    cbn [utoa_aux]. destruct (n / 10 =? 0) eqn:Hz.
    + apply Z.eqb_eq in Hz. simpl. rewrite Hd, Hv.
      f_equal. pose proof (Z.div_mod n 10 ltac:(lia)). lia.
    + rewrite utoa_aux_append, digits_val_append, (IH _ Hq). simpl.
      rewrite Hd, Hv. f_equal. pose proof (Z.div_mod n 10 ltac:(lia)). lia.
Qed.

Lemma log2_fuel (n : Z) : 0 <= n -> n < 10 ^ Z.of_nat (S (Z.to_nat (Z.log2 n))).
Proof.
  intros Hn. destruct (Z.eq_dec n 0) as [-> | Hnz]; [reflexivity |].
  pose proof (Z.log2_nonneg n) as Hl.
  pose proof (Z.log2_spec n ltac:(lia)) as [_ Hup].
  replace (Z.of_nat (S (Z.to_nat (Z.log2 n)))) with (Z.succ (Z.log2 n)) by lia.
  eapply Z.lt_le_trans; [exact Hup |].
  apply Z.pow_le_mono_l. lia.
Qed.

Lemma utoa_value (n : Z) : 0 <= n -> digits_val 0 (utoa n) = Some n.
Proof. intros Hn. apply utoa_aux_value. split; [lia | apply log2_fuel, Hn]. Qed.

Lemma utoa_head (n : Z) :
  exists c s, utoa n = String c s /\ is_digit c = true.
Proof.
  unfold utoa. generalize (Z.to_nat (Z.log2 n)) as fuel.
  assert (H : forall fuel m acc,
             (exists c s, acc = String c s /\ is_digit c = true) \/ acc = "" ->
             exists c s, utoa_aux fuel m acc = String c s /\ is_digit c = true).
  { induction fuel as [| fuel IH]; intros m acc Hacc; simpl.
    - eexists _, _. split; [reflexivity |].
      apply digit_val_char, Z.mod_pos_bound. lia.
    - destruct (m / 10 =? 0).
      + eexists _, _. split; [reflexivity |].
        apply digit_val_char, Z.mod_pos_bound. lia.
      + apply IH. left. eexists _, _. split; [reflexivity |].
        apply digit_val_char, Z.mod_pos_bound. lia. }
  intros fuel. apply H. right. reflexivity.
Qed.

(** What [Itoa] writes, [decimal] reads. *)
Lemma decimal_Itoa (n : Z) : decimal (Itoa n) = Some n.
Proof.
  unfold Itoa. destruct (n <? 0) eqn:Hneg.
  - apply Z.ltb_lt in Hneg. cbv beta iota delta [decimal].
    destruct (utoa_head (- n)) as (c & s & Hs & Hc).
    rewrite Hs. rewrite <- Hs. rewrite utoa_value by lia.
    f_equal. lia.
  - apply Z.ltb_ge in Hneg. unfold decimal.
    destruct (utoa_head n) as (c & s & Hs & Hc). rewrite Hs.
    destruct c as [[] [] [] [] [] [] [] []]; try discriminate Hc;
      rewrite <- Hs, utoa_value by assumption; reflexivity.
Qed.

(** [Atoi] reads back every [int] that [Itoa] writes. *)
Lemma Atoi_Itoa (n : Z) : minInt <= n <= maxInt -> Atoi (Itoa n) = inr n.
Proof.
  intros Hn. unfold Atoi, parse_int. rewrite decimal_Itoa.
  replace (minInt <=? n) with true by (symmetry; apply Z.leb_le; lia).
  replace (n <=? maxInt) with true by (symmetry; apply Z.leb_le; lia).
  reflexivity.
Qed.

End Decimal.

(* ===================================================================== *)
(** ** Suffixes                                                           *)
(* ===================================================================== *)

Section Suffix.

Lemma length_append (s t : string) :
  String.length (s +:+ t) = (String.length s + String.length t)%nat.
Proof. induction s; [reflexivity | rewrite append_cons; simpl; congruence]. Qed.

Lemma substring_all (s : string) : substring 0 (String.length s) s = s.
Proof. induction s; simpl; congruence. Qed.

Lemma substring_skip (s t : string) :
  substring (String.length s) (String.length t) (s +:+ t) = t.
Proof.
  induction s; [apply substring_all | rewrite append_cons; simpl; assumption].
Qed.

Lemma substring_split (s : string) (n : nat) :
  (n <= String.length s)%nat ->
  s = substring 0 n s +:+ substring n (String.length s - n) s.
Proof.
  revert n; induction s as [| c s IH]; intros [| n] Hn; simpl in *;
    try lia; try reflexivity.
  - rewrite substring_all. reflexivity.
  - rewrite append_cons. f_equal. apply IH. lia.
Qed.

(** [HasSuffix] is the suffix relation on byte strings. *)
Lemma HasSuffix_iff (s suffix : string) :
  HasSuffix s suffix = true <-> exists stem, s = stem +:+ suffix.
Proof.
  unfold HasSuffix. split.
  - intros [Hlen Heq]%andb_true_iff.
    apply Nat.leb_le in Hlen. apply String.eqb_eq in Heq.
    exists (substring 0 (String.length s - String.length suffix) s).
    pose proof (substring_split s (String.length s - String.length suffix)
                  ltac:(lia)) as Hsplit.
    replace (String.length s - (String.length s - String.length suffix))%nat
      with (String.length suffix) in Hsplit by lia.
    rewrite Heq in Hsplit. exact Hsplit.
  - intros [stem ->]. rewrite length_append.
    replace (String.length stem + String.length suffix - String.length suffix)%nat
      with (String.length stem) by lia.
    rewrite substring_skip, String.eqb_refl, andb_true_r.
    apply Nat.leb_le. lia.
Qed.

(** A test plan is an entry that is no directory and whose name ends
    in [.jmx], byte for byte. *)
Lemma is_jmx_iff (file : FileInfo) :
  is_jmx file = true <->
  IsDir file = false /\ exists stem, Name file = stem +:+ ".jmx".
Proof.
  unfold is_jmx. rewrite andb_true_iff, negb_true_iff, HasSuffix_iff.
  reflexivity.
Qed.

Example upper_case_is_no_test_plan :
  is_jmx (mkFileInfo "plan.JMX" false) = false
  /\ is_jmx (mkFileInfo "plan.jmx" true) = false
  /\ is_jmx (mkFileInfo "plan.jmx" false) = true.
Proof. repeat split. Qed.

End Suffix.

(* ===================================================================== *)
(** ** Paths and time stamps                                              *)
(* ===================================================================== *)

Section Paths.

Import filepath.

Lemma Split_cons (s : string) (sep : ascii) :
  exists e rest, Split s sep = e :: rest.
Proof.
  induction s as [| c s (e & rest & IH)]; simpl; eauto.
  destruct (Ascii.eqb c sep); eauto. rewrite IH. eauto.
Qed.

Lemma Join_cons (e : string) (l : list string) (sep : string) :
  l <> [] -> GoString.Join (e :: l) sep = e +:+ sep +:+ GoString.Join l sep.
Proof. destruct l; [congruence | reflexivity]. Qed.

(** Splitting at the slashes and joining with slashes gives the path
    back. *)
Lemma Join_Split (s : string) : GoString.Join (Split s "/") "/" = s.
Proof.
  induction s as [| c s IH]; [reflexivity |]. simpl.
  destruct (Split_cons s "/") as (e & rest & Hs). rewrite Hs in *.
  destruct (Ascii.eqb_spec c "/") as [-> | Hc].
  - rewrite Join_cons by discriminate. rewrite IH. reflexivity.
  - destruct rest as [| e' rest].
    + simpl in *. congruence.
    + rewrite Join_cons in * by discriminate. rewrite append_cons. congruence.
Qed.

Lemma Split_under (d s : string) :
  contains_byte "/" d = false ->
  Split (d +:+ "/" +:+ s) "/" = d :: Split s "/".
Proof.
  induction d as [| c d IH]; intros Hd; [reflexivity |].
  simpl in Hd. apply orb_false_iff in Hd as [Hc Hd].
  rewrite append_cons. simpl. rewrite Hc, (IH Hd). reflexivity.
Qed.

Lemma clean_proper (l kept : list string) :
  forallb proper_element l = true ->
  fold_left (clean_step false) l kept = rev l ++ kept.
Proof.
  revert kept; induction l as [| e l IH]; intros kept Hl; [reflexivity |].
  simpl in Hl. apply andb_true_iff in Hl as [He Hl]. simpl.
  rewrite <- app_assoc. simpl. rewrite <- (IH (e :: kept) Hl). f_equal.
  unfold clean_step. unfold proper_element in He.
  apply negb_true_iff, orb_false_iff in He as [-> ->]. reflexivity.
Qed.

(** [Clean] leaves a relative path with proper elements alone. *)
Lemma Clean_proper (path : string) :
  proper_path path = true -> Clean path = path.
Proof.
  unfold proper_path, Clean. intros Hp.
  assert (HasPrefix path "/" = false) as ->.
  { destruct path as [| c path]; [reflexivity |]. simpl in *.
    destruct (Ascii.eqb c "/"); [discriminate | reflexivity]. }
  rewrite (clean_proper _ [] Hp), app_nil_r, rev_involutive.
  destruct (Split_cons path "/") as (e & rest & Hs).
  rewrite <- (Join_Split path) at 2. rewrite Hs. reflexivity.
Qed.

(** Joining a directory name and a proper path puts the path under the
    directory. *)
Lemma Join_under (dir name : string) :
  contains_byte "/" dir = false -> proper_element dir = true ->
  proper_path name = true ->
  Join [dir; name] = dir +:+ "/" +:+ name.
Proof.
  intros Hslash Hdir Hname. unfold Join.
  destruct (String.eqb dir "") eqn:Hd.
  { unfold proper_element in Hdir. rewrite Hd in Hdir. discriminate. }
  simpl GoString.Join. apply Clean_proper. unfold proper_path.
  rewrite Split_under by assumption. simpl. rewrite Hdir. exact Hname.
Qed.

End Paths.

Section Digits.

Lemma contains_append (c : ascii) (s t : string) :
  contains_byte c (s +:+ t) = contains_byte c s || contains_byte c t.
Proof.
  induction s as [| d s IH]; [reflexivity |].
  rewrite append_cons. simpl. rewrite IH. apply orb_assoc.
Qed.

Lemma digit_char_is_digit (d : Z) : 0 <= d < 10 -> is_digit (digit_char d) = true.
Proof.
  intros H.
  assert (d = 0 \/ d = 1 \/ d = 2 \/ d = 3 \/ d = 4 \/ d = 5 \/ d = 6 \/
          d = 7 \/ d = 8 \/ d = 9) as Hd by lia.
  repeat (destruct Hd as [-> | Hd]; [reflexivity |]). subst; reflexivity.
Qed.

Lemma digits_only_append (s t : string) :
  digits_only s -> digits_only t -> digits_only (s +:+ t).
Proof.
  intros Hs Ht c Hc. rewrite contains_append, (Hs c Hc), (Ht c Hc). reflexivity.
Qed.

Lemma digits_only_cons (d : ascii) (s : string) :
  is_digit d = true -> digits_only s -> digits_only (String d s).
Proof.
  intros Hd Hs c Hc. simpl. rewrite (Hs c Hc).
  destruct (Ascii.eqb_spec d c) as [-> | _]; [congruence | reflexivity].
Qed.

Lemma utoa_aux_digits (fuel : nat) (n : Z) (acc : string) :
  digits_only acc -> digits_only (utoa_aux fuel n acc).
Proof.
  revert n acc; induction fuel as [| fuel IH]; intros n acc Hacc; simpl.
  - apply digits_only_cons; [| assumption].
    apply digit_char_is_digit, Z.mod_pos_bound; lia.
  - destruct (n / 10 =? 0); [| apply IH];
      (apply digits_only_cons; [| assumption]);
      apply digit_char_is_digit, Z.mod_pos_bound; lia.
Qed.

Lemma pad_digits (width : nat) (n : Z) : digits_only (pad width n).
Proof.
  unfold pad. apply digits_only_append.
  - induction (width - String.length (utoa n))%nat as [| k IH].
    + intros c _; reflexivity.
    + simpl. apply digits_only_cons; [reflexivity | exact IH].
  - apply utoa_aux_digits. intros c _; reflexivity.
Qed.

(** No slash in a time stamp, whatever the clock says. *)
Lemma Format_compact_no_slash (t : Time) :
  contains_byte "/" (time.Format_compact t) = false.
Proof.
  unfold time.Format_compact, time.long_year.
  rewrite !contains_append.
  rewrite !(pad_digits 2 _ "/"%char eq_refl).
  destruct (year t <? 0); simpl;
    rewrite (pad_digits 4 _ "/"%char eq_refl); reflexivity.
Qed.

Lemma utoa_aux_length (fuel k : nat) (n : Z) (acc : string) :
  (1 <= k)%nat -> 0 <= n < 10 ^ Z.of_nat k ->
  (String.length (utoa_aux fuel n acc) <= k + String.length acc)%nat.
Proof.
  revert k n acc; induction fuel as [| fuel IH]; intros k n acc Hk Hn; simpl;
    [lia |].
  destruct (n / 10 =? 0) eqn:Hq; simpl; [lia |].
  apply Z.eqb_neq in Hq.
  destruct k as [| [| k]]; [lia | |].
  - exfalso. apply Hq. apply Z.div_small. simpl in Hn. lia.
  - specialize (IH (S k) (n / 10) (String (digit_char (n mod 10)) acc)).
    simpl String.length in IH. etransitivity; [apply IH |]; try lia.
    split; [apply Z.div_pos; lia |].
    apply Z.div_lt_upper_bound; [lia |].
    replace (Z.of_nat (S (S k))) with (Z.succ (Z.of_nat (S k))) in Hn by lia.
    rewrite Z.pow_succ_r in Hn by lia. lia.
Qed.

Lemma zeros_length (k : nat) :
  String.length (string_of_list_ascii (repeat "0"%char k)) = k.
Proof. induction k; simpl; congruence. Qed.

Lemma pad_length (width : nat) (n : Z) :
  (1 <= width)%nat -> 0 <= n < 10 ^ Z.of_nat width ->
  String.length (pad width n) = width.
Proof.
  intros Hw Hn. unfold pad. rewrite length_append, zeros_length.
  pose proof (utoa_aux_length (Z.to_nat (Z.log2 n)) width n "" Hw Hn) as H.
  simpl in H. unfold utoa. lia.
Qed.

Lemma pad4_shape (n : Z) : 0 <= n <= 9999 -> four_digits (pad 4 n) = true.
Proof.
  intros Hn. pose proof (pad_length 4 n ltac:(lia) ltac:(simpl; lia)) as Hlen.
  pose proof (pad_digits 4 n) as Hd.
  destruct (pad 4 n) as [| a [| b [| c [| d [| e s]]]]]; try discriminate.
  unfold four_digits.
  assert (Hall : forall x, In x [a; b; c; d] -> is_digit x = true).
  { intros x Hx. destruct (is_digit x) eqn:Hx'; [reflexivity |].
    specialize (Hd x Hx'). simpl in Hd, Hx.
    repeat match goal with
           | H : _ \/ _ |- _ => destruct H as [<- | H]
           | H : False |- _ => destruct H
           end; rewrite Ascii.eqb_refl in Hd; simpl in Hd;
      rewrite ?orb_true_r in Hd; discriminate. }
  rewrite !Hall by (simpl; auto). reflexivity.
Qed.

Lemma pad2_shape (n : Z) : 0 <= n <= 99 -> two_digits (pad 2 n) = true.
Proof.
  intros Hn. pose proof (pad_length 2 n ltac:(lia) ltac:(simpl; lia)) as Hlen.
  pose proof (pad_digits 2 n) as Hd.
  destruct (pad 2 n) as [| a [| b [| e s]]]; try discriminate.
  unfold two_digits.
  assert (Hall : forall x, In x [a; b] -> is_digit x = true).
  { intros x Hx. destruct (is_digit x) eqn:Hx'; [reflexivity |].
    specialize (Hd x Hx'). simpl in Hd, Hx.
    repeat match goal with
           | H : _ \/ _ |- _ => destruct H as [<- | H]
           | H : False |- _ => destruct H
           end; rewrite Ascii.eqb_refl in Hd; simpl in Hd;
      rewrite ?orb_true_r in Hd; discriminate. }
  rewrite !Hall by (simpl; auto). reflexivity.
Qed.

(** On a calendar date the time stamp is [YYYYMMDD_HHMMSS]. *)
Lemma Format_compact_shape (t : Time) :
  time.valid t -> time.timestamp_shape (time.Format_compact t) = true.
Proof.
  intros (Hy & Hm & Hd & Hh & Hi & Hs).
  unfold time.Format_compact, time.long_year.
  replace (year t <? 0) with false by (symmetry; apply Z.ltb_ge; lia).
  pose proof (pad4_shape (year t) ltac:(lia)) as H4.
  pose proof (pad2_shape (month t) ltac:(lia)) as Hmo.
  pose proof (pad2_shape (day t) ltac:(lia)) as Hda.
  pose proof (pad2_shape (hour t) ltac:(lia)) as Hho.
  pose proof (pad2_shape (minute t) ltac:(lia)) as Hmi.
  pose proof (pad2_shape (second t) ltac:(lia)) as Hse.
  destruct (pad 4 (year t)) as [| a [| b [| c [| d [|]]]]]; try discriminate.
  destruct (pad 2 (month t)) as [| m1 [| m2 [|]]]; try discriminate.
  destruct (pad 2 (day t)) as [| d1 [| d2 [|]]]; try discriminate.
  destruct (pad 2 (hour t)) as [| h1 [| h2 [|]]]; try discriminate.
  destruct (pad 2 (minute t)) as [| i1 [| i2 [|]]]; try discriminate.
  destruct (pad 2 (second t)) as [| s1 [| s2 [|]]]; try discriminate.
  simpl in *.
  repeat match goal with
         | H : _ && _ = true |- _ => apply andb_true_iff in H as [? ?]
         end.
  unfold time.timestamp_shape.
  change (String a (String b (String c (String d "")))
          +:+ String m1 (String m2 "") +:+ String d1 (String d2 "")
          +:+ "_" +:+ String h1 (String h2 "") +:+ String i1 (String i2 "")
          +:+ String s1 (String s2 ""))
    with (String a (String b (String c (String d (String m1 (String m2
          (String d1 (String d2 (String "_" (String h1 (String h2
          (String i1 (String i2 (String s1 (String s2 ""))))))))))))))).
  cbv iota beta. simpl forallb.
  repeat match goal with
         | H : is_digit _ = true |- _ => rewrite H; clear H
         end.
  reflexivity.
Qed.

Lemma Format_datetime_shape (t : Time) :
  time.valid t -> time.datetime_shape (time.Format_datetime t) = true.
Proof.
  intros (Hy & Hm & Hd & Hh & Hi & Hs).
  unfold time.Format_datetime, time.long_year.
  replace (year t <? 0) with false by (symmetry; apply Z.ltb_ge; lia).
  pose proof (pad4_shape (year t) ltac:(lia)) as H4.
  pose proof (pad2_shape (month t) ltac:(lia)) as Hmo.
  pose proof (pad2_shape (day t) ltac:(lia)) as Hda.
  pose proof (pad2_shape (hour t) ltac:(lia)) as Hho.
  pose proof (pad2_shape (minute t) ltac:(lia)) as Hmi.
  pose proof (pad2_shape (second t) ltac:(lia)) as Hse.
  destruct (pad 4 (year t)) as [| a [| b [| c [| d [|]]]]]; try discriminate.
  destruct (pad 2 (month t)) as [| m1 [| m2 [|]]]; try discriminate.
  destruct (pad 2 (day t)) as [| d1 [| d2 [|]]]; try discriminate.
  destruct (pad 2 (hour t)) as [| h1 [| h2 [|]]]; try discriminate.
  destruct (pad 2 (minute t)) as [| i1 [| i2 [|]]]; try discriminate.
  destruct (pad 2 (second t)) as [| s1 [| s2 [|]]]; try discriminate.
  simpl in *.
  repeat match goal with
         | H : _ && _ = true |- _ => apply andb_true_iff in H as [? ?]
         end.
  unfold time.datetime_shape.
  change (String a (String b (String c (String d "")))
          +:+ "-" +:+ String m1 (String m2 "") +:+ "-"
          +:+ String d1 (String d2 "") +:+ " "
          +:+ String h1 (String h2 "") +:+ ":"
          +:+ String i1 (String i2 "") +:+ ":" +:+ String s1 (String s2 ""))
    with (String a (String b (String c (String d (String "-" (String m1
          (String m2 (String "-" (String d1 (String d2 (String " "
          (String h1 (String h2 (String ":" (String i1 (String i2
          (String ":" (String s1 (String s2 ""))))))))))))))))))).
  cbv iota beta. simpl forallb.
  repeat match goal with
         | H : is_digit _ = true |- _ => rewrite H; clear H
         end.
  reflexivity.
Qed.

End Digits.

(* ===================================================================== *)
(** ** The logger                                                         *)
(* ===================================================================== *)

(** Following a run through the answers of the world, in a hypothesis
    [H : r = exec ...]. *)
Ltac run_cases H :=
  repeat (simpl in H;
          match type of H with
          | context [let '(_, _) := ?x in _] => destruct x eqn:?
          | context [match ?x with _ => _ end] => is_var x; destruct x
          | context [if ?x then _ else _] => destruct x eqn:?
          end).

(** Taking apart the membership of an event in an explicit trace. *)
Ltac trace_cases :=
  repeat match goal with
         | H : In _ (_ :: _) |- _ => destruct H as [H | H]
         | H : In _ [] |- _ => destruct H
         | H : _ \/ _ |- _ => destruct H as [H | H]
         | H : False |- _ => destruct H
         | H : @eq event _ _ |- _ =>
             first [discriminate H | injection H as ?; subst]
         end.

Section Logger.

Context {error_text : ErrorText}.
Context {W : Type} (os : OS W).

(** C2, as the code has it: [writeLog] returns or the process exits with
    status 1; it exits exactly when the log directory could not be
    created, after the logger printed why.  A failure to open the log
    file, and a failure to write to it, is printed by the logger and
    [writeLog] returns. *)
Theorem writeLog_failures (msg : string) (w : W) :
  let r := exec os (writeLog msg) w in
  (result r = Returned tt \/ result r = Exited 1) /\
  (result r = Exited 1 <-> mkdir_failed (trace r) = true) /\
  (forall path perm e,
      In (EvMkdirAll path perm (Some e)) (trace r) ->
      result r = Exited 1 /\
      logger_output (trace r) =
        ["无法创建目录 " +:+ debugDir +:+ ": " +:+ Error e +:+ nl]) /\
  (forall name flag perm e,
      In (EvOpenFile name flag perm (Some e)) (trace r) ->
      result r = Returned tt /\
      logger_output (trace r) = ["无法打开日志文件: " +:+ Error e +:+ nl]) /\
  (forall f s e,
      In (EvWriteString f s (Some e)) (trace r) ->
      result r = Returned tt /\
      logger_output (trace r) = ["写入日志失败: " +:+ Error e +:+ nl]).
Proof.
  intros r. assert (Hr : r = exec os (writeLog msg) w) by reflexivity.
  clearbody r. unfold writeLog, ensureDir in Hr. simpl in Hr.
  run_cases Hr; subst r; simpl;
    (split; [auto |]);
    (split; [split; congruence |]);
    repeat split; intros; trace_cases; auto.
Qed.

End Logger.


Section LoggerAppends.

Context {texts : ErrorText}.
Import Posix PosixLog.

(** The log file from the opening on: what [writeLog] does once the log
    directory is settled. *)
Lemma open_write_close (entry : string) (w : world) (r : run_result world unit) :
  r = exec os
        (OpenFile logFile append_flags 420
           (fun opened =>
              match opened with
              | inl err => log_Println ("无法打开日志文件: " +:+ Error err)
              | inr file =>
                  WriteString file entry
                    (fun err =>
                       match err with
                       | Some e => log_Println ("写入日志失败: " +:+ Error e)
                       | None => Ret tt
                       end ≫= fun _ => file_Close file)
              end)) w ->
  (forall name flag perm res,
      In (EvOpenFile name flag perm res) (trace r) ->
      name = logFile /\ has_flag flag O_APPEND = true /\
      has_flag flag O_TRUNC = false) /\
  (forall f s res, In (EvWriteString f s res) (trace r) -> s = entry) /\
  grows (fs w) (fs (final r)) /\
  (logger_output (trace r) = [] ->
   content (final r) logFile = content w logFile +:+ entry).
Proof.
  intros Hr. simpl in Hr.
  destruct (open_log 420 w) as (Hg & _ & Hc).
  destruct (open logFile append_flags 420 w) as [[e |] w1] eqn:Hopen;
    simpl in Hr, Hg, Hc.
  - subst r; simpl. repeat split; intros; trace_cases; auto; discriminate.
  - specialize (Hc eq_refl).
    destruct (write_log entry w1) as (Hg' & Hok & _).
    change (mkFile logFile append_flags)
      with (mkFile logFile (Z.lor (Z.lor O_APPEND O_CREATE) O_WRONLY)) in *.
    destruct (write _ entry w1) as [[e |] w2] eqn:Hwrite;
      simpl in Hr, Hg', Hok; subst r; simpl.
    + repeat split; intros; trace_cases; auto; try discriminate.
      eapply grows_trans; eassumption.
    + repeat split; intros; trace_cases; auto.
      * eapply grows_trans; eassumption.
      * unfold content at 1. rewrite (Hok _ Hc eq_refl). reflexivity.
Qed.

(** C9: [writeLog] opens nothing but the log file, for appending and
    without truncation, and writes nothing but the one line
    [[time] message] and a newline, the time being
    [YYYY-MM-DD HH:MM:SS] on a calendar date; every regular file keeps
    the bytes it had, those of the log file at the front of what it
    holds afterwards; and when nothing went wrong the log file holds
    afterwards its old bytes followed by exactly that line. *)
Theorem writeLog_appends (msg : string) (w : world) :
  let r := exec os (writeLog msg) w in
  let entry :=
    "[" +:+ time.Format_datetime (fst (now w)) +:+ "] " +:+ msg +:+ nl in
  (forall name flag perm res,
      In (EvOpenFile name flag perm res) (trace r) ->
      name = logFile /\ has_flag flag O_APPEND = true /\
      has_flag flag O_TRUNC = false) /\
  (forall f s res, In (EvWriteString f s res) (trace r) -> s = entry) /\
  grows (fs w) (fs (final r)) /\
  (result r = Returned tt -> logger_output (trace r) = [] ->
   content (final r) logFile = content w logFile +:+ entry) /\
  (time.valid (fst (now w)) ->
   time.datetime_shape (time.Format_datetime (fst (now w))) = true).
Proof.
  intros r entry.
  assert (Hr : r = exec os (writeLog msg) w) by reflexivity. clearbody r.
  unfold writeLog, ensureDir in Hr. simpl in Hr.
  pose proof (now_fs w) as Hfs0. subst entry.
  destruct (now w) as [t w0] eqn:Hnow. simpl in Hr, Hfs0 |- *.
  pose proof (Format_datetime_shape t) as Hshape.
  pose proof (stat_same debugDir w0) as Hst.
  destruct (stat debugDir w0) as [st w1] eqn:Hstat. simpl in Hr, Hst. subst w1.
  set (entry := "[" +:+ time.Format_datetime t +:+ "] " +:+ msg +:+ nl) in *.
  destruct (IsNotExist st); simpl in Hr.
  - destruct (mkdir_debug 493 w0) as (Hg & Hlog & _).
    destruct (mkdirall debugDir 493 w0) as [[e |] w2] eqn:Hmk;
      simpl in Hr, Hg, Hlog.
    + subst r; simpl. rewrite <- Hfs0.
      split; [intros; trace_cases |].
      split; [intros; trace_cases |].
      split; [assumption |].
      split; [discriminate | assumption].
    + match type of Hr with
      | _ = after ?e1 (after ?e2 (after ?e3 ?x)) =>
          remember x as r' eqn:Hr'
      end.
      apply open_write_close in Hr'. destruct Hr' as (Ho & Hw & Hg' & Hc).
      subst r; simpl. rewrite <- Hfs0.
      split; [intros; trace_cases; eauto |].
      split; [intros; trace_cases; eauto |].
      split; [eapply grows_trans; eassumption |].
      split; [| assumption].
      intros _ Hquiet. rewrite Hc by assumption. unfold content.
      rewrite Hlog, Hfs0. reflexivity.
  - match type of Hr with
    | _ = after ?e1 (after ?e2 ?x) => remember x as r' eqn:Hr'
    end.
    apply open_write_close in Hr'. destruct Hr' as (Ho & Hw & Hg' & Hc).
    subst r; simpl. rewrite <- Hfs0.
    split; [intros; trace_cases; eauto |].
    split; [intros; trace_cases; eauto |].
    split; [assumption |].
    split; [| assumption].
    intros _ Hquiet. rewrite Hc by assumption. unfold content.
    rewrite Hfs0. reflexivity.
Qed.

End LoggerAppends.

(* ===================================================================== *)
(** ** Scanning the directory and selecting a file                        *)
(* ===================================================================== *)

Lemma collect_jmx_from (files : list FileInfo) (acc : list string) :
  fold_left
    (fun jmxFiles file =>
       if negb (IsDir file) && HasSuffix (Name file) ".jmx"
       then jmxFiles ++ [Name file]
       else jmxFiles)
    files acc
  = acc ++ map Name (List.filter is_jmx files).
Proof.
  revert acc; induction files as [| f files IH]; intros acc; simpl.
  - symmetry; apply app_nil_r.
  - rewrite IH. unfold is_jmx at 2.
    destruct (negb (IsDir f) && HasSuffix (Name f) ".jmx"); simpl;
      [rewrite <- app_assoc |]; reflexivity.
Qed.

Lemma collect_jmx_filter (files : list FileInfo) :
  collect_jmx files = map Name (List.filter is_jmx files).
Proof. apply (collect_jmx_from files []). Qed.

Section Fatal.

Context {texts : ErrorText} {xml : XmlQuery}.
Context {W : Type} (os : OS W).

Lemma logger_ends (msg : string) (w : W) :
  result (exec os (writeLog msg) w) = Returned tt \/
  result (exec os (writeLog msg) w) = Exited 1.
Proof.
  destruct (tame_sound false (writeLog msg) (tame_writeLog false msg) W os w)
    as (_ & _ & [[[[]] ?] | [? ?]]); auto.
Qed.

(** Logging, printing and exiting. *)
Lemma log_print_exit {A} (msg diag : string) (w : W) :
  stops os
    (exec os (writeLog msg;; fmt_Println diag;; os_Exit 1 : prog A) w)
    [] w msg diag.
Proof.
  unfold stops, mbind, prog_bind. rewrite exec_bind. unfold then_run.
  pose proof (logger_ends msg w) as Hends.
  destruct (exec os (writeLog msg) w) as [tr res fin]; simpl in *.
  destruct Hends as [-> | ->]; simpl; rewrite ?app_nil_r; auto.
Qed.

Lemma stops_after {A} (e : event) (r : run_result W A) before w msg diag :
  stops os r before w msg diag ->
  stops os (after e r) (e :: before) w msg diag.
Proof. unfold stops, after; simpl. intros [-> ->]. auto. Qed.

Lemma print_numbered_returns (idx : Z) (names : list string) (w : W) :
  result (exec os (print_numbered idx names) w) = Returned tt /\
  final (exec os (print_numbered idx names) w) = w.
Proof.
  revert idx; induction names as [| n names IH]; intros idx; simpl; auto.
Qed.

(** C4: when the listing succeeds and has entries that are not
    directories and whose names end in [.jmx], [listJMXFiles] returns
    the names of exactly those entries, in the order of the listing.
    When the listing fails, and when no entry qualifies, the condition
    goes to the logger, the diagnostic is printed and the process exits
    with status 1. *)
Theorem listJMXFiles_scans (w : W) :
  let listed := fst (os_readdir os "." w) in
  let w1 := snd (os_readdir os "." w) in
  let r := exec os listJMXFiles w in
  match listed with
  | inr files =>
      match map Name (List.filter is_jmx files) with
      | [] =>
          stops os r [EvReadDir "." listed] w1
                "未找到 .jmx 文件，程序退出。" "当前目录下没有找到 .jmx 文件。"
      | jmxFiles => result r = Returned jmxFiles
      end
  | inl err =>
      stops os r [EvReadDir "." listed] w1
            ("读取目录失败: " +:+ Error err) "无法读取当前目录"
  end.
Proof.
  intros listed w1 r. subst listed w1 r.
  unfold listJMXFiles, ioutil_ReadDir, mbind, prog_bind. cbn [bind exec].
  destruct (os_readdir os "." w) as [[err | files] w1]; cbn [fst snd].
  - apply stops_after, log_print_exit.
  - rewrite collect_jmx_filter.
    destruct (map Name (List.filter is_jmx files)) as [| n names] eqn:Hjmx.
    + apply stops_after, log_print_exit.
    + cbn [length Nat.eqb fmt_Println bind exec after result].
      rewrite exec_bind. unfold then_run.
      destruct (print_numbered_returns 0 (n :: names) w1) as [-> _].
      reflexivity.
Qed.

(** C6: the word read at the prompt is parsed with [Atoi]; when it is an
    integer from 1 to the number of files, [selectJMXFile] returns the
    file at that position, counting from 1.  Otherwise the condition
    goes to the logger, a message is printed and the process exits with
    status 1. *)
Theorem selectJMXFile_checks (jmxFiles : list string) (w : W) :
  let choice := fst (os_scanln os w) in
  let w1 := snd (os_scanln os w) in
  let r := exec os (selectJMXFile jmxFiles) w in
  let invalid :=
    stops os r [EvPrint "请选择要运行的测试文件编号："; EvScanln choice] w1
          ("无效的文件编号输入：" +:+ choice +:+ "，程序退出。") "输入无效，退出。" in
  match Atoi choice with
  | inr index =>
      if (1 <=? index) && (index <=? Z.of_nat (length jmxFiles)) then
        exists file,
          jmxFiles !! Z.to_nat (index - 1) = Some file /\
          result r = Returned file
      else invalid
  | inl _ => invalid
  end.
Proof.
  intros choice w1 r invalid. subst choice w1 r invalid.
  unfold selectJMXFile, fmt_Print, fmt_Scanln, mbind, prog_bind.
  cbn [bind exec].
  destruct (os_scanln os w) as [choice w1]; cbn [fst snd].
  assert (Hinvalid :
    stops os
      (after (EvPrint "请选择要运行的测试文件编号：")
         (after (EvScanln choice)
            (exec os
               (writeLog ("无效的文件编号输入：" +:+ choice +:+ "，程序退出。");;
                fmt_Println "输入无效，退出。";; os_Exit 1 : prog string) w1)))
      [EvPrint "请选择要运行的测试文件编号："; EvScanln choice] w1
      ("无效的文件编号输入：" +:+ choice +:+ "，程序退出。") "输入无效，退出。")
    by (do 2 apply stops_after; apply log_print_exit).
  destruct (Atoi choice) as [err | index]; [exact Hinvalid |].
  destruct (index <? 1) eqn:Hlo; cbn [orb].
  - replace (1 <=? index) with false by (symmetry; apply Z.leb_gt; lia).
    exact Hinvalid.
  - replace (1 <=? index) with true by (symmetry; apply Z.leb_le; lia).
    cbn [andb].
    destruct (Z.of_nat (length jmxFiles) <? index) eqn:Hhi.
    + replace (index <=? Z.of_nat (length jmxFiles)) with false
        by (symmetry; apply Z.leb_gt; lia).
      exact Hinvalid.
    + replace (index <=? Z.of_nat (length jmxFiles)) with true
        by (symmetry; apply Z.leb_le; lia).
      destruct (lookup_lt_is_Some_2 jmxFiles (Z.to_nat (index - 1)))
        as [file Hfile]; [lia |].
      exists file. rewrite Hfile. auto.
Qed.

End Fatal.

Section ResultFilename.

Context {texts : ErrorText}.
Context {W : Type} (os : OS W).

Lemma Split_no_slash (s : string) :
  contains_byte "/" s = false -> Split s "/" = [s].
Proof.
  induction s as [| c s IH]; [reflexivity |]. simpl.
  intros H. apply orb_false_iff in H as [-> H]. rewrite (IH H). reflexivity.
Qed.

Lemma default_name_proper (t : Time) :
  filepath.proper_path ("result_" +:+ time.Format_compact t +:+ ".jtl") = true.
Proof.
  unfold filepath.proper_path. rewrite Split_no_slash; [reflexivity |].
  rewrite !contains_append, Format_compact_no_slash. reflexivity.
Qed.

(** C5, as the code has it.  The word read at the prompt is trimmed.
    When it is blank the path is [Jtl/result_<time stamp>.jtl], the time
    stamp being [YYYYMMDD_HHMMSS] on a calendar date.  Otherwise the
    name is the word, with [.jtl] appended unless it ends in [.jtl]
    already, and the path is [filepath.Join] of [Jtl] and the name: the
    name under [Jtl] when the name has no empty, [.] or [..] element. *)
Theorem getResultFilename_paths (w : W) :
  let word := fst (os_scanln os w) in
  let w1 := snd (os_scanln os w) in
  let name := TrimSpace word in
  let r := exec os getResultFilename w in
  if String.eqb name "" then
    let t := fst (os_now os w1) in
    result r =
      Returned ("Jtl/result_" +:+ time.Format_compact t +:+ ".jtl") /\
    (time.valid t -> time.timestamp_shape (time.Format_compact t) = true)
  else
    result r = Returned (filepath.Join [jtlDir; with_suffix name ".jtl"]) /\
    (filepath.proper_path (with_suffix name ".jtl") = true ->
     result r = Returned ("Jtl/" +:+ with_suffix name ".jtl")).
Proof.
  intros word w1 name r. subst word w1 name r.
  unfold getResultFilename, getTimestamp, fmt_Print, fmt_Scanln, time_Now,
    mbind, prog_bind.
  cbn [bind exec]. destruct (os_scanln os w) as [word w1]. cbn [fst snd].
  destruct (String.eqb (TrimSpace word) "") eqn:Hblank; cbn [bind exec].
  - destruct (os_now os w1) as [t w2]. cbn [fst after result].
    split; [| apply Format_compact_shape].
    rewrite (Join_under jtlDir _ eq_refl eq_refl (default_name_proper t)).
    reflexivity.
  - assert (Hrun :
      result
        (after (EvPrint "请输入结果文件名（例如 result_200 或 result_200.jtl，回车则使用时间戳）：")
           (after (EvScanln word)
              (exec os
                 (bind
                    (if negb (HasSuffix (TrimSpace word) ".jtl")
                     then Ret (TrimSpace word +:+ ".jtl")
                     else Ret (TrimSpace word))
                    (fun name => Ret (filepath.Join [jtlDir; name]))) w1)))
      = Returned (filepath.Join [jtlDir; with_suffix (TrimSpace word) ".jtl"])).
    { unfold with_suffix.
      destruct (HasSuffix (TrimSpace word) ".jtl"); reflexivity. }
    split; [exact Hrun |]. intros Hproper. rewrite Hrun.
    rewrite (Join_under jtlDir _ eq_refl eq_refl Hproper). reflexivity.
Qed.

End ResultFilename.


(* ===================================================================== *)
(** ** The thread count                                                   *)
(* ===================================================================== *)

Section ThreadCount.

Context {texts : ErrorText} {xml : XmlQuery}.
Context {W : Type} (os : OS W).

(** [Atoi] reads exactly the decimal integers that are an [int]. *)
Lemma Atoi_decimal (s : string) (n : Z) :
  decimal s = Some n -> minInt <= n <= maxInt -> Atoi s = inr n.
Proof.
  intros Hd Hn. unfold Atoi, parse_int. rewrite Hd.
  replace (minInt <=? n) with true by (symmetry; apply Z.leb_le; lia).
  replace (n <=? maxInt) with true by (symmetry; apply Z.leb_le; lia).
  reflexivity.
Qed.

Lemma Atoi_inr (s : string) (n : Z) :
  Atoi s = inr n -> decimal s = Some n /\ minInt <= n <= maxInt.
Proof.
  unfold Atoi, parse_int. destruct (decimal s) as [m |]; [| discriminate].
  destruct (minInt <=? m) eqn:Hlo; [| discriminate].
  destruct (m <=? maxInt) eqn:Hhi; [| discriminate].
  simpl. intros [= <-]. apply Z.leb_le in Hlo, Hhi. auto.
Qed.

(** Logging a cause and returning a value. *)
Lemma log_and_return {A} (cause : string) (a : A) (w : W) :
  let l := exec os (writeLog cause) w in
  result (exec os (bind (writeLog cause) (fun _ => Ret a)) w)
    = and_return (result l) a /\
  trace (exec os (bind (writeLog cause) (fun _ => Ret a)) w) = trace l.
Proof.
  intros l. subst l. rewrite (exec_bind os (writeLog cause)). unfold then_run.
  destruct (exec os (writeLog cause) w) as [tr [[] | c | m] fin]; simpl;
    rewrite ?app_nil_r; auto.
Qed.

(** C7, as the code has it.  When the file is read, parsed, holds the
    element and the text of the element denotes an integer [n] within
    the range of [int], [parseThreadCount] returns [n] and logs nothing.
    In every other case (the file is not read, is not XML, holds no such
    element, or the text is no integer or one out of range) the cause
    goes to the logger and [parseThreadCount] returns 0. *)
Theorem parseThreadCount_reads (jmxFile : string) (w : W) :
  let read := fst (os_readfile os jmxFile w) in
  let w1 := snd (os_readfile os jmxFile w) in
  let r := exec os (parseThreadCount jmxFile) w in
  let fails (cause : string) : Prop :=
    let l := exec os (writeLog cause) w1 in
    result r = and_return (result l) 0 /\
    trace r = EvReadFile jmxFile read :: trace l in
  match read with
  | inl err => fails ("读取JMX文件失败: " +:+ Error err)
  | inr data =>
      match xmlquery_Parse data with
      | inl err => fails ("解析XML失败: " +:+ Error err)
      | inr doc =>
          match xmlquery_FindOne doc thread_count_query with
          | None => fails "未找到线程数配置"
          | Some node =>
              (forall n,
                  decimal (InnerText node) = Some n ->
                  minInt <= n <= maxInt ->
                  result r = Returned n /\
                  trace r = [EvReadFile jmxFile read]) /\
              (forall err,
                  Atoi (InnerText node) = inl err ->
                  fails ("转换线程数失败: " +:+ Error err)) /\
              (decimal (InnerText node) = None \/
               (exists n, decimal (InnerText node) = Some n /\
                          (n < minInt \/ maxInt < n)) ->
               exists err, Atoi (InnerText node) = inl err)
          end
      end
  end.
Proof.
  intros read w1 r fails. subst read w1 r fails.
  unfold parseThreadCount, ioutil_ReadFile, mbind, prog_bind.
  cbn [bind exec]. destruct (os_readfile os jmxFile w) as [[err | data] w1].
  all: cbn [fst snd after result trace].
  - destruct (log_and_return ("读取JMX文件失败: " +:+ Error err) 0 w1)
      as [-> ->]. auto.
  - destruct (xmlquery_Parse data) as [err | doc].
    { destruct (log_and_return ("解析XML失败: " +:+ Error err) 0 w1)
        as [-> ->]. auto. }
    destruct (xmlquery_FindOne doc thread_count_query) as [node |].
    2: { destruct (log_and_return "未找到线程数配置" 0 w1) as [-> ->]. auto. }
    split; [| split].
    + intros n Hd Hn. rewrite (Atoi_decimal _ _ Hd Hn). auto.
    + intros err ->.
      destruct (log_and_return ("转换线程数失败: " +:+ Error err) 0 w1)
        as [-> ->]. auto.
    + unfold Atoi, parse_int. intros [-> | (n & -> & Hn)]; [eauto |].
      destruct ((minInt <=? n) && (n <=? maxInt)) eqn:Hr; [| eauto].
      apply andb_true_iff in Hr as [?%Z.leb_le ?%Z.leb_le]. lia.
Qed.

End ThreadCount.


(* ===================================================================== *)
(** ** Decoding the statistics                                            *)
(* ===================================================================== *)

Module UnmarshalFacts.

Import Unmarshal.

(** A key names at most one field. *)
Lemma names_one (key f g : string) :
  names key f = true -> String.eqb (foldName f) (foldName g) = false ->
  names key g = false.
Proof.
  unfold names. intros Hf Hfg. apply String.eqb_eq in Hf. rewrite Hf.
  exact Hfg.
Qed.

Ltac other_names H :=
  repeat match goal with
         | |- context [names ?k ?g] =>
             rewrite (names_one k _ g H eq_refl)
         | Hx : context [names ?k ?g] |- _ =>
             rewrite (names_one k _ g H eq_refl) in Hx
         end.

Lemma saveError_some saved e : exists e', saveError saved e = Some e'.
Proof. destruct saved; simpl; eauto. Qed.

(** Storing a member that fits changes the field its key names, if any,
    and raises no error. *)
Lemma store_member_ok (t : TotalStats) (saved : option error)
      (kv : string * json) :
  member_ok kv = true ->
  store_total_member (t, saved) kv = (stored [kv] t, saved).
Proof.
  destruct kv as [key v]. destruct t as [sc ep mr tp ec].
  unfold member_ok, store_total_member, stored, last_literal; simpl.
  destruct (names key "sampleCount") eqn:H1.
  { other_names H1. unfold int_ok, store_int, int_of.
    destruct v; try discriminate; [reflexivity |].
    destruct (ParseInt literal); [discriminate | reflexivity]. }
  destruct (names key "errorPct") eqn:H2.
  { other_names H2. unfold float_ok, store_float, float_of.
    destruct v; try discriminate; [reflexivity |].
    destruct (ParseFloat literal); [discriminate | reflexivity]. }
  destruct (names key "meanResTime") eqn:H3.
  { other_names H3. unfold float_ok, store_float, float_of.
    destruct v; try discriminate; [reflexivity |].
    destruct (ParseFloat literal); [discriminate | reflexivity]. }
  destruct (names key "throughput") eqn:H4.
  { other_names H4. unfold float_ok, store_float, float_of.
    destruct v; try discriminate; [reflexivity |].
    destruct (ParseFloat literal); [discriminate | reflexivity]. }
  destruct (names key "errorCount") eqn:H5; [| reflexivity].
  unfold int_ok, store_int, int_of.
  destruct v; try discriminate; [reflexivity |].
  destruct (ParseInt literal); [discriminate | reflexivity].
Qed.

(** Storing a member that does not fit raises an error. *)
Lemma store_member_bad (t : TotalStats) (saved : option error)
      (kv : string * json) :
  member_ok kv = false ->
  exists value field,
    snd (store_total_member (t, saved) kv)
    = saveError saved (UnmarshalTypeError value field).
Proof.
  destruct kv as [key v]. unfold member_ok, store_total_member.
  destruct (names key "sampleCount");
    [| destruct (names key "errorPct");
       [| destruct (names key "meanResTime");
          [| destruct (names key "throughput");
             [| destruct (names key "errorCount"); [| discriminate]]]]];
    unfold int_ok, float_ok, store_int, store_float;
    destruct v; try discriminate; simpl; eauto;
    match goal with
    | |- context [ParseInt ?l] => destruct (ParseInt l)
    | |- context [ParseFloat ?l] => destruct (ParseFloat l)
    end; try discriminate; simpl; eauto.
Qed.

(** An error, once saved, stays. *)
Lemma store_member_keeps (t : TotalStats) (e : error) (kv : string * json) :
  snd (store_total_member (t, Some e) kv) = Some e.
Proof.
  destruct kv as [key v]. unfold store_total_member.
  repeat match goal with
         | |- context [if names ?k ?f then _ else _] => destruct (names k f)
         end;
    unfold store_int, store_float; destruct v; simpl; try reflexivity;
    match goal with
    | |- context [ParseInt ?l] => destruct (ParseInt l)
    | |- context [ParseFloat ?l] => destruct (ParseFloat l)
    end; reflexivity.
Qed.

Lemma store_members_keep (members : list (string * json)) (t : TotalStats)
      (e : error) :
  snd (fold_left store_total_member members (t, Some e)) = Some e.
Proof.
  revert t; induction members as [| kv members IH]; intros t; [reflexivity |].
  cbn [fold_left]. pose proof (store_member_keeps t e kv) as H.
  destruct (store_total_member (t, Some e) kv) as [t' saved].
  simpl in H. subst saved. apply IH.
Qed.

Lemma last_literal_app (f : string) (a b : list (string * json)) :
  last_literal f (a ++ b)
  = match last_literal f b with
    | Some l => Some l
    | None => last_literal f a
    end.
Proof.
  induction a as [| [key v] a IH]; simpl.
  - destruct (last_literal f b); reflexivity.
  - rewrite IH. destruct (last_literal f b); reflexivity.
Qed.

(** Among members that fit, a literal found for an integer field
    parses, and so does one found for a float field. *)
Lemma last_literal_int (f : string) (members : list (string * json)) lit :
  (f = "sampleCount" \/ f = "errorCount") ->
  forallb member_ok members = true ->
  last_literal f members = Some lit ->
  exists n, ParseInt lit = inr n.
Proof.
  intros Hf. induction members as [| [key v] members IH]; [discriminate |].
  simpl. intros [Hkv Hok]%andb_true_iff.
  destruct (last_literal f members) as [l |]; [intros [= <-]; auto |].
  destruct (names key f) eqn:Hn; [| discriminate].
  destruct v; try discriminate. intros [= <-].
  unfold member_ok in Hkv.
  destruct Hf as [-> | ->].
  - rewrite Hn in Hkv. simpl in Hkv. destruct (ParseInt literal); eauto.
    discriminate.
  - other_names Hn. rewrite Hn in Hkv. simpl in Hkv.
    destruct (ParseInt literal); eauto. discriminate.
Qed.

Lemma last_literal_float (f : string) (members : list (string * json)) lit :
  (f = "errorPct" \/ f = "meanResTime" \/ f = "throughput") ->
  forallb member_ok members = true ->
  last_literal f members = Some lit ->
  exists x, ParseFloat lit = inr x.
Proof.
  intros Hf. induction members as [| [key v] members IH]; [discriminate |].
  simpl. intros [Hkv Hok]%andb_true_iff.
  destruct (last_literal f members) as [l |]; [intros [= <-]; auto |].
  destruct (names key f) eqn:Hn; [| discriminate].
  destruct v; try discriminate. intros [= <-].
  unfold member_ok in Hkv.
  destruct Hf as [-> | [-> | ->]]; other_names Hn; rewrite Hn in Hkv;
    simpl in Hkv; destruct (ParseFloat literal); eauto; discriminate.
Qed.

Lemma int_of_app f (a b : list (string * json)) (x : Z) :
  (f = "sampleCount" \/ f = "errorCount") ->
  forallb member_ok b = true ->
  int_of (last_literal f (a ++ b)) x
  = int_of (last_literal f b) (int_of (last_literal f a) x).
Proof.
  intros Hf Hb. rewrite last_literal_app.
  destruct (last_literal f b) as [l |] eqn:Hl; [| reflexivity].
  destruct (last_literal_int f b l Hf Hb Hl) as [n Hn].
  simpl. rewrite Hn. reflexivity.
Qed.

Lemma float_of_app f (a b : list (string * json)) (x : float64) :
  (f = "errorPct" \/ f = "meanResTime" \/ f = "throughput") ->
  forallb member_ok b = true ->
  float_of (last_literal f (a ++ b)) x
  = float_of (last_literal f b) (float_of (last_literal f a) x).
Proof.
  intros Hf Hb. rewrite last_literal_app.
  destruct (last_literal f b) as [l |] eqn:Hl; [| reflexivity].
  destruct (last_literal_float f b l Hf Hb Hl) as [n Hn].
  simpl. rewrite Hn. reflexivity.
Qed.

Lemma stored_app (a b : list (string * json)) (t : TotalStats) :
  forallb member_ok b = true ->
  stored (a ++ b) t = stored b (stored a t).
Proof.
  intros Hb. unfold stored. simpl.
  rewrite !int_of_app, !float_of_app by auto. reflexivity.
Qed.

Lemma stored_nil (t : TotalStats) : stored [] t = t.
Proof. destruct t; reflexivity. Qed.

(** Storing members that fit. *)
Lemma store_members_ok (members : list (string * json)) (t : TotalStats)
      (saved : option error) :
  forallb member_ok members = true ->
  fold_left store_total_member members (t, saved) = (stored members t, saved).
Proof.
  revert t; induction members as [| kv members IH]; intros t.
  - intros _. simpl. rewrite stored_nil. reflexivity.
  - cbn [fold_left forallb]. intros [Hkv Hok]%andb_true_iff.
    rewrite (store_member_ok _ _ _ Hkv), (IH _ Hok).
    rewrite <- (stored_app [kv] members t Hok). reflexivity.
Qed.

(** Storing members one of which does not fit. *)
Lemma store_members_bad (members : list (string * json)) (t : TotalStats)
      (saved : option error) :
  forallb member_ok members = false ->
  exists value field,
    snd (fold_left store_total_member members (t, saved))
    = saveError saved (UnmarshalTypeError value field).
Proof.
  revert t saved; induction members as [| kv members IH]; intros t saved;
    [discriminate |].
  cbn [fold_left forallb]. destruct (member_ok kv) eqn:Hkv; cbn [andb].
  - intros Hbad. rewrite (store_member_ok _ _ _ Hkv). apply IH, Hbad.
  - intros _. destruct (store_member_bad t saved kv Hkv) as (value & field & H).
    destruct (store_total_member (t, saved) kv) as [t' saved'].
    simpl in H. subst saved'. exists value, field.
    destruct (saveError_some saved (UnmarshalTypeError value field)) as [e He].
    rewrite He. apply store_members_keep.
Qed.

Lemma store_total_keeps (v : json) (t : TotalStats) (e : error) :
  snd (store_total v t (Some e)) = Some e.
Proof. destruct v; simpl; auto. apply store_members_keep. Qed.

Lemma store_stats_keep (members : list (string * json)) (s : Statistics)
      (e : error) :
  snd (fold_left store_stats_member members (s, Some e)) = Some e.
Proof.
  revert s; induction members as [| [key v] members IH]; intros s;
    [reflexivity |].
  cbn [fold_left]. unfold store_stats_member at 2.
  destruct (names key "Total"); [| apply IH].
  pose proof (store_total_keeps v (Total s) e) as H.
  destruct (store_total v (Total s) (Some e)) as [t' saved].
  simpl in H. subst saved. apply IH.
Qed.

(** The members a fitting document stores into [Total] all fit. *)
Lemma fits_members (members : list (string * json)) :
  fits (JObject members) = true ->
  forallb member_ok (total_members (JObject members)) = true.
Proof.
  unfold fits, total_members.
  induction members as [| [key v] members IH]; [reflexivity |].
  cbn [forallb flat_map fst snd]. intros [Hkv Hok]%andb_true_iff.
  rewrite forallb_app, (IH Hok), andb_true_r.
  destruct (names key "Total"); [| reflexivity].
  destruct v; try reflexivity; try discriminate. exact Hkv.
Qed.

Lemma store_stats_ok (members : list (string * json)) (s : Statistics)
      (saved : option error) :
  fits (JObject members) = true ->
  fold_left store_stats_member members (s, saved)
  = (mkStatistics (stored (total_members (JObject members)) (Total s)),
     saved).
Proof.
  revert s; induction members as [| [key v] members IH]; intros s Hfits.
  - simpl. rewrite stored_nil. destruct s; reflexivity.
  - pose proof (fits_members _ Hfits) as Hall.
    assert (Hrest : fits (JObject members) = true).
    { unfold fits in *. cbn [forallb] in Hfits.
      apply andb_true_iff in Hfits as [_ H]. exact H. }
    pose proof (fits_members _ Hrest) as Hallrest.
    unfold fits in Hfits. cbn [forallb fst snd] in Hfits.
    apply andb_true_iff in Hfits as [Hkv _].
    cbn [fold_left]. unfold store_stats_member at 2.
    unfold total_members in *. cbn [flat_map fst snd] in *.
    destruct (names key "Total").
    + destruct v; try discriminate.
      * simpl. rewrite (IH _ Hrest). destruct s; reflexivity.
      * unfold store_total.
        rewrite (store_members_ok _ _ _ Hkv), (IH _ Hrest).
        cbn [Total]. rewrite (stored_app _ _ _ Hallrest). reflexivity.
    + rewrite (IH _ Hrest). reflexivity.
Qed.

Lemma store_stats_bad (members : list (string * json)) (s : Statistics)
      (saved : option error) :
  fits (JObject members) = false ->
  exists value field,
    snd (fold_left store_stats_member members (s, saved))
    = saveError saved (UnmarshalTypeError value field).
Proof.
  unfold fits.
  revert s saved; induction members as [| [key v] members IH];
    intros s saved; [discriminate |].
  cbn [forallb fold_left fst snd]. unfold store_stats_member at 2.
  destruct (names key "Total"); [| apply IH].
  destruct (total_ok v) eqn:Hv; cbn [andb].
  - intros Hbad. destruct v; try discriminate.
    + simpl. destruct s. apply IH, Hbad.
    + unfold store_total. rewrite (store_members_ok _ _ _ Hv). apply IH, Hbad.
  - intros _.
    assert (exists value field,
               snd (store_total v (Total s) saved)
               = saveError saved (UnmarshalTypeError value field))
      as (value & field & H).
    { destruct v; try discriminate; simpl; eauto.
      apply store_members_bad, Hv. }
    destruct (store_total v (Total s) saved) as [t' saved'].
    simpl in H. subst saved'. exists value, field.
    destruct (saveError_some saved (UnmarshalTypeError value field)) as [e He].
    rewrite He. apply store_stats_keep.
Qed.

(** [Unmarshal] on a JSON text: the decoded struct when the document
    fits the struct, a type error when it does not. *)
Lemma Unmarshal_fits (data : string) (v : json) :
  Json.parse data = Some v -> fits v = true ->
  Unmarshal data = inr (decoded v).
Proof.
  intros Hparse Hfits. unfold Unmarshal, decoded. rewrite Hparse.
  destruct v; try discriminate; [reflexivity |].
  unfold store_stats. rewrite (store_stats_ok _ _ _ Hfits). reflexivity.
Qed.

Lemma Unmarshal_misfit (data : string) (v : json) :
  Json.parse data = Some v -> fits v = false ->
  exists value field, Unmarshal data = inl (UnmarshalTypeError value field).
Proof.
  intros Hparse Hfits. unfold Unmarshal. rewrite Hparse.
  destruct v; try discriminate; simpl; eauto.
  destruct (store_stats_bad members zero_stats None Hfits)
    as (value & field & H).
  destruct (fold_left store_stats_member members (zero_stats, None))
    as [s saved].
  simpl in H. subst saved. eauto.
Qed.

(** A field no key names keeps its zero value. *)
Lemma last_literal_absent (f : string) (members : list (string * json)) :
  (forall key v, In (key, v) members -> names key f = false) ->
  last_literal f members = None.
Proof.
  induction members as [| [key v] members IH]; intros H; [reflexivity |].
  simpl. rewrite IH by (intros k x Hin; apply (H k x); right; exact Hin).
  rewrite (H key v) by (left; reflexivity). reflexivity.
Qed.

End UnmarshalFacts.

Section Statistics.

Context {texts : ErrorText}.
Context {W : Type} (os : OS W).
Import Unmarshal UnmarshalFacts.

Lemma lacks_literal (v : json) (field : string) :
  lacks v field = true -> field_literal v field = None.
Proof.
  unfold lacks, field_literal. intros H. apply last_literal_absent.
  intros key x Hin. rewrite forallb_forall in H.
  apply negb_true_iff, (H (key, x) Hin).
Qed.

(** What [parseStatistics] returns, by what the file holds. *)
Lemma parseStatistics_run (reportFolder : string) (w : W) :
  result (exec os (parseStatistics reportFolder) w)
  = Returned
      match fst (os_readfile os
                   (filepath.Join [reportFolder; "statistics.json"]) w) with
      | inl err => inl err
      | inr data =>
          match Unmarshal data with
          | inl err => inl err
          | inr stats => inr (stats_map stats)
          end
      end.
Proof.
  unfold parseStatistics, ioutil_ReadFile, mbind, prog_bind. cbn [bind exec].
  destruct (os_readfile os _ w) as [[err | data] w1]; [reflexivity |].
  cbn [fst]. destruct (Unmarshal data); reflexivity.
Qed.

(** C1, as the code has it.  When the file cannot be read,
    [parseStatistics] returns the error of the read; when its bytes are
    not a JSON text, a syntax error.  When the document fits the struct
    and gives each of the five fields a number, the map returned holds
    exactly five entries: the values of [sampleCount], [errorPct],
    [meanResTime] and [throughput] under these names and the value of
    [errorCount] under the key [Errorcount]. *)
Theorem parseStatistics_reads (reportFolder : string) (w : W) :
  let path := filepath.Join [reportFolder; "statistics.json"] in
  let read := fst (os_readfile os path w) in
  let r := exec os (parseStatistics reportFolder) w in
  match read with
  | inl err => result r = Returned (inl err)
  | inr data =>
      match Json.parse data with
      | None => result r = Returned (inl SyntaxError)
      | Some v =>
          forall sc ep mr tp ec : string,
            fits v = true ->
            field_literal v "sampleCount" = Some sc ->
            field_literal v "errorPct" = Some ep ->
            field_literal v "meanResTime" = Some mr ->
            field_literal v "throughput" = Some tp ->
            field_literal v "errorCount" = Some ec ->
            exists (n1 : Z) (x2 x3 x4 : float64) (n5 : Z),
              ParseInt sc = inr n1 /\ ParseFloat ep = inr x2 /\
              ParseFloat mr = inr x3 /\ ParseFloat tp = inr x4 /\
              ParseInt ec = inr n5 /\
              result r =
                Returned
                  (inr (<["sampleCount" := VInt n1]>
                       (<["errorPct" := VFloat x2]>
                       (<["meanResTime" := VFloat x3]>
                       (<["throughput" := VFloat x4]>
                       (<["Errorcount" := VInt n5]> ∅))))))
      end
  end.
Proof.
  intros path read r. subst path read r. rewrite parseStatistics_run.
  destruct (fst (os_readfile os _ w)) as [err | data]; [reflexivity |].
  destruct (Json.parse data) as [v |] eqn:Hparse.
  2: { unfold Unmarshal. rewrite Hparse. reflexivity. }
  intros sc ep mr tp ec Hfits Hsc Hep Hmr Htp Hec.
  rewrite (Unmarshal_fits data v Hparse Hfits).
  assert (Hall : forallb member_ok (total_members v) = true).
  { destruct v; try reflexivity. apply fits_members, Hfits. }
  unfold field_literal in *.
  destruct (last_literal_int _ _ _ (or_introl eq_refl) Hall Hsc) as [n1 H1].
  destruct (last_literal_float _ _ _ (or_introl eq_refl) Hall Hep) as [x2 H2].
  destruct (last_literal_float _ _ _ (or_intror (or_introl eq_refl)) Hall Hmr)
    as [x3 H3].
  destruct (last_literal_float _ _ _ (or_intror (or_intror eq_refl)) Hall Htp)
    as [x4 H4].
  destruct (last_literal_int _ _ _ (or_intror eq_refl) Hall Hec) as [n5 H5].
  exists n1, x2, x3, x4, n5. repeat (split; [assumption |]).
  unfold stats_map, decoded, stored. cbn [Total SampleCount ErrorPct
    MeanResTime Throughput Errorcount].
  rewrite Hsc, Hep, Hmr, Htp, Hec. unfold int_of, float_of.
  rewrite H1, H2, H3, H4, H5. reflexivity.
Qed.

(** C10, as the code has it.  For a JSON text whose document fits the
    struct, [parseStatistics] returns the map of the decoded struct, in
    which every field the document lacks (all five when it has no
    [Total]) has the value zero.  It returns an error when the file
    cannot be read, when the bytes are not a JSON text, and when the
    document does not fit the struct (a type error); never for a field
    that is absent. *)
Theorem parseStatistics_absent_fields (reportFolder : string) (w : W) :
  let path := filepath.Join [reportFolder; "statistics.json"] in
  let read := fst (os_readfile os path w) in
  let r := exec os (parseStatistics reportFolder) w in
  match read with
  | inl err => result r = Returned (inl err)
  | inr data =>
      match Json.parse data with
      | None => result r = Returned (inl SyntaxError)
      | Some v =>
          if fits v then
            let m := stats_map (decoded v) in
            result r = Returned (inr m) /\
            (lacks v "sampleCount" = true ->
             m !! "sampleCount" = Some (VInt 0)) /\
            (lacks v "errorPct" = true ->
             m !! "errorPct" = Some (VFloat zero)) /\
            (lacks v "meanResTime" = true ->
             m !! "meanResTime" = Some (VFloat zero)) /\
            (lacks v "throughput" = true ->
             m !! "throughput" = Some (VFloat zero)) /\
            (lacks v "errorCount" = true ->
             m !! "Errorcount" = Some (VInt 0))
          else
            exists value field,
              result r = Returned (inl (UnmarshalTypeError value field))
      end
  end.
Proof.
  intros path read r. subst path read r. rewrite parseStatistics_run.
  destruct (fst (os_readfile os _ w)) as [err | data]; [reflexivity |].
  destruct (Json.parse data) as [v |] eqn:Hparse.
  2: { unfold Unmarshal. rewrite Hparse. reflexivity. }
  destruct (fits v) eqn:Hfits.
  - rewrite (Unmarshal_fits data v Hparse Hfits). cbv zeta.
    split; [reflexivity |].
    rewrite stats_map_sampleCount, stats_map_errorPct,
      stats_map_meanResTime, stats_map_throughput, stats_map_Errorcount.
    unfold decoded, stored. cbn [Total SampleCount ErrorPct MeanResTime
      Throughput Errorcount].
    repeat split; intros Hl; apply lacks_literal in Hl;
      unfold field_literal in Hl; rewrite Hl; reflexivity.
  - destruct (Unmarshal_misfit data v Hparse Hfits) as (value & field & ->).
    eauto.
Qed.

End Statistics.


(* ===================================================================== *)
(** ** Launching the test and ending the process                          *)
(* ===================================================================== *)

Section Observers.

Lemma mkdir_failed_app (a b : list event) :
  mkdir_failed (a ++ b) = mkdir_failed a || mkdir_failed b.
Proof. apply existsb_app. Qed.

Lemma commands_app (a b : list event) :
  commands (a ++ b) = commands a ++ commands b.
Proof. apply omap_app. Qed.

Lemma listing_app (a b : list event) :
  listing (a ++ b)
  = match listing a with
    | Some r => Some r
    | None => listing b
    end.
Proof.
  unfold listing. rewrite omap_app.
  destruct (omap _ a); reflexivity.
Qed.

Lemma first_word_app (a b : list event) :
  first_word (a ++ b)
  = match first_word a with
    | Some s => Some s
    | None => first_word b
    end.
Proof.
  unfold first_word. rewrite omap_app.
  destruct (omap _ a); reflexivity.
Qed.

End Observers.

Section Launch.

Context {texts : ErrorText} {xml : XmlQuery}.
Context {W : Type} (os : OS W).

(** A tame program that launches nothing, followed by another program:
    either it returns, having created every directory it tried to, and
    the other program runs from there, or the process has exited. *)
Lemma tame_prefix {A B} (p : prog A) (f : A -> prog B) (w : W) :
  tame false p ->
  (exists a,
      result (exec os p w) = Returned a /\
      commands (trace (exec os p w)) = [] /\
      mkdir_failed (trace (exec os p w)) = false /\
      listing (trace (exec os p w)) = None /\
      exec os (bind p f) w
      = mkRun (trace (exec os p w)
               ++ trace (exec os (f a) (final (exec os p w))))
              (result (exec os (f a) (final (exec os p w))))
              (final (exec os (f a) (final (exec os p w))))) \/
  (result (exec os (bind p f) w) = Exited 1 /\
   trace (exec os (bind p f) w) = trace (exec os p w) /\
   commands (trace (exec os p w)) = [] /\
   mkdir_failed (trace (exec os p w)) = true /\
   listing (trace (exec os p w)) = None).
Proof.
  intros Hp. rewrite exec_bind.
  destruct (tame_sound false p Hp W os w) as (Hl & Hc & Hr).
  specialize (Hc eq_refl). unfold then_run.
  destruct Hr as [[[a Ha] Hm] | [He Hm]].
  - left. exists a. rewrite Ha. auto.
  - right. rewrite He. auto.
Qed.

(** C8: [runJMeter] launches one command, the binary [jmeter] with the
    arguments [-n -t jmxFile -l resultFile -e -o reportFolder
    -j debugFile] in this order and with its standard output and
    standard error connected to those of the process; it launches
    nothing only when the process has exited before, the log directory
    being impossible to create. *)
Theorem runJMeter_launches (jmxFile resultFile reportFolder debugFile : string)
        (w : W) :
  let r := exec os (runJMeter jmxFile resultFile reportFolder debugFile) w in
  let cmd :=
    {| Path := "jmeter";
       Args := ["jmeter"; "-n"; "-t"; jmxFile; "-l"; resultFile; "-e";
                "-o"; reportFolder; "-j"; debugFile];
       Stdout := Some os_Stdout;
       Stderr := Some os_Stderr |} in
  commands (trace r) = [cmd] \/
  commands (trace r) = [] /\ result r = Exited 1 /\
  mkdir_failed (trace r) = true.
Proof.
  intros r cmd. subst r.
  unfold runJMeter, time_Now, cmd_Run, fmt_Println, mbind, prog_bind.
  cbn [bind exec]. destruct (os_now os w) as [t0 w0].
  match goal with
  | |- context [exec os (bind (writeLog ?m) ?f) w0] =>
      destruct (tame_prefix (writeLog m) f w0 (tame_writeLog _ _))
        as [(? & _ & Hc1 & Hm1 & _ & ->) | (Hr & Ht & Hc & Hm & _)]
  end.
  2: { right. cbn [after trace result]. rewrite Hr, Ht.
       change (commands (EvNow t0 :: ?l)) with (commands l).
       change (mkdir_failed (EvNow t0 :: ?l)) with (mkdir_failed l). auto. }
  match goal with
  | |- context [exec os (bind (writeLog ?m) ?f) ?w1] =>
      destruct (tame_prefix (writeLog m) f w1 (tame_writeLog _ _))
        as [(? & _ & Hc2 & Hm2 & _ & ->) | (Hr & Ht & Hc & Hm & _)]
  end.
  2: { right. cbn [after trace result]. rewrite Hr, Ht.
       change (commands (EvNow t0 :: ?l)) with (commands l).
       change (mkdir_failed (EvNow t0 :: ?l)) with (mkdir_failed l).
       rewrite commands_app, mkdir_failed_app, Hc1, Hc, Hm1, Hm. auto. }
  left. cbn [bind exec]. destruct (os_run os _ _) as [err w3].
  destruct (os_now os w3) as [t1 w4]. cbn [after trace].
  change (commands (EvNow t0 :: ?l)) with (commands l).
  rewrite !commands_app, Hc1, Hc2. cbn [app].
  match goal with
  | |- commands (EvPrint ?s :: EvRun ?c err :: EvNow t1 :: ?l) = _ =>
      change (commands (EvPrint s :: EvRun c err :: EvNow t1 :: l))
        with (c :: commands l)
  end.
  destruct (tame_sound false _
              (tame_summarize false jmxFile reportFolder t0 t1 err) W os w4)
    as (_ & -> & _); reflexivity.
Qed.

End Launch.

Section Main.

Context {texts : ErrorText} {xml : XmlQuery}.
Context {W : Type} (os : OS W).

Lemma ensureDir_no_word (dir : string) (w : W) :
  first_word (trace (exec os (ensureDir dir) w)) = None.
Proof.
  remember (exec os (ensureDir dir) w) as r eqn:Hr.
  unfold ensureDir in Hr. run_cases Hr; subst r; reflexivity.
Qed.

Lemma print_numbered_trace (idx : Z) (names : list string) (w : W) :
  mkdir_failed (trace (exec os (print_numbered idx names) w)) = false /\
  first_word (trace (exec os (print_numbered idx names) w)) = None /\
  listing (trace (exec os (print_numbered idx names) w)) = None.
Proof.
  revert idx; induction names as [| n names IH]; intros idx; simpl; auto.
Qed.

(** The run of [listJMXFiles], as [main] sees it. *)
Lemma listJMXFiles_run (w : W) :
  let listed := fst (os_readdir os "." w) in
  let r := exec os listJMXFiles w in
  listing (trace r) = Some listed /\
  match listed with
  | inr files =>
      match map Name (List.filter is_jmx files) with
      | [] => result r = Exited 1
      | jmxFiles =>
          result r = Returned jmxFiles /\
          mkdir_failed (trace r) = false /\ first_word (trace r) = None
      end
  | inl _ => result r = Exited 1
  end.
Proof.
  intros listed r. subst listed r.
  unfold listJMXFiles, ioutil_ReadDir, mbind, prog_bind. cbn [bind exec].
  destruct (os_readdir os "." w) as [[err | files] w1]; cbn [fst snd].
  - split; [reflexivity |]. cbn [after result].
    apply (log_print_exit os (A := list string)).
  - split; [reflexivity |]. rewrite collect_jmx_filter.
    destruct (map Name (List.filter is_jmx files)) as [| n names] eqn:Hjmx.
    + cbn [length Nat.eqb after result].
      apply (log_print_exit os (A := list string)).
    + cbn [length Nat.eqb fmt_Println bind exec after result trace].
      rewrite exec_bind. unfold then_run.
      destruct (print_numbered_returns os 0 (n :: names) w1) as [Hres _].
      destruct (print_numbered_trace 0 (n :: names) w1) as (Hm & Hw & _).
      destruct (exec os (print_numbered 0 (n :: names)) w1) as [tr res fin].
      cbn [result trace final] in *. subst res. cbn [exec trace result].
      rewrite app_nil_r. auto.
Qed.

(** The run of [selectJMXFile], as [main] sees it. *)
Lemma selectJMXFile_run (jmxFiles : list string) (w : W) :
  let choice := fst (os_scanln os w) in
  let r := exec os (selectJMXFile jmxFiles) w in
  first_word (trace r) = Some choice /\
  if valid_choice jmxFiles choice then
    (exists file, result r = Returned file) /\
    mkdir_failed (trace r) = false
  else result r = Exited 1.
Proof.
  intros choice r. subst choice r.
  unfold selectJMXFile, fmt_Print, fmt_Scanln, mbind, prog_bind, valid_choice.
  cbn [bind exec]. destruct (os_scanln os w) as [choice w1]. cbn [fst].
  split; [reflexivity |].
  pose proof (proj1 (log_print_exit os (A := string)
                ("无效的文件编号输入：" +:+ choice +:+ "，程序退出。")
                "输入无效，退出。" w1)) as Hinvalid.
  unfold mbind, prog_bind in Hinvalid.
  destruct (Atoi choice) as [err | index]; [exact Hinvalid |].
  destruct (index <? 1) eqn:Hlo; cbn [orb].
  - replace (1 <=? index) with false by (symmetry; apply Z.leb_gt; lia).
    exact Hinvalid.
  - replace (1 <=? index) with true by (symmetry; apply Z.leb_le; lia).
    cbn [andb].
    destruct (Z.of_nat (length jmxFiles) <? index) eqn:Hhi.
    + replace (index <=? Z.of_nat (length jmxFiles)) with false
        by (symmetry; apply Z.leb_gt; lia).
      exact Hinvalid.
    + replace (index <=? Z.of_nat (length jmxFiles)) with true
        by (symmetry; apply Z.leb_le; lia).
      destruct (lookup_lt_is_Some_2 jmxFiles (Z.to_nat (index - 1)))
        as [file Hfile]; [lia |].
      rewrite Hfile. cbn [exec after result trace]. eauto.
Qed.

Lemma tame_after_selection (jmxFile : string) :
  tame true (after_selection jmxFile).
Proof.
  unfold after_selection, mbind, prog_bind.
  repeat (apply tame_bind; [solve [auto with tame] | intro]).
  auto with tame.
Qed.

(** C3, as the code has it.  A run of [main] ends in one of two ways:
    [main] returns (exit status 0) or the process exits with status 1.
    It exits with status 1 exactly when a directory could not be
    created, the listing failed, the listing held no test plan, or the
    word typed at the first prompt selects none.  In particular a run in
    which the [jmeter] command fails ends with status 0 unless the log
    directory cannot be created afterwards. *)
Theorem main_exit_status (w : W) :
  let r := exec os main w in
  (result r = Returned tt /\ exit_status (result r) = 0 /\
   exit_cause (trace r) = false) \/
  (result r = Exited 1 /\ exit_status (result r) = 1 /\
   exit_cause (trace r) = true).
Proof.
  intros r. subst r. unfold main, mbind, prog_bind, exit_cause.
  (* the three working directories *)
  match goal with
  | |- context [exec os (bind (ensureDir reportDir) ?f) w] =>
      destruct (tame_prefix os (ensureDir reportDir) f w (tame_ensureDir _ _))
        as [(? & _ & _ & Hm1 & Hl1 & ->) | (-> & -> & _ & -> & _)]
  end; [| right; auto].
  pose proof (ensureDir_no_word reportDir w) as Hw1.
  destruct (exec os (ensureDir reportDir) w) as [tr1 res1 w1].
  cbn [trace result final] in *. clear res1.
  match goal with
  | |- context [exec os (bind (ensureDir jtlDir) ?f) w1] =>
      destruct (tame_prefix os (ensureDir jtlDir) f w1 (tame_ensureDir _ _))
        as [(? & _ & _ & Hm2 & Hl2 & ->) | (-> & -> & _ & Hm2 & _)]
  end; cbn [trace result];
    [| right; rewrite mkdir_failed_app, Hm2, orb_true_r; auto].
  pose proof (ensureDir_no_word jtlDir w1) as Hw2.
  destruct (exec os (ensureDir jtlDir) w1) as [tr2 res2 w2].
  cbn [trace result final] in *. clear res2.
  match goal with
  | |- context [exec os (bind (ensureDir debugDir) ?f) w2] =>
      destruct (tame_prefix os (ensureDir debugDir) f w2 (tame_ensureDir _ _))
        as [(? & _ & _ & Hm3 & Hl3 & ->) | (-> & -> & _ & Hm3 & _)]
  end; cbn [trace result];
    [| right; rewrite !mkdir_failed_app, Hm3, !orb_true_r; auto].
  pose proof (ensureDir_no_word debugDir w2) as Hw3.
  destruct (exec os (ensureDir debugDir) w2) as [tr3 res3 w3].
  cbn [trace result final] in *. clear res3.
  (* the listing *)
  rewrite exec_bind. unfold then_run.
  destruct (listJMXFiles_run w3) as [Hl4 Hr4].
  destruct (exec os listJMXFiles w3) as [tr4 res4 w4].
  cbn [trace result final] in *.
  assert (Hlist : forall rest,
             listing (tr1 ++ tr2 ++ tr3 ++ tr4 ++ rest)
             = Some (fst (os_readdir os "." w3))).
  { intros rest. rewrite !listing_app, Hl1, Hl2, Hl3, Hl4. reflexivity. }
  destruct (fst (os_readdir os "." w3)) as [err | files].
  { subst res4. cbn [trace result]. right.
    rewrite <- (app_nil_r tr4), Hlist, orb_true_r. auto. }
  destruct (map Name (List.filter is_jmx files)) as [| n names] eqn:Hjmx.
  { subst res4. cbn [trace result]. right.
    rewrite <- (app_nil_r tr4), Hlist, Hjmx, orb_true_r. auto. }
  destruct Hr4 as (-> & Hm4 & Hw4).
  (* the selection *)
  rewrite exec_bind. unfold then_run.
  destruct (selectJMXFile_run (n :: names) w4) as [Hw5 Hr5].
  destruct (exec os (selectJMXFile (n :: names)) w4) as [tr5 res5 w5].
  cbn [trace result final] in *.
  assert (Hword : forall rest,
             first_word (tr1 ++ tr2 ++ tr3 ++ tr4 ++ tr5 ++ rest)
             = Some (fst (os_scanln os w4))).
  { intros rest. rewrite !first_word_app, Hw1, Hw2, Hw3, Hw4, Hw5.
    reflexivity. }
  destruct (valid_choice (n :: names) (fst (os_scanln os w4))) eqn:Hvalid.
  2: { subst res5. cbn [trace result]. right.
       rewrite <- (app_nil_r tr5), Hlist, Hjmx, Hword, Hvalid, orb_true_r.
       auto. }
  destruct Hr5 as [[file ->] Hm5].
  (* the prompts and the test *)
  match goal with
  | |- context [exec os ?p w5] => change p with (after_selection file)
  end.
  destruct (tame_sound true _ (tame_after_selection file) W os w5)
    as (_ & _ & Hr6).
  destruct (exec os (after_selection file) w5) as [tr6 res6 w6].
  cbn [trace result final] in *.
  rewrite Hlist, Hjmx, Hword, Hvalid.
  rewrite !mkdir_failed_app, Hm1, Hm2, Hm3, Hm4, Hm5. cbn [orb negb].
  rewrite orb_false_r.
  destruct Hr6 as [[[[] ->] ->] | [-> ->]]; auto.
Qed.

End Main.

(* ===================================================================== *)
(** ** Traces of composed programs                                        *)
(* ===================================================================== *)

Section Traces.

Context {W : Type} (os : OS W).

(** A program followed by another: the second runs where the first
    returned, and not at all when the first ended the process. *)
Lemma bind_run {A B} (p : prog A) (f : A -> prog B) (w : W) :
  (exists a,
      result (exec os p w) = Returned a /\
      exec os (bind p f) w
      = mkRun (trace (exec os p w)
               ++ trace (exec os (f a) (final (exec os p w))))
              (result (exec os (f a) (final (exec os p w))))
              (final (exec os (f a) (final (exec os p w))))) \/
  ((forall a, result (exec os p w) <> Returned a) /\
   (forall b, result (exec os (bind p f) w) <> Returned b) /\
   trace (exec os (bind p f) w) = trace (exec os p w)).
Proof.
  rewrite exec_bind. unfold then_run.
  destruct (result (exec os p w)) as [a | code | msg].
  - left. exists a. auto.
  - right. simpl. repeat split; congruence.
  - right. simpl. repeat split; congruence.
Qed.

Lemma omap_none {X Y} (g : X -> option Y) (l : list X) :
  Forall (fun x => g x = None) l -> omap g l = [].
Proof. induction 1 as [| x l Hx _ IH]; simpl; [| rewrite Hx]; auto. Qed.

Lemma words_app (a b : list event) : words (a ++ b) = words a ++ words b.
Proof. apply omap_app. Qed.

Lemma files_read_app (a b : list event) :
  files_read (a ++ b) = files_read a ++ files_read b.
Proof. apply omap_app. Qed.

Lemma printed_app (a b : list event) :
  printed (a ++ b) = printed a ++ printed b.
Proof. apply omap_app. Qed.

Lemma run_failed_app (a b : list event) :
  run_failed (a ++ b) = run_failed a || run_failed b.
Proof. apply existsb_app. Qed.

Lemma words_cons (ev : event) (tr : list event) :
  words (ev :: tr)
  = match ev with
    | EvScanln s => s :: words tr
    | _ => words tr
    end.
Proof. destruct ev; reflexivity. Qed.

Lemma files_read_cons (ev : event) (tr : list event) :
  files_read (ev :: tr)
  = match ev with
    | EvReadFile n _ => n :: files_read tr
    | _ => files_read tr
    end.
Proof. destruct ev; reflexivity. Qed.

Lemma printed_cons (ev : event) (tr : list event) :
  printed (ev :: tr)
  = match ev with
    | EvPrint s => s :: printed tr
    | _ => printed tr
    end.
Proof. destruct ev; reflexivity. Qed.

Lemma commands_cons (ev : event) (tr : list event) :
  commands (ev :: tr)
  = match ev with
    | EvRun c _ => c :: commands tr
    | _ => commands tr
    end.
Proof. destruct ev; reflexivity. Qed.

Lemma run_failed_cons (ev : event) (tr : list event) :
  run_failed (ev :: tr)
  = match ev with
    | EvRun _ (Some _) => true
    | _ => run_failed tr
    end.
Proof. destruct ev as [| | | | | | | | | | | c [e |]]; reflexivity. Qed.

End Traces.

(** Reading a trace that is given event by event and part by part. *)
Ltac observe :=
  repeat (first [rewrite files_read_cons | rewrite files_read_app
                | rewrite printed_cons | rewrite printed_app
                | rewrite words_cons | rewrite words_app
                | rewrite commands_cons | rewrite commands_app
                | rewrite run_failed_cons | rewrite run_failed_app];
          cbv beta iota).

(* ===================================================================== *)
(** ** Directories                                                        *)
(* ===================================================================== *)

Section Directories.

Context {texts : ErrorText}.
Context {W : Type} (os : OS W).

(** X1: [ensureDir] asks for the state of [dir] once.  Only when the
    answer is that [dir] does not exist does it create the directory,
    with [MkdirAll] and mode 0755; when that fails the logger gets the
    path and the error and the process exits with status 1.  Any other
    answer, an error of another kind included, makes it return at once
    and do nothing. *)
Theorem ensureDir_creates_missing (dir : string) (w : W) :
  let st := fst (os_stat os dir w) in
  let w1 := snd (os_stat os dir w) in
  let r := exec os (ensureDir dir) w in
  if IsNotExist st then
    let made := fst (os_mkdirall os dir 493 w1) in
    final r = snd (os_mkdirall os dir 493 w1) /\
    match made with
    | None =>
        result r = Returned tt /\
        trace r = [EvStat dir st; EvMkdirAll dir 493 None]
    | Some e =>
        result r = Exited 1 /\
        trace r = [EvStat dir st; EvMkdirAll dir 493 (Some e);
                   EvLogOutput ("无法创建目录 " +:+ dir +:+ ": " +:+ Error e
                                +:+ nl)]
    end
  else result r = Returned tt /\ trace r = [EvStat dir st] /\ final r = w1.
Proof.
  intros st w1 r. subst st w1 r. unfold ensureDir. simpl.
  destruct (os_stat os dir w) as [st w1]. simpl.
  destruct (IsNotExist st); simpl; [| auto].
  destruct (os_mkdirall os dir 493 w1) as [[e |] w2]; simpl; auto.
Qed.

End Directories.

(* ===================================================================== *)
(** ** Time stamps                                                        *)
(* ===================================================================== *)

Section Stamps.

Context {W : Type} (os : OS W).

Lemma append_inj_length (a a' b b' : string) :
  String.length a = String.length a' ->
  a +:+ b = a' +:+ b' -> a = a' /\ b = b'.
Proof.
  revert a'; induction a as [| c a IH]; intros [| c' a'] Hlen Heq;
    try discriminate Hlen.
  - auto.
  - rewrite !append_cons in Heq. injection Heq as -> Heq.
    injection Hlen as Hlen. destruct (IH a' Hlen Heq) as [-> ->]. auto.
Qed.

Lemma zeros_value (k : nat) :
  digits_val 0 (string_of_list_ascii (repeat "0"%char k)) = Some 0.
Proof. induction k; [reflexivity | exact IHk]. Qed.

(** The padded digits of a number denote the number. *)
Lemma pad_value (width : nat) (n : Z) :
  0 <= n -> digits_val 0 (pad width n) = Some n.
Proof.
  intros Hn. unfold pad. rewrite digits_val_append, zeros_value.
  apply utoa_value, Hn.
Qed.

Lemma pad_inj (width : nat) (n n' : Z) :
  0 <= n -> 0 <= n' -> pad width n = pad width n' -> n = n'.
Proof.
  intros Hn Hn' Heq. pose proof (pad_value width n Hn) as H.
  rewrite Heq, (pad_value width n' Hn') in H. congruence.
Qed.

Lemma Format_compact_inj (t t' : Time) :
  time.valid t -> time.valid t' ->
  time.Format_compact t = time.Format_compact t' ->
  year t = year t' /\ month t = month t' /\ day t = day t' /\
  hour t = hour t' /\ minute t = minute t' /\ second t = second t'.
Proof.
  intros (Hy & Hm & Hd & Hh & Hi & Hs) (Hy' & Hm' & Hd' & Hh' & Hi' & Hs').
  unfold time.Format_compact, time.long_year.
  replace (year t <? 0) with false by (symmetry; apply Z.ltb_ge; lia).
  replace (year t' <? 0) with false by (symmetry; apply Z.ltb_ge; lia).
  assert (L4 : forall n, 0 <= n <= 9999 -> String.length (pad 4 n) = 4%nat)
    by (intros n Hn; apply pad_length; simpl; lia).
  assert (L2 : forall n, 0 <= n <= 99 -> String.length (pad 2 n) = 2%nat)
    by (intros n Hn; apply pad_length; simpl; lia).
  intros H.
  apply append_inj_length in H as [H1 H]; [| rewrite !L4; lia].
  apply append_inj_length in H as [H2 H]; [| rewrite !L2; lia].
  apply append_inj_length in H as [H3 H]; [| rewrite !L2; lia].
  apply append_inj_length in H as [_ H]; [| reflexivity].
  apply append_inj_length in H as [H4 H]; [| rewrite !L2; lia].
  apply append_inj_length in H as [H5 H6]; [| rewrite !L2; lia].
  apply pad_inj in H1, H2, H3, H4, H5, H6; lia.
Qed.

(** X2: [getTimestamp] reads the clock once and returns the reading
    as [YYYYMMDD_HHMMSS]: eight digits, an underscore, six digits, for
    every calendar date of the years 0 to 9999. *)
Theorem getTimestamp_shape (w : W) :
  let t := fst (os_now os w) in
  let r := exec os getTimestamp w in
  time.valid t ->
  result r = Returned (time.Format_compact t) /\
  trace r = [EvNow t] /\
  time.timestamp_shape (time.Format_compact t) = true /\
  contains_byte "/" (time.Format_compact t) = false.
Proof.
  intros t r Hvalid. subst t r. unfold getTimestamp, time_Now. simpl.
  destruct (os_now os w) as [t w1]. simpl in *.
  repeat split;
    [apply Format_compact_shape, Hvalid | apply Format_compact_no_slash].
Qed.

(** X3: two calls of [getTimestamp] return the same stamp only when
    the two readings of the clock agree to the second. *)
Theorem getTimestamp_distinct (w w' : W) :
  let t := fst (os_now os w) in
  let t' := fst (os_now os w') in
  time.valid t -> time.valid t' ->
  result (exec os getTimestamp w) = result (exec os getTimestamp w') ->
  year t = year t' /\ month t = month t' /\ day t = day t' /\
  hour t = hour t' /\ minute t = minute t' /\ second t = second t'.
Proof.
  intros t t' Hv Hv'. subst t t'. unfold getTimestamp, time_Now. simpl.
  destruct (os_now os w) as [t w1], (os_now os w') as [t' w1']. simpl in *.
  intros [= H]. apply Format_compact_inj; assumption.
Qed.

End Stamps.

(* ===================================================================== *)
(** ** The three prompts                                                  *)
(* ===================================================================== *)

Section Extensions.

Import filepath.

Lemma with_suffix_ends (name suffix : string) :
  HasSuffix (with_suffix name suffix) suffix = true.
Proof.
  unfold with_suffix. destruct (HasSuffix name suffix) eqn:H; [exact H |].
  apply HasSuffix_iff. eexists. reflexivity.
Qed.

Lemma Split_single (s : string) :
  contains_byte "/" s = false -> Split s "/" = [s].
Proof.
  induction s as [| c s IH]; [reflexivity |]. simpl.
  intros H. apply orb_false_iff in H as [-> H]. rewrite (IH H). reflexivity.
Qed.

(** Text without a slash appended to a path goes to its last
    element. *)
Lemma Split_last_append (s t : string) :
  contains_byte "/" t = false ->
  exists init e,
    Split s "/" = init ++ [e] /\ Split (s +:+ t) "/" = init ++ [e +:+ t].
Proof.
  intros Ht. induction s as [| c s (init & e & Hs & Hst)].
  - exists [], "". split; [reflexivity |]. apply Split_single, Ht.
  - rewrite append_cons. simpl. rewrite Hs, Hst.
    destruct (Ascii.eqb c "/").
    + exists ("" :: init), e. auto.
    + destruct init as [| i init]; simpl.
      * exists [], (String c e). auto.
      * exists (String c i :: init), e. auto.
Qed.

Lemma Join_last (l : list string) (e sep : string) :
  exists pre, GoString.Join (l ++ [e]) sep = pre +:+ e.
Proof.
  induction l as [| a l [pre IH]].
  - exists "". reflexivity.
  - change ((a :: l) ++ [e]) with (a :: (l ++ [e])).
    rewrite Join_cons by (destruct l; discriminate). rewrite IH.
    exists (a +:+ sep +:+ pre). rewrite !append_assoc. reflexivity.
Qed.

Lemma long_is_proper (e : string) :
  (2 < String.length e)%nat -> proper_element e = true.
Proof.
  intros H. unfold proper_element.
  destruct e as [| a [| b [| c e]]]; simpl in H; try lia.
  destruct (String.eqb_spec (String a (String b (String c e))) "");
    [discriminate |].
  destruct (String.eqb_spec (String a (String b (String c e))) ".");
    [discriminate |].
  destruct (String.eqb_spec (String a (String b (String c e))) "..");
    [discriminate |].
  reflexivity.
Qed.

(** [Clean] keeps the last element of a path when it is a proper
    one, so a name keeps its extension under a directory. *)
Lemma Join_keeps_suffix (dir name suffix : string) :
  contains_byte "/" dir = false -> proper_element dir = true ->
  contains_byte "/" suffix = false -> (2 < String.length suffix)%nat ->
  HasSuffix name suffix = true ->
  HasSuffix (Join [dir; name]) suffix = true.
Proof.
  intros Hdir Hproper Hsuffix Hlong [stem ->]%HasSuffix_iff.
  assert (Hne : String.eqb dir "" = false).
  { unfold proper_element in Hproper.
    apply negb_true_iff, orb_false_iff in Hproper as [H _].
    apply orb_false_iff in H as [H _]. exact H. }
  cbn [Join]. rewrite Hne. cbn [GoString.Join]. unfold Clean.
  assert (HasPrefix (dir +:+ "/" +:+ stem +:+ suffix) "/" = false) as ->.
  { destruct dir as [| c dir]; [discriminate Hne |].
    rewrite append_cons. simpl in *.
    apply orb_false_iff in Hdir as [-> _]. reflexivity. }
  rewrite (Split_under dir _ Hdir).
  destruct (Split_last_append stem suffix Hsuffix)
    as (init & e & _ & ->).
  change (dir :: init ++ [e +:+ suffix])
    with ((dir :: init) ++ [e +:+ suffix]).
  rewrite fold_left_app.
  generalize (fold_left (clean_step false) (dir :: init) []) as kept.
  intros kept. cbn [fold_left].
  assert (Hlast : proper_element (e +:+ suffix) = true).
  { apply long_is_proper. rewrite length_append. lia. }
  unfold clean_step. unfold proper_element in Hlast.
  apply negb_true_iff, orb_false_iff in Hlast as [Hl ->].
  rewrite Hl. cbn [rev].
  destruct (Join_last (rev kept) (e +:+ suffix) "/") as [pre Hpre].
  destruct (rev kept) as [| k kept']; cbn [app] in *; rewrite Hpre;
    apply HasSuffix_iff; exists (pre +:+ e);
    rewrite !append_assoc; reflexivity.
Qed.

End Extensions.

Section Prompts.

Context {texts : ErrorText}.
Context {W : Type} (os : OS W).

(** The run of [getResultFilename]: it always returns. *)
Lemma getResultFilename_run (w : W) :
  let word := fst (os_scanln os w) in
  let w1 := snd (os_scanln os w) in
  let t := fst (os_now os w1) in
  let r := exec os getResultFilename w in
  result r = Returned (filepath.Join [jtlDir; result_name word t]) /\
  words (trace r) = [word] /\ commands (trace r) = [] /\
  listing (trace r) = None /\
  (String.eqb (TrimSpace word) "" = true -> In (EvNow t) (trace r)).
Proof.
  intros word w1 t r. subst word w1 t r.
  unfold getResultFilename, getTimestamp, fmt_Print, fmt_Scanln, time_Now,
    result_name, with_suffix, mbind, prog_bind.
  cbn [bind exec]. destruct (os_scanln os w) as [word w1]. cbn [fst snd].
  destruct (String.eqb (TrimSpace word) ""); cbn [bind exec].
  - destruct (os_now os w1) as [t w2]. cbn [fst after result trace].
    repeat split; auto. intros _. simpl. auto.
  - destruct (HasSuffix (TrimSpace word) ".jtl"); cbn;
      repeat split; auto; discriminate.
Qed.

(** X4: whatever is typed at the prompt, the path
    [getResultFilename] returns ends in [.jtl]. *)
Theorem getResultFilename_extension (w : W) :
  exists path,
    result (exec os getResultFilename w) = Returned path /\
    HasSuffix path ".jtl" = true.
Proof.
  destruct (getResultFilename_run w) as (Hr & _). eexists.
  split; [exact Hr |].
  apply Join_keeps_suffix; try reflexivity; [simpl; lia |].
  unfold result_name. cbv zeta.
  destruct (String.eqb (TrimSpace _) ""); [| apply with_suffix_ends].
  apply HasSuffix_iff. exists ("result_" +:+ time.Format_compact
                                 (fst (os_now os (snd (os_scanln os w))))).
  rewrite append_assoc. reflexivity.
Qed.

Lemma debug_default_proper (t : Time) :
  filepath.proper_path ("Debug_" +:+ time.Format_compact t +:+ ".log") = true.
Proof.
  unfold filepath.proper_path. rewrite Split_single; [reflexivity |].
  rewrite !contains_append, Format_compact_no_slash. reflexivity.
Qed.

(** The run of [getRDebugFilename]: it always returns. *)
Lemma getRDebugFilename_run (w : W) :
  let word := fst (os_scanln os w) in
  let w1 := snd (os_scanln os w) in
  let t := fst (os_now os w1) in
  let r := exec os getRDebugFilename w in
  result r = Returned (filepath.Join [debugDir; debug_name word t]) /\
  trace r =
    EvPrint "请输入DEBUG日志文件名（例如 XXXXX_debug.log，回车则使用时间戳）："
    :: EvScanln word
    :: (if String.eqb (TrimSpace word) "" then
          [EvNow t;
           EvPrint ("已自动生成Debug日志文件名：" +:+ debug_name word t +:+ nl)]
        else []).
Proof.
  intros word w1 t r. subst word w1 t r.
  unfold getRDebugFilename, getTimestamp, fmt_Print, fmt_Scanln, time_Now,
    debug_name, with_suffix, mbind, prog_bind.
  cbn [bind exec]. destruct (os_scanln os w) as [word w1]. cbn [fst snd].
  destruct (String.eqb (TrimSpace word) ""); cbn [bind exec].
  - destruct (os_now os w1) as [t w2]. cbn [fst after result trace]. auto.
  - destruct (HasSuffix (TrimSpace word) ".log"); cbn; auto.
Qed.

(** X5: [getRDebugFilename] prompts, reads one word and trims it.  A
    blank word gives [Debug/Debug_<time stamp>.log], which is printed
    as the generated name; any other word gives [filepath.Join] of
    [Debug] and the word, with [.log] appended unless the word ends in
    [.log] already: the name under [Debug] when the name has no empty,
    [.] or [..] element.  In every case the path ends in [.log], and
    the function does nothing but prompt, read and print. *)
Theorem getRDebugFilename_paths (w : W) :
  let word := fst (os_scanln os w) in
  let w1 := snd (os_scanln os w) in
  let name := TrimSpace word in
  let t := fst (os_now os w1) in
  let r := exec os getRDebugFilename w in
  let prompt :=
    EvPrint "请输入DEBUG日志文件名（例如 XXXXX_debug.log，回车则使用时间戳）：" in
  (exists path, result r = Returned path /\ HasSuffix path ".log" = true) /\
  if String.eqb name "" then
    result r =
      Returned ("Debug/Debug_" +:+ time.Format_compact t +:+ ".log") /\
    trace r =
      [prompt; EvScanln word; EvNow t;
       EvPrint ("已自动生成Debug日志文件名：Debug_" +:+ time.Format_compact t
                +:+ ".log" +:+ nl)]
  else
    result r = Returned (filepath.Join [debugDir; with_suffix name ".log"]) /\
    trace r = [prompt; EvScanln word] /\
    (filepath.proper_path (with_suffix name ".log") = true ->
     result r = Returned ("Debug/" +:+ with_suffix name ".log")).
Proof.
  intros word w1 name t r prompt. subst word w1 name t r prompt.
  destruct (getRDebugFilename_run w) as (Hr & Ht). split.
  - eexists. split; [exact Hr |].
    apply Join_keeps_suffix; try reflexivity; [simpl; lia |].
    unfold debug_name. cbv zeta.
    destruct (String.eqb (TrimSpace _) ""); [| apply with_suffix_ends].
    apply HasSuffix_iff. eexists. rewrite <- append_assoc. reflexivity.
  - rewrite Hr, Ht. unfold debug_name. cbv zeta.
    destruct (String.eqb (TrimSpace (fst (os_scanln os w))) "").
    + rewrite (Join_under debugDir _ eq_refl eq_refl (debug_default_proper _)).
      rewrite !append_assoc. auto.
    + repeat split. intros Hproper.
      rewrite (Join_under debugDir _ eq_refl eq_refl Hproper). reflexivity.
Qed.

End Prompts.

Section ReportFolder.

Context {texts : ErrorText}.
Context {W : Type} (os : OS W).

Lemma ensureDir_ends (dir : string) (w : W) :
  result (exec os (ensureDir dir) w) = Returned tt \/
  result (exec os (ensureDir dir) w) = Exited 1.
Proof.
  destruct (tame_sound false (ensureDir dir) (tame_ensureDir false dir) W os w)
    as (_ & _ & [[[[]] ?] | [? ?]]); auto.
Qed.

Lemma folder_default_proper (t : Time) :
  filepath.proper_path ("report_" +:+ time.Format_compact t) = true.
Proof.
  unfold filepath.proper_path. rewrite Split_single; [reflexivity |].
  rewrite !contains_append, Format_compact_no_slash. reflexivity.
Qed.

(** The run of [getReportFolder], by the run of [ensureDir] on the
    folder. *)
Lemma getReportFolder_run (w : W) :
  let word := fst (os_scanln os w) in
  let w1 := snd (os_scanln os w) in
  let t := fst (os_now os w1) in
  let blank := String.eqb (TrimSpace word) "" in
  let path := filepath.Join [reportDir; folder_name word t] in
  let d := exec os (ensureDir path) (if blank then snd (os_now os w1) else w1) in
  let asked :=
    EvPrint "请输入输出报告文件夹名称（例如 report_fold，回车则使用时间戳）："
    :: EvScanln word
    :: (if blank then
          [EvNow t;
           EvPrint ("已自动生成报告文件夹：" +:+ folder_name word t +:+ nl)]
        else []) in
  let r := exec os getReportFolder w in
  match result d with
  | Returned _ =>
      result r = Returned path /\
      trace r = asked ++ trace d ++ [EvPrint ("报告文件夹路径：" +:+ path +:+ nl)]
  | _ => result r = Exited 1 /\ trace r = asked ++ trace d
  end.
Proof.
  intros word w1 t blank path d asked r. subst word w1 t blank path d asked r.
  unfold getReportFolder, getTimestamp, fmt_Print, fmt_Scanln, time_Now,
    folder_name, mbind, prog_bind.
  cbn [bind exec]. destruct (os_scanln os w) as [word w1]. cbn [fst snd].
  destruct (String.eqb (TrimSpace word) ""); cbn [bind exec].
  - destruct (os_now os w1) as [t w2]. cbn [fst snd after result trace].
    rewrite exec_bind. unfold then_run.
    destruct (ensureDir_ends
                (filepath.Join [reportDir; "report_" +:+ time.Format_compact t])
                w2) as [-> | ->]; cbn; rewrite ?app_nil_r; auto.
  - cbn [after result trace]. rewrite exec_bind. unfold then_run.
    destruct (ensureDir_ends (filepath.Join [reportDir; TrimSpace word]) w1)
      as [-> | ->]; cbn; rewrite ?app_nil_r; auto.
Qed.

(** X6: [getReportFolder] prompts, reads one word and trims it; a
    blank word stands for [report_<time stamp>], which is printed as
    the generated name.  The path is [filepath.Join] of [Reporter] and
    the name (the name under [Reporter] when it has no empty, [.] or
    [..] element; no extension is added).  [ensureDir] is run on
    exactly this path; when it returns, the path is printed and
    returned, and when the folder cannot be created the process exits
    with status 1 and the path is not printed. *)
Theorem getReportFolder_ensures (w : W) :
  let word := fst (os_scanln os w) in
  let w1 := snd (os_scanln os w) in
  let t := fst (os_now os w1) in
  let blank := String.eqb (TrimSpace word) "" in
  let path := filepath.Join [reportDir; folder_name word t] in
  let d := exec os (ensureDir path) (if blank then snd (os_now os w1) else w1) in
  let asked :=
    EvPrint "请输入输出报告文件夹名称（例如 report_fold，回车则使用时间戳）："
    :: EvScanln word
    :: (if blank then
          [EvNow t;
           EvPrint ("已自动生成报告文件夹：" +:+ folder_name word t +:+ nl)]
        else []) in
  let r := exec os getReportFolder w in
  match result d with
  | Returned _ =>
      result r = Returned path /\
      trace r = asked ++ trace d ++ [EvPrint ("报告文件夹路径：" +:+ path +:+ nl)]
  | _ => result r = Exited 1 /\ trace r = asked ++ trace d
  end /\
  (if blank then path = "Reporter/report_" +:+ time.Format_compact t
   else filepath.proper_path (TrimSpace word) = true ->
        path = "Reporter/" +:+ TrimSpace word).
Proof.
  intros word w1 t blank path d asked r. split.
  - apply getReportFolder_run.
  - subst path blank. unfold folder_name. cbv zeta.
    destruct (String.eqb (TrimSpace word) "").
    + rewrite (Join_under reportDir _ eq_refl eq_refl
                 (folder_default_proper _)).
      reflexivity.
    + intros Hproper.
      rewrite (Join_under reportDir _ eq_refl eq_refl Hproper). reflexivity.
Qed.

End ReportFolder.

(* ===================================================================== *)
(** ** What the functions may do                                          *)
(* ===================================================================== *)

Lemma Forall_stepwise (Q : event -> Prop) : stepwise (Forall Q) Q.
Proof.
  split; [constructor | intros; constructor; assumption |].
  intros a b Ha Hb. apply Forall_app; auto.
Qed.

Lemma disciplined_app (open : list File) (a b : list event) :
  disciplined open (a ++ b)
  = disciplined open a && disciplined (left_open open a) b.
Proof.
  revert open; induction a as [| ev a IH]; intros open; [reflexivity |].
  destruct ev; simpl; try apply IH.
  - destruct r; apply IH.
  - rewrite IH. apply andb_assoc.
  - rewrite IH. apply andb_assoc.
  - destruct open; [apply IH | reflexivity].
Qed.

Lemma left_open_app (open : list File) (a b : list event) :
  left_open open (a ++ b) = left_open (left_open open a) b.
Proof.
  revert open; induction a as [| ev a IH]; intros open; [reflexivity |].
  destruct ev; simpl; try apply IH. destruct r; apply IH.
Qed.

Lemma tidy_stepwise : stepwise tidy fileless.
Proof.
  split.
  - split; reflexivity.
  - intros ev tr Hev [Hd Hl]. destruct ev; try destruct Hev; split; assumption.
  - intros a b [Hda Hla] [Hdb Hlb]. unfold tidy.
    rewrite disciplined_app, left_open_app, Hda, Hla, Hdb, Hlb. auto.
Qed.

Section Only.

Context {P : list event -> Prop} {Q : event -> Prop} (steps : stepwise P Q).

Lemma always_bind {A B} (p : prog A) (f : A -> prog B) :
  always P p -> (forall a, always P (f a)) -> always P (bind p f).
Proof.
  intros Hp Hf W os w.
  destruct (bind_run os p f w) as [(a & _ & ->) | (_ & _ & ->)]; simpl.
  - apply (step_app _ _ steps); [apply Hp | apply Hf].
  - apply Hp.
Qed.

Lemma always_Ret {A} (a : A) : always P (Ret a).
Proof. intros W os w. apply (step_nil _ _ steps). Qed.

Lemma always_Exit {A} code : always P (Exit code : prog A).
Proof. intros W os w. apply (step_nil _ _ steps). Qed.

Lemma always_Panic {A} msg : always P (Panic msg : prog A).
Proof. intros W os w. apply (step_nil _ _ steps). Qed.

Lemma always_Now {A} (k : Time -> prog A) :
  (forall t, Q (EvNow t)) -> (forall t, always P (k t)) -> always P (Now k).
Proof.
  intros Hq Hk W os w. simpl. destruct (os_now os w). simpl.
  apply (step_cons _ _ steps); [apply Hq | apply Hk].
Qed.

Lemma always_Stat {A} name (k : option error -> prog A) :
  (forall r, Q (EvStat name r)) -> (forall r, always P (k r)) ->
  always P (Stat name k).
Proof.
  intros Hq Hk W os w. simpl. destruct (os_stat os name w). simpl.
  apply (step_cons _ _ steps); [apply Hq | apply Hk].
Qed.

Lemma always_MkdirAll {A} path perm (k : option error -> prog A) :
  (forall r, Q (EvMkdirAll path perm r)) -> (forall r, always P (k r)) ->
  always P (MkdirAll path perm k).
Proof.
  intros Hq Hk W os w. simpl. destruct (os_mkdirall os path perm w). simpl.
  apply (step_cons _ _ steps); [apply Hq | apply Hk].
Qed.

Lemma always_OpenFile {A} name flag perm (k : error + File -> prog A) :
  (forall r, Q (EvOpenFile name flag perm r)) ->
  (forall e, always P (k (inl e))) ->
  always P (k (inr (mkFile name flag))) ->
  always P (OpenFile name flag perm k).
Proof.
  intros Hq He Hf W os w. simpl.
  destruct (os_open os name flag perm w) as [[e |] w1]; simpl;
    (apply (step_cons _ _ steps); [apply Hq |]); [apply He | apply Hf].
Qed.

Lemma always_WriteString {A} f s (k : option error -> prog A) :
  (forall r, Q (EvWriteString f s r)) -> (forall r, always P (k r)) ->
  always P (WriteString f s k).
Proof.
  intros Hq Hk W os w. simpl. destruct (os_write os f s w). simpl.
  apply (step_cons _ _ steps); [apply Hq | apply Hk].
Qed.

Lemma always_Close {A} f (k : prog A) :
  Q (EvClose f) -> always P k -> always P (Close f k).
Proof.
  intros Hq Hk W os w. simpl.
  apply (step_cons _ _ steps); [apply Hq | apply Hk].
Qed.

Lemma always_ReadDir {A} d (k : error + list FileInfo -> prog A) :
  (forall r, Q (EvReadDir d r)) -> (forall r, always P (k r)) ->
  always P (ReadDir d k).
Proof.
  intros Hq Hk W os w. simpl. destruct (os_readdir os d w). simpl.
  apply (step_cons _ _ steps); [apply Hq | apply Hk].
Qed.

Lemma always_ReadFile {A} n (k : error + string -> prog A) :
  (forall r, Q (EvReadFile n r)) -> (forall r, always P (k r)) ->
  always P (ReadFile n k).
Proof.
  intros Hq Hk W os w. simpl. destruct (os_readfile os n w). simpl.
  apply (step_cons _ _ steps); [apply Hq | apply Hk].
Qed.

Lemma always_Scanln {A} (k : string -> prog A) :
  (forall s, Q (EvScanln s)) -> (forall s, always P (k s)) ->
  always P (Scanln k).
Proof.
  intros Hq Hk W os w. simpl. destruct (os_scanln os w). simpl.
  apply (step_cons _ _ steps); [apply Hq | apply Hk].
Qed.

Lemma always_Print {A} s (k : prog A) :
  Q (EvPrint s) -> always P k -> always P (Print s k).
Proof.
  intros Hq Hk W os w. simpl.
  apply (step_cons _ _ steps); [apply Hq | apply Hk].
Qed.

Lemma always_LogOutput {A} s (k : prog A) :
  Q (EvLogOutput s) -> always P k -> always P (LogOutput s k).
Proof.
  intros Hq Hk W os w. simpl.
  apply (step_cons _ _ steps); [apply Hq | apply Hk].
Qed.

Lemma always_Run {A} c (k : option error -> prog A) :
  (forall r, Q (EvRun c r)) -> (forall r, always P (k r)) ->
  always P (Run c k).
Proof.
  intros Hq Hk W os w. simpl. destruct (os_run os c w). simpl.
  apply (step_cons _ _ steps); [apply Hq | apply Hk].
Qed.

End Only.

Lemma always_impl (Q Q' : event -> Prop) {A} (p : prog A) :
  (forall ev, Q ev -> Q' ev) -> always (Forall Q) p -> always (Forall Q') p.
Proof. intros H Hp W os w. eapply Forall_impl; [apply Hp | exact H]. Qed.

Create HintDb only.

(** A test on one event, by computation. *)
Ltac event_test := simpl; repeat split; solve [reflexivity | assumption | auto].

(** One step through a program, for a property checked event by
    event. *)
Ltac only_step steps :=
  match goal with
  | |- forall _, _ => intro
  | |- always _ (bind (match ?x with _ => _ end) _) => destruct x
  | |- always _ (bind _ _) =>
      apply (always_bind steps); [solve [auto with only] |]
  | |- always _ (match ?x with _ => _ end) => destruct x
  | |- always _ _ => solve [auto with only]
  | |- always _ (Ret _) => apply (always_Ret steps)
  | |- always _ (Exit _) => apply (always_Exit steps)
  | |- always _ (Panic _) => apply (always_Panic steps)
  | |- always _ (Now _) => apply (always_Now steps)
  | |- always _ (Stat _ _) => apply (always_Stat steps)
  | |- always _ (MkdirAll _ _ _) => apply (always_MkdirAll steps)
  | |- always _ (OpenFile _ _ _ _) => apply (always_OpenFile steps)
  | |- always _ (WriteString _ _ _) => apply (always_WriteString steps)
  | |- always _ (Close _ _) => apply (always_Close steps)
  | |- always _ (ReadDir _ _) => apply (always_ReadDir steps)
  | |- always _ (ReadFile _ _) => apply (always_ReadFile steps)
  | |- always _ (Scanln _) => apply (always_Scanln steps)
  | |- always _ (Print _ _) => apply (always_Print steps)
  | |- always _ (LogOutput _ _) => apply (always_LogOutput steps)
  | |- always _ (Run _ _) => apply (always_Run steps)
  | |- always _ _ => progress cbn [bind]
  | |- always _ (bind _ _) => apply (always_bind steps)
  | |- _ => event_test
  end.

Ltac only_tac steps :=
  unfold os_Stat, os_MkdirAll, os_OpenFile, file_WriteString, file_Close,
    ioutil_ReadDir, ioutil_ReadFile, time_Now, fmt_Scanln, fmt_Print,
    fmt_Println, log_Println, log_Fatalf, os_Exit, cmd_Run, assert_float64,
    assert_int, mbind, prog_bind;
  cbn [bind]; repeat only_step steps.

Section Events.

Context {texts : ErrorText} {xml : XmlQuery}.

Lemma log_event_main (ev : event) : log_event ev -> main_event ev.
Proof. destruct ev; simpl; tauto. Qed.

Lemma log_event_silent (ev : event) : log_event ev -> silent_event ev.
Proof. destruct ev; simpl; tauto. Qed.

Lemma log_event_launch cmd (ev : event) : log_event ev -> launch_event cmd ev.
Proof. destruct ev; simpl; tauto. Qed.

Lemma log_event_prompt (ev : event) : log_event ev -> prompt_event ev.
Proof. destruct ev; simpl; tauto. Qed.

Lemma ensureDir_logs dir : always (Forall log_event) (ensureDir dir).
Proof. unfold ensureDir. only_tac (Forall_stepwise log_event). Qed.
Hint Resolve ensureDir_logs : only.

Lemma writeLog_logs msg : always (Forall log_event) (writeLog msg).
Proof. unfold writeLog. only_tac (Forall_stepwise log_event). Qed.
Hint Resolve writeLog_logs : only.

(** The functions that only log. *)
Lemma ensureDir_main dir : always (Forall main_event) (ensureDir dir).
Proof. exact (always_impl _ _ _ log_event_main (ensureDir_logs dir)). Qed.

Lemma writeLog_main msg : always (Forall main_event) (writeLog msg).
Proof. exact (always_impl _ _ _ log_event_main (writeLog_logs msg)). Qed.

Lemma ensureDir_silent dir : always (Forall silent_event) (ensureDir dir).
Proof. exact (always_impl _ _ _ log_event_silent (ensureDir_logs dir)). Qed.

Lemma writeLog_silent msg : always (Forall silent_event) (writeLog msg).
Proof. exact (always_impl _ _ _ log_event_silent (writeLog_logs msg)). Qed.

Lemma writeLog_launch cmd msg :
  always (Forall (launch_event cmd)) (writeLog msg).
Proof. exact (always_impl _ _ _ (log_event_launch cmd) (writeLog_logs msg)). Qed.

Lemma ensureDir_prompt dir : always (Forall prompt_event) (ensureDir dir).
Proof. exact (always_impl _ _ _ log_event_prompt (ensureDir_logs dir)). Qed.

Lemma writeLog_prompt msg : always (Forall prompt_event) (writeLog msg).
Proof. exact (always_impl _ _ _ log_event_prompt (writeLog_logs msg)). Qed.

Hint Resolve ensureDir_main writeLog_main ensureDir_silent writeLog_silent
  writeLog_launch ensureDir_prompt writeLog_prompt : only.

Lemma ensureDir_tidy dir : always tidy (ensureDir dir).
Proof. unfold ensureDir. only_tac tidy_stepwise. Qed.

Lemma writeLog_tidy msg : always tidy (writeLog msg).
Proof.
  intros W os w. remember (exec os (writeLog msg) w) as r eqn:Hr.
  unfold writeLog, ensureDir in Hr. simpl in Hr.
  run_cases Hr; subst r; split; reflexivity.
Qed.

Hint Resolve ensureDir_tidy writeLog_tidy : only.

(** *** The whole program *)

Section Whole.

Context {P : list event -> Prop} {Q : event -> Prop}.
Context (steps : stepwise P Q).
Context (Hdir : forall dir, always P (ensureDir dir)).
Context (Hlog : forall msg, always P (writeLog msg)).
Context (Hnow : forall t, Q (EvNow t)).
Context (Hlist : forall r, Q (EvReadDir "." r)).
Context (Hread : forall n r, Q (EvReadFile n r)).
Context (Hscan : forall s, Q (EvScanln s)).
Context (Hprint : forall s, Q (EvPrint s)).
Context (Hrun : forall jmxFile resultFile reportFolder debugFile r,
            Q (EvRun {| Path := "jmeter";
                        Args := ["jmeter"; "-n"; "-t"; jmxFile; "-l";
                                 resultFile; "-e"; "-o"; reportFolder;
                                 "-j"; debugFile];
                        Stdout := Some os_Stdout;
                        Stderr := Some os_Stderr |} r)).

Hint Resolve Hdir Hlog : only.

Lemma print_numbered_all idx names : always P (print_numbered idx names).
Proof.
  revert idx; induction names as [| n names IH]; intros idx; simpl.
  - apply (always_Ret steps).
  - apply (always_Print steps); [apply Hprint | apply IH].
Qed.
Hint Resolve print_numbered_all : only.

Lemma listJMXFiles_all : always P listJMXFiles.
Proof. unfold listJMXFiles. only_tac steps. Qed.

Lemma selectJMXFile_all jmxFiles : always P (selectJMXFile jmxFiles).
Proof. unfold selectJMXFile. only_tac steps. Qed.

Lemma getTimestamp_all : always P getTimestamp.
Proof. unfold getTimestamp. only_tac steps. Qed.
Hint Resolve getTimestamp_all : only.

Lemma getResultFilename_all : always P getResultFilename.
Proof. unfold getResultFilename. only_tac steps. Qed.

Lemma getReportFolder_all : always P getReportFolder.
Proof. unfold getReportFolder. only_tac steps. Qed.

Lemma getRDebugFilename_all : always P getRDebugFilename.
Proof. unfold getRDebugFilename. only_tac steps. Qed.

Lemma parseThreadCount_all jmxFile : always P (parseThreadCount jmxFile).
Proof. unfold parseThreadCount. only_tac steps. Qed.

Lemma parseStatistics_all reportFolder :
  always P (parseStatistics reportFolder).
Proof. unfold parseStatistics. only_tac steps. Qed.

Hint Resolve listJMXFiles_all selectJMXFile_all getResultFilename_all
  getReportFolder_all getRDebugFilename_all parseThreadCount_all
  parseStatistics_all : only.

Lemma summarize_all jmxFile reportFolder startTime endTime err :
  always P (summarize jmxFile reportFolder startTime endTime err).
Proof. unfold summarize. only_tac steps. Qed.
Hint Resolve summarize_all : only.

Lemma runJMeter_all jmxFile resultFile reportFolder debugFile :
  always P (runJMeter jmxFile resultFile reportFolder debugFile).
Proof.
  unfold runJMeter, jmeter_command, exec_Command. only_tac steps.
Qed.
Hint Resolve runJMeter_all : only.

Lemma main_all : always P main.
Proof. unfold main. only_tac steps. Qed.

End Whole.

End Events.

#[global] Hint Resolve ensureDir_logs writeLog_logs ensureDir_main
  writeLog_main ensureDir_silent writeLog_silent writeLog_launch
  ensureDir_prompt writeLog_prompt ensureDir_tidy writeLog_tidy : only.

(* ===================================================================== *)
(** ** The program as a whole                                             *)
(* ===================================================================== *)

Section Conduct.

Context {texts : ErrorText} {xml : XmlQuery}.
Context {W : Type} (os : OS W).

(** X7: in every run of [main] the program creates directories with
    mode 0755 only, lists no directory but the working directory,
    opens no file but the log file, for appending and with mode 0644,
    writes to no other file, and launches nothing but [jmeter], on
    its own standard output and standard error. *)
Theorem main_keeps_to_the_log (w : W) :
  Forall main_event (trace (exec os main w)).
Proof.
  apply (main_all (Forall_stepwise main_event));
    auto using ensureDir_main, writeLog_main; intros; simpl; auto.
Qed.

(** X8: in every run of [main] files are used in order: each write
    goes to a file that is open, each file opened is closed again, no
    file is open while [jmeter] runs, and none is left open at the
    end. *)
Theorem main_closes_its_files (w : W) :
  disciplined [] (trace (exec os main w)) = true /\
  left_open [] (trace (exec os main w)) = [].
Proof.
  apply (main_all tidy_stepwise);
    auto using ensureDir_tidy, writeLog_tidy; intros; exact I.
Qed.

(** X9: [runJMeter] returns, or the process exits with status 1
    because the log directory could not be created.  It never panics:
    whatever the statistics file holds, the map [parseStatistics]
    returns has the five keys [runJMeter] reads, with values of the
    types it asserts. *)
Theorem runJMeter_ends (jmxFile resultFile reportFolder debugFile : string)
        (w : W) :
  let r := exec os (runJMeter jmxFile resultFile reportFolder debugFile) w in
  (result r = Returned tt /\ mkdir_failed (trace r) = false) \/
  (result r = Exited 1 /\ mkdir_failed (trace r) = true).
Proof.
  intros r. subst r.
  destruct (tame_sound true _
              (tame_runJMeter jmxFile resultFile reportFolder debugFile)
              W os w) as (_ & _ & [[[[] ?] ?] | [? ?]]); auto.
Qed.

End Conduct.

(* ===================================================================== *)
(** ** What [runJMeter] reads and prints                                  *)
(* ===================================================================== *)

Section Reads.

Context {texts : ErrorText} {xml : XmlQuery}.
Context {W : Type} (os : OS W).

(** A trace of logging shows nothing to the other observers. *)
Lemma log_trace_quiet (tr : list event) :
  Forall log_event tr ->
  files_read tr = [] /\ printed tr = [] /\ words tr = [] /\
  commands tr = [] /\ run_failed tr = false /\ listing tr = None.
Proof.
  induction 1 as [| ev tr Hev _ IH]; [repeat split |].
  destruct ev; simpl in Hev; try contradiction; exact IH.
Qed.

Lemma writeLog_quiet (msg : string) (w : W) :
  let tr := trace (exec os (writeLog msg) w) in
  files_read tr = [] /\ printed tr = [] /\ words tr = [] /\
  commands tr = [] /\ run_failed tr = false /\ listing tr = None.
Proof. apply log_trace_quiet, writeLog_logs. Qed.

(** [parseThreadCount] reads the test plan and nothing else. *)
Lemma parseThreadCount_quiet (jmxFile : string) (w : W) :
  let tr := trace (exec os (parseThreadCount jmxFile) w) in
  files_read tr = [jmxFile] /\ printed tr = [] /\ run_failed tr = false.
Proof.
  unfold parseThreadCount, ioutil_ReadFile, mbind, prog_bind.
  cbn [bind exec]. destruct (os_readfile os jmxFile w) as [read w1].
  match goal with
  | |- context [exec os ?p w1] =>
      assert (H : always (Forall log_event) p)
        by only_tac (Forall_stepwise log_event);
      destruct (log_trace_quiet _ (H W os w1)) as (Hf & Hp & _ & _ & Hr & _);
      destruct (exec os p w1) as [tr res fin]
  end.
  simpl in *. unfold files_read, printed, run_failed in *. simpl.
  rewrite Hf, Hp, Hr. auto.
Qed.

(** [parseStatistics] reads the statistics file, does nothing else
    and returns. *)
Lemma parseStatistics_quiet (reportFolder : string) (w : W) :
  let r := exec os (parseStatistics reportFolder) w in
  (exists parsed, result r = Returned parsed) /\
  files_read (trace r) = [filepath.Join [reportFolder; "statistics.json"]] /\
  printed (trace r) = [] /\ run_failed (trace r) = false.
Proof.
  unfold parseStatistics, ioutil_ReadFile, mbind, prog_bind.
  cbn [bind exec]. destruct (os_readfile os _ w) as [[e | data] w1].
  - cbn. eauto.
  - destruct (Unmarshal.Unmarshal data); cbn; eauto.
Qed.

(** [runJMeter] from the return of the command on. *)
Lemma summarize_reads (jmxFile reportFolder : string) (t0 t1 : Time)
      (err : option error) (w : W) :
  let r := exec os (summarize jmxFile reportFolder t0 t1 err) w in
  let statFile := filepath.Join [reportFolder; "statistics.json"] in
  run_failed (trace r) = false /\
  match err with
  | Some _ =>
      files_read (trace r) = [] /\
      (result r = Returned tt ->
       printed (trace r) = ["命令执行失败，请检查日志文件 pmeter.log。" +:+ nl])
  | None =>
      printed (trace r) = [] /\
      (files_read (trace r) = [] \/ files_read (trace r) = [jmxFile] \/
       files_read (trace r) = [jmxFile; statFile]) /\
      (result r = Returned tt -> files_read (trace r) = [jmxFile; statFile])
  end.
Proof.
  intros r statFile. subst r statFile.
  unfold summarize, fmt_Println, mbind, prog_bind. destruct err as [e |].
  - match goal with
    | |- context [exec os (bind (writeLog ?m) ?f) w] =>
        destruct (writeLog_quiet m w) as (Hf & Hp & _ & _ & Hr & _);
        destruct (tame_prefix os (writeLog m) f w (tame_writeLog _ _))
          as [(? & _ & _ & _ & _ & ->) | (Hres & -> & _)]
    end.
    + destruct (exec os (writeLog _) w) as [tr res fin]. simpl in *.
      unfold files_read, printed, run_failed in *.
      rewrite !omap_app, existsb_app, Hf, Hp, Hr. auto.
    + rewrite Hres, Hf, Hr. repeat split. discriminate.
  - match goal with
    | |- context [exec os (bind (writeLog ?m) ?f) w] =>
        destruct (writeLog_quiet m w) as (Hf & Hp & _ & _ & Hr & _);
        destruct (tame_prefix os (writeLog m) f w (tame_writeLog _ _))
          as [(? & _ & _ & _ & _ & ->) | (Hres & -> & _)]
    end.
    2: { rewrite Hres, Hf, Hp, Hr. repeat split; auto. discriminate. }
    match goal with
    | |- context [exec os (bind (parseThreadCount ?j) ?f) ?w1] =>
        destruct (parseThreadCount_quiet j w1) as (Hf2 & Hp2 & Hr2);
        destruct (tame_prefix os (parseThreadCount j) f w1
                    (tame_parseThreadCount _ _))
          as [(count & _ & _ & _ & _ & ->) | (Hres & Htr & _)]
    end.
    2: { cbn [trace result]. rewrite Hres, Htr.
         unfold files_read, printed, run_failed in *.
         rewrite !omap_app, existsb_app, Hf, Hp, Hr, Hf2, Hp2, Hr2.
         repeat split; auto. discriminate. }
    rewrite exec_bind. unfold then_run.
    match goal with
    | |- context [exec os (parseStatistics reportFolder) ?w2] =>
        destruct (parseStatistics_quiet reportFolder w2)
          as ([parsed Hres3] & Hf3 & Hp3 & Hr3);
        rewrite Hres3
    end.
    match goal with
    | |- context [exec os ?p (final (exec os (parseStatistics _) ?w2))] =>
        assert (H : always (Forall log_event) p)
          by only_tac (Forall_stepwise log_event);
        destruct (log_trace_quiet _
                    (H W os (final (exec os (parseStatistics reportFolder) w2))))
          as (Hf4 & Hp4 & _ & _ & Hr4 & _)
    end.
    cbn [trace result].
    unfold files_read, printed, run_failed in *.
    rewrite !omap_app, !existsb_app, Hf, Hp, Hr, Hf2, Hp2, Hr2, Hf3, Hp3,
      Hr3, Hf4, Hp4, Hr4.
    cbn [app orb]. repeat split; auto.
Qed.

(** X10: [runJMeter] reads no file unless it has launched the
    command, and none when the command failed.  What it reads is the
    test plan and then [statistics.json] in the report folder, in this
    order and nothing else: both of them whenever the command
    succeeded and [runJMeter] returns.  On standard output a run that
    returns has printed the command line and, when the command
    failed, the hint at the log file; nothing else. *)
Theorem runJMeter_reads (jmxFile resultFile reportFolder debugFile : string)
        (w : W) :
  let r := exec os (runJMeter jmxFile resultFile reportFolder debugFile) w in
  let statFile := filepath.Join [reportFolder; "statistics.json"] in
  let line :=
    (nl +:+ "执行命令： " +:+
     GoString.Join ["jmeter"; "-n"; "-t"; jmxFile; "-l"; resultFile; "-e";
                    "-o"; reportFolder; "-j"; debugFile] " ") +:+ nl in
  let hint := "命令执行失败，请检查日志文件 pmeter.log。" +:+ nl in
  (commands (trace r) = [] -> files_read (trace r) = []) /\
  (if run_failed (trace r) then files_read (trace r) = []
   else files_read (trace r) = [] \/ files_read (trace r) = [jmxFile] \/
        files_read (trace r) = [jmxFile; statFile]) /\
  (result r = Returned tt ->
   if run_failed (trace r) then printed (trace r) = [line; hint]
   else files_read (trace r) = [jmxFile; statFile] /\
        printed (trace r) = [line]).
Proof.
  intros r statFile line hint. subst r statFile line hint.
  unfold runJMeter, jmeter_command, exec_Command, time_Now, cmd_Run,
    fmt_Println, mbind, prog_bind.
  cbn [bind exec Path Args]. destruct (os_now os w) as [t0 w0].
  match goal with
  | |- context [exec os (bind (writeLog ?m) ?f) w0] =>
      destruct (writeLog_quiet m w0) as (Hf1 & Hp1 & _ & Hc1 & Hr1 & _);
      destruct (tame_prefix os (writeLog m) f w0 (tame_writeLog _ _))
        as [(? & _ & _ & _ & _ & ->) | (Hres & Htr & _)]
  end.
  2: { cbn [after trace result]. rewrite Hres, Htr. observe.
       rewrite Hf1, Hr1.
       split; [intros _; reflexivity |].
       split; [left; reflexivity | intros Hret; discriminate Hret]. }
  match goal with
  | |- context [exec os (bind (writeLog ?m) ?f) ?w1] =>
      destruct (writeLog_quiet m w1) as (Hf2 & Hp2 & _ & Hc2 & Hr2 & _);
      destruct (tame_prefix os (writeLog m) f w1 (tame_writeLog _ _))
        as [(? & _ & _ & _ & _ & ->) | (Hres & Htr & _)]
  end.
  2: { cbn [after trace result]. rewrite Hres, Htr. observe.
       rewrite Hf1, Hr1, Hf2, Hr2.
       split; [intros _; reflexivity |].
       split; [left; reflexivity | intros Hret; discriminate Hret]. }
  cbn [bind exec]. destruct (os_run os _ _) as [err w3].
  destruct (os_now os w3) as [t1 w4].
  pose proof (summarize_reads jmxFile reportFolder t0 t1 err w4) as Hs.
  cbv zeta in Hs. destruct Hs as (Hr3 & Hs).
  cbn [after trace result]. observe.
  rewrite Hf1, Hp1, Hr1, Hf2, Hp2, Hr2, Hr3, Hc1, Hc2. cbn [app orb].
  split; [intros Hnone; discriminate Hnone |].
  destruct err as [e |].
  - destruct Hs as (-> & Hp3). split; [reflexivity |].
    intros Hres. rewrite (Hp3 Hres). reflexivity.
  - destruct Hs as (-> & Hf3 & Hall). split; [exact Hf3 |].
    intros Hres. rewrite (Hall Hres). auto.
Qed.

End Reads.

(* ===================================================================== *)
(** ** The numbered list and the selection                                *)
(* ===================================================================== *)

Section Numbers.

Context {texts : ErrorText}.
Context {W : Type} (os : OS W).

Lemma print_numbered_prints (idx : Z) (names : list string) (w : W) :
  trace (exec os (print_numbered idx names) w)
  = imap (fun i name =>
            EvPrint (Itoa (idx + Z.of_nat i + 1) +:+ ". " +:+ name +:+ nl))
         names.
Proof.
  revert idx; induction names as [| n names IH]; intros idx; [reflexivity |].
  simpl. rewrite IH, Z.add_0_r. f_equal. apply imap_ext.
  intros i name _. unfold compose. do 3 f_equal. lia.
Qed.

(** X11: when the listing holds test plans, [listJMXFiles] prints the
    heading and then one line for each name it returns, in the order
    returned and numbered from 1; it does nothing else. *)
Theorem listJMXFiles_prints (files : list FileInfo) (w : W) :
  let jmxFiles := map Name (List.filter is_jmx files) in
  let r := exec os listJMXFiles w in
  fst (os_readdir os "." w) = inr files -> jmxFiles <> [] ->
  result r = Returned jmxFiles /\
  trace r
  = EvReadDir "." (inr files)
    :: EvPrint ("可用的 .jmx 文件：" +:+ nl)
    :: imap (fun i name =>
               EvPrint (Itoa (Z.of_nat i + 1) +:+ ". " +:+ name +:+ nl))
            jmxFiles /\
  final r = snd (os_readdir os "." w).
Proof.
  intros jmxFiles r Hlisted Hsome. subst jmxFiles r.
  unfold listJMXFiles, ioutil_ReadDir, fmt_Println, mbind, prog_bind.
  cbn [bind exec]. destruct (os_readdir os "." w) as [listed w1].
  cbn [fst snd] in *. subst listed. rewrite collect_jmx_filter.
  destruct (map Name (List.filter is_jmx files)) as [| n names];
    [congruence |].
  cbn [length Nat.eqb bind exec after result trace final].
  rewrite exec_bind. unfold then_run.
  destruct (print_numbered_returns os 0 (n :: names) w1) as [Hres Hfin].
  pose proof (print_numbered_prints 0 (n :: names) w1) as Htr.
  destruct (exec os (print_numbered 0 (n :: names)) w1) as [tr res fin].
  cbn [result trace final] in *. subst res fin tr.
  cbn [exec trace result final]. rewrite app_nil_r. auto.
Qed.

(** X12: the number printed beside a name selects the name: when the
    word read at the prompt is the decimal numeral of a position in
    the list, counting from 1, [selectJMXFile] returns the name at
    that position. *)
Theorem selectJMXFile_picks_numbered (jmxFiles : list string) (i : nat)
        (file : string) (w : W) :
  Z.of_nat (length jmxFiles) <= maxInt ->
  jmxFiles !! i = Some file ->
  fst (os_scanln os w) = Itoa (Z.of_nat i + 1) ->
  result (exec os (selectJMXFile jmxFiles) w) = Returned file.
Proof.
  intros Hmax Hfile Hword.
  unfold selectJMXFile, fmt_Print, fmt_Scanln, mbind, prog_bind.
  cbn [bind exec]. destruct (os_scanln os w) as [choice w1].
  cbn [fst] in Hword. subst choice.
  pose proof (lookup_lt_Some _ _ _ Hfile) as Hlt.
  rewrite Atoi_Itoa by (unfold minInt, intSize; simpl; lia).
  replace (Z.of_nat i + 1 <? 1) with false by (symmetry; apply Z.ltb_ge; lia).
  replace (Z.of_nat (length jmxFiles) <? Z.of_nat i + 1) with false
    by (symmetry; apply Z.ltb_ge; lia).
  cbn [orb]. replace (Z.to_nat (Z.of_nat i + 1 - 1)) with i by lia.
  rewrite Hfile. reflexivity.
Qed.

End Numbers.

(* ===================================================================== *)
(** ** The command [main] launches                                        *)
(* ===================================================================== *)

Section Selected.

Context {texts : ErrorText} {xml : XmlQuery}.
Context {W : Type} (os : OS W).

Lemma prompt_trace (tr : list event) :
  Forall prompt_event tr -> commands tr = [] /\ listing tr = None.
Proof.
  induction 1 as [| ev tr Hev _ IH]; [repeat split |].
  destruct ev; simpl in Hev; try contradiction; exact IH.
Qed.

Lemma silent_trace (tr : list event) :
  Forall silent_event tr -> commands tr = [] /\ words tr = [].
Proof.
  induction 1 as [| ev tr Hev _ IH]; [repeat split |].
  destruct ev; simpl in Hev; try contradiction; exact IH.
Qed.

Lemma launch_trace (cmd : Cmd) (tr : list event) :
  Forall (launch_event cmd) tr ->
  words tr = [] /\ listing tr = None /\
  forall c, In c (commands tr) -> c = cmd.
Proof.
  induction 1 as [| ev tr Hev _ IH]; [repeat split; intros c [] |].
  destruct ev; simpl in Hev; try contradiction; try exact IH.
  destruct IH as (Hw & Hl & Hc). repeat split; auto.
  intros c' [<- | Hin]; auto.
Qed.

(** A command launched by a composed program whose first part
    launches none: the first part returned, and the second launched
    the command. *)
Lemma launched_after {A B} (p : prog A) (f : A -> prog B) (w : W) (c : Cmd) :
  commands (trace (exec os p w)) = [] ->
  In c (commands (trace (exec os (bind p f) w))) ->
  exists a,
    result (exec os p w) = Returned a /\
    trace (exec os (bind p f) w)
    = trace (exec os p w) ++ trace (exec os (f a) (final (exec os p w))) /\
    In c (commands (trace (exec os (f a) (final (exec os p w))))).
Proof.
  intros Hnone Hc.
  destruct (bind_run os p f w) as [(a & Hres & Heq) | (_ & _ & Heq)];
    rewrite Heq in Hc |- *.
  - exists a. cbn [trace] in *. rewrite commands_app, Hnone in Hc. auto.
  - rewrite Hnone in Hc. destruct Hc.
Qed.

(** The run of [selectJMXFile] when it returns. *)
Lemma selectJMXFile_returns (jmxFiles : list string) (file : string) (w : W) :
  result (exec os (selectJMXFile jmxFiles) w) = Returned file ->
  exists choice index,
    words (trace (exec os (selectJMXFile jmxFiles) w)) = [choice] /\
    Atoi choice = inr index /\ 1 <= index /\
    jmxFiles !! Z.to_nat (index - 1) = Some file.
Proof.
  unfold selectJMXFile, fmt_Print, fmt_Scanln, mbind, prog_bind.
  cbn [bind exec]. destruct (os_scanln os w) as [choice w1].
  pose proof (proj1 (log_print_exit os (A := string)
                ("无效的文件编号输入：" +:+ choice +:+ "，程序退出。")
                "输入无效，退出。" w1)) as Hinvalid.
  unfold mbind, prog_bind in Hinvalid. cbn [after result].
  destruct (Atoi choice) as [err | index] eqn:Hchoice;
    [rewrite Hinvalid; discriminate |].
  destruct (index <? 1) eqn:Hlo; cbn [orb];
    [rewrite Hinvalid; discriminate |].
  destruct (Z.of_nat (length jmxFiles) <? index) eqn:Hhi;
    [rewrite Hinvalid; discriminate |].
  destruct (jmxFiles !! Z.to_nat (index - 1)) as [file' |] eqn:Hfile;
    cbn [exec result]; [| discriminate].
  intros [= ->]. exists choice, index. apply Z.ltb_ge in Hlo.
  repeat split; auto.
Qed.

Lemma runJMeter_launch (jmxFile resultFile reportFolder debugFile : string) :
  always
    (Forall (launch_event
               {| Path := "jmeter";
                  Args := ["jmeter"; "-n"; "-t"; jmxFile; "-l"; resultFile;
                           "-e"; "-o"; reportFolder; "-j"; debugFile];
                  Stdout := Some os_Stdout;
                  Stderr := Some os_Stderr |}))
    (runJMeter jmxFile resultFile reportFolder debugFile).
Proof.
  match goal with
  | |- always (Forall ?Q) _ =>
      assert (Hs : forall t0 t1 err,
                 always (Forall Q)
                        (summarize jmxFile reportFolder t0 t1 err))
        by (intros; apply (summarize_all (Forall_stepwise Q));
            auto with only; intros; exact I);
      unfold runJMeter, jmeter_command, exec_Command;
      only_tac (Forall_stepwise Q)
  end.
Qed.

(** X13: every command [main] launches is [jmeter] on the selected
    test plan: the name at the position typed at the first prompt,
    counting from 1, among the entries of the listing that are no
    directories and end in [.jmx].  The result file, the report
    folder and the debug log of the command are the paths made of the
    second, third and fourth word read, [filepath.Join]ed to [Jtl],
    [Reporter] and [Debug]; a blank word stands for the name made of
    a reading of the clock.  Four words are read in such a run, no
    more. *)
Theorem main_launches_selected (w : W) (c : Cmd) :
  let r := exec os main w in
  In c (commands (trace r)) ->
  exists files choice index file word2 word3 word4 t2 t3 t4,
    listing (trace r) = Some (inr files) /\
    words (trace r) = [choice; word2; word3; word4] /\
    Atoi choice = inr index /\ 1 <= index /\
    map Name (List.filter is_jmx files) !! Z.to_nat (index - 1)
    = Some file /\
    c = {| Path := "jmeter";
           Args := ["jmeter"; "-n"; "-t"; file;
                    "-l"; filepath.Join [jtlDir; result_name word2 t2];
                    "-e";
                    "-o"; filepath.Join [reportDir; folder_name word3 t3];
                    "-j"; filepath.Join [debugDir; debug_name word4 t4]];
           Stdout := Some os_Stdout;
           Stderr := Some os_Stderr |} /\
    (String.eqb (TrimSpace word2) "" = true -> In (EvNow t2) (trace r)) /\
    (String.eqb (TrimSpace word3) "" = true -> In (EvNow t3) (trace r)) /\
    (String.eqb (TrimSpace word4) "" = true -> In (EvNow t4) (trace r)).
Proof.
  intros r Hc. subst r. unfold main, mbind, prog_bind in *.
  (* the three working directories *)
  apply launched_after in Hc as (? & _ & -> & Hc);
    [| apply log_trace_quiet, ensureDir_logs].
  destruct (log_trace_quiet _ (ensureDir_logs reportDir W os w))
    as (_ & _ & Hw1 & _ & _ & Hl1).
  destruct (exec os (ensureDir reportDir) w) as [tr1 res1 w1].
  cbn [trace final] in *.
  apply launched_after in Hc as (? & _ & -> & Hc);
    [| apply log_trace_quiet, ensureDir_logs].
  destruct (log_trace_quiet _ (ensureDir_logs jtlDir W os w1))
    as (_ & _ & Hw2 & _ & _ & Hl2).
  destruct (exec os (ensureDir jtlDir) w1) as [tr2 res2 w2].
  cbn [trace final] in *.
  apply launched_after in Hc as (? & _ & -> & Hc);
    [| apply log_trace_quiet, ensureDir_logs].
  destruct (log_trace_quiet _ (ensureDir_logs debugDir W os w2))
    as (_ & _ & Hw3 & _ & _ & Hl3).
  destruct (exec os (ensureDir debugDir) w2) as [tr3 res3 w3].
  cbn [trace final] in *.
  (* the listing *)
  assert (Hsilent : Forall silent_event (trace (exec os listJMXFiles w3))).
  { apply (listJMXFiles_all (Forall_stepwise silent_event));
      auto with only; intros; exact I. }
  apply silent_trace in Hsilent as [Hc4 Hw4].
  apply launched_after in Hc as (jmxFiles & Hres4 & -> & Hc); [| exact Hc4].
  destruct (listJMXFiles_run os w3) as [Hl4 Hr4].
  destruct (fst (os_readdir os "." w3)) as [err | files];
    [rewrite Hres4 in Hr4; discriminate Hr4 |].
  destruct (map Name (List.filter is_jmx files)) as [| n names] eqn:Hjmx;
    [rewrite Hres4 in Hr4; discriminate Hr4 |].
  destruct Hr4 as (Hr4 & _). rewrite Hres4 in Hr4. injection Hr4 as ->.
  destruct (exec os listJMXFiles w3) as [tr4 res4 w4].
  cbn [trace final] in *. clear Hres4.
  (* the selection *)
  assert (Hprompt : Forall prompt_event
                      (trace (exec os (selectJMXFile (n :: names)) w4))).
  { apply (selectJMXFile_all (Forall_stepwise prompt_event));
      auto with only; intros; exact I. }
  apply prompt_trace in Hprompt as [Hc5 Hl5].
  apply launched_after in Hc as (file & Hres5 & -> & Hc); [| exact Hc5].
  destruct (selectJMXFile_returns _ _ _ Hres5)
    as (choice & index & Hw5 & Hchoice & Hindex & Hfile).
  destruct (exec os (selectJMXFile (n :: names)) w4) as [tr5 res5 w5].
  cbn [trace final] in *. clear Hres5.
  (* the result file *)
  destruct (getResultFilename_run os w5) as (Hres6 & Hw6 & Hc6 & Hl6 & Ht6).
  apply launched_after in Hc as (resultFile & Hr6 & -> & Hc); [| exact Hc6].
  rewrite Hres6 in Hr6. injection Hr6 as <-.
  set (word2 := fst (os_scanln os w5)) in *.
  set (t2 := fst (os_now os (snd (os_scanln os w5)))) in *.
  clearbody word2 t2.
  destruct (exec os getResultFilename w5) as [tr6 res6 w6].
  cbn [trace final] in *. clear Hres6.
  (* the report folder *)
  assert (Hprompt : Forall prompt_event (trace (exec os getReportFolder w6))).
  { apply (getReportFolder_all (Forall_stepwise prompt_event));
      auto with only; intros; exact I. }
  apply prompt_trace in Hprompt as [Hc7 Hl7].
  apply launched_after in Hc as (reportFolder & Hr7 & -> & Hc); [| exact Hc7].
  pose proof (getReportFolder_run os w6) as Hrun7. cbv zeta in Hrun7.
  set (word3 := fst (os_scanln os w6)) in *.
  set (t3 := fst (os_now os (snd (os_scanln os w6)))) in *.
  match type of Hrun7 with
  | context [exec os (ensureDir ?path) ?w'] =>
      destruct (log_trace_quiet _ (ensureDir_logs path W os w'))
        as (_ & _ & Hwd & _ & _ & _);
      destruct (exec os (ensureDir path) w') as [trd resd wd]
  end.
  cbn [trace result] in *.
  destruct resd as [[] | code | msg];
    try (destruct Hrun7 as [Hrun7 _]; rewrite Hrun7 in Hr7;
         discriminate Hr7).
  destruct Hrun7 as [Hres7 Htr7]. rewrite Hres7 in Hr7. injection Hr7 as <-.
  assert (Hw7 : words (trace (exec os getReportFolder w6)) = [word3]).
  { rewrite Htr7. destruct (String.eqb (TrimSpace word3) "");
      observe; rewrite Hwd; reflexivity. }
  assert (Ht7 : String.eqb (TrimSpace word3) "" = true ->
                In (EvNow t3) (trace (exec os getReportFolder w6))).
  { intros Hblank. rewrite Htr7, Hblank. simpl. auto. }
  clearbody word3 t3. clear Htr7 Hres7.
  destruct (exec os getReportFolder w6) as [tr7 res7 w7].
  cbn [trace final] in *.
  (* the debug log *)
  destruct (getRDebugFilename_run os w7) as (Hres8 & Htr8).
  set (word4 := fst (os_scanln os w7)) in *.
  set (t4 := fst (os_now os (snd (os_scanln os w7)))) in *.
  assert (Hw8 : words (trace (exec os getRDebugFilename w7)) = [word4]
                /\ commands (trace (exec os getRDebugFilename w7)) = []
                /\ listing (trace (exec os getRDebugFilename w7)) = None).
  { rewrite Htr8. destruct (String.eqb (TrimSpace word4) ""); auto. }
  destruct Hw8 as (Hw8 & Hc8 & Hl8).
  assert (Ht8 : String.eqb (TrimSpace word4) "" = true ->
                In (EvNow t4) (trace (exec os getRDebugFilename w7))).
  { intros Hblank. rewrite Htr8, Hblank. simpl. auto. }
  apply launched_after in Hc as (debugFile & Hr8 & -> & Hc); [| exact Hc8].
  rewrite Hres8 in Hr8. injection Hr8 as <-.
  clearbody word4 t4. clear Htr8 Hres8.
  destruct (exec os getRDebugFilename w7) as [tr8 res8 w8].
  cbn [trace final] in *.
  (* the test *)
  match type of Hc with
  | context [exec os (runJMeter ?j ?res ?rep ?dbg) w8] =>
      destruct (launch_trace _ _ (runJMeter_launch j res rep dbg W os w8))
        as (Hw9 & Hl9 & Hc9)
  end.
  apply Hc9 in Hc.
  exists files, choice, index, file, word2, word3, word4, t2, t3, t4.
  rewrite !listing_app, Hl1, Hl2, Hl3, Hl4.
  rewrite !words_app, Hw1, Hw2, Hw3, Hw4, Hw5, Hw6, Hw7, Hw8, Hw9.
  rewrite Hjmx. repeat split; auto;
    intros Hblank; rewrite !in_app_iff; auto 12.
Qed.

End Selected.

(* ===================================================================== *)
(** ** What [runJMeter] logs                                              *)
(* ===================================================================== *)

Section Logs.

Context {texts : ErrorText} {xml : XmlQuery}.
Context {W : Type} (os : OS W).

Lemma written_app (a b : list event) :
  written (a ++ b) = written a ++ written b.
Proof. apply omap_app. Qed.

Lemma readings_app (a b : list event) :
  readings (a ++ b) = readings a ++ readings b.
Proof. apply omap_app. Qed.

Lemma logger_output_app (a b : list event) :
  logger_output (a ++ b) = logger_output a ++ logger_output b.
Proof. apply omap_app. Qed.

(** A composed program that returns without a word from the logger:
    so did its parts. *)
Lemma good_bind {A B} (p : prog A) (f : A -> prog B) (w : W) (b : B) :
  result (exec os (bind p f) w) = Returned b ->
  logger_output (trace (exec os (bind p f) w)) = [] ->
  exists a,
    result (exec os p w) = Returned a /\
    logger_output (trace (exec os p w)) = [] /\
    result (exec os (f a) (final (exec os p w))) = Returned b /\
    logger_output (trace (exec os (f a) (final (exec os p w)))) = [] /\
    trace (exec os (bind p f) w)
    = trace (exec os p w) ++ trace (exec os (f a) (final (exec os p w))).
Proof.
  intros Hres Hquiet.
  destruct (bind_run os p f w) as [(a & Ha & Heq) | (_ & Hnot & _)];
    [| destruct (Hnot b Hres)].
  rewrite Heq in Hres, Hquiet |- *. cbn [trace result] in *.
  rewrite logger_output_app in Hquiet.
  apply app_eq_nil in Hquiet as [Hq1 Hq2]. exists a. auto.
Qed.

(** [writeLog] when nothing fails: one reading of the clock, one line
    written. *)
Lemma writeLog_good (msg : string) (w : W) :
  result (exec os (writeLog msg) w) = Returned tt ->
  logger_output (trace (exec os (writeLog msg) w)) = [] ->
  exists t,
    readings (trace (exec os (writeLog msg) w)) = [t] /\
    written (trace (exec os (writeLog msg) w)) = [log_line t msg].
Proof.
  remember (exec os (writeLog msg) w) as r eqn:Hr.
  unfold writeLog, ensureDir in Hr. simpl in Hr.
  run_cases Hr; subst r; simpl; intros Hres Hquiet;
    try discriminate Hres; try discriminate Hquiet; eexists; split;
    reflexivity.
Qed.

Lemma log_all_good (msgs : list string) (w : W) :
  result (exec os (log_all msgs) w) = Returned tt ->
  logger_output (trace (exec os (log_all msgs) w)) = [] ->
  exists times,
    length times = length msgs /\
    readings (trace (exec os (log_all msgs) w)) = times /\
    written (trace (exec os (log_all msgs) w)) = zip_with log_line times msgs.
Proof.
  revert w; induction msgs as [| msg rest IH]; intros w.
  - intros _ _. exists []. auto.
  - destruct rest as [| msg' rest].
    + cbn [log_all]. intros Hres Hquiet.
      destruct (writeLog_good msg w Hres Hquiet) as (t & -> & ->).
      exists [t]. auto.
    + change (log_all (msg :: msg' :: rest))
        with (bind (writeLog msg) (fun _ => log_all (msg' :: rest))).
      intros Hres Hquiet.
      destruct (good_bind _ _ _ _ Hres Hquiet)
        as ([] & Hr1 & Hq1 & Hr2 & Hq2 & ->).
      destruct (writeLog_good msg w Hr1 Hq1) as (t & Ht & Hw).
      destruct (IH _ Hr2 Hq2) as (times & Hlen & Hts & Hws).
      exists (t :: times). rewrite readings_app, written_app, Ht, Hw, Hts, Hws.
      simpl. auto.
Qed.

(** [parseThreadCount]: the read, then the messages and the count
    the read gives. *)
Lemma parseThreadCount_report (jmxFile : string) (w : W) :
  let read := fst (os_readfile os jmxFile w) in
  exec os (parseThreadCount jmxFile) w
  = after (EvReadFile jmxFile read)
          (exec os (bind (log_all (fst (thread_report read)))
                         (fun _ => Ret (snd (thread_report read))))
                (snd (os_readfile os jmxFile w))).
Proof.
  unfold parseThreadCount, ioutil_ReadFile, thread_report, mbind, prog_bind.
  cbn [bind exec]. destruct (os_readfile os jmxFile w) as [[err | data] w1];
    cbn [fst snd]; [reflexivity |].
  destruct (xmlquery_Parse data) as [err | doc]; [reflexivity |].
  destruct (xmlquery_FindOne doc thread_count_query) as [node |];
    [| reflexivity].
  destruct (Atoi (InnerText node)); reflexivity.
Qed.

(** [parseStatistics]: the read, and the map of what it gives. *)
Lemma parseStatistics_report (reportFolder : string) (w : W) :
  let statFile := filepath.Join [reportFolder; "statistics.json"] in
  let read := fst (os_readfile os statFile w) in
  exec os (parseStatistics reportFolder) w
  = mkRun [EvReadFile statFile read]
          (Returned match statistics_of read with
                    | inl e => inl e
                    | inr stats => inr (stats_map stats)
                    end)
          (snd (os_readfile os statFile w)).
Proof.
  unfold parseStatistics, ioutil_ReadFile, statistics_of, mbind, prog_bind.
  cbn [bind exec]. destruct (os_readfile os _ w) as [[err | data] w1];
    cbn [fst snd]; [reflexivity |].
  destruct (Unmarshal.Unmarshal data); reflexivity.
Qed.

(** [runJMeter] from the return of the command on, when nothing
    fails. *)
Lemma summarize_logs (jmxFile reportFolder : string) (t0 t1 : Time)
      (err : option error) (w : W) :
  let r := exec os (summarize jmxFile reportFolder t0 t1 err) w in
  let duration := time.Seconds (time.Sub t1 t0) in
  result r = Returned tt -> logger_output (trace r) = [] ->
  exists plan statistics times,
    let msgs :=
      match err with
      | Some e =>
          ["命令执行失败，耗时 " +:+ format_f2 duration +:+ " 秒。错误: "
           +:+ Error e]
      | None =>
          ["命令执行成功，耗时 " +:+ format_f2 duration +:+ " 秒。"] ++
          fst (thread_report plan) ++
          stats_report (snd (thread_report plan)) (statistics_of statistics)
      end in
    length times = length msgs /\
    readings (trace r) = times /\
    written (trace r) = zip_with log_line times msgs /\
    (err = None ->
     In (EvReadFile jmxFile plan) (trace r) /\
     In (EvReadFile (filepath.Join [reportFolder; "statistics.json"])
                    statistics) (trace r)).
Proof.
  intros r duration. subst r duration.
  unfold summarize, fmt_Println, mbind, prog_bind. destruct err as [e |].
  - intros Hres Hquiet.
    destruct (good_bind _ _ _ _ Hres Hquiet)
      as ([] & Hr1 & Hq1 & _ & _ & ->).
    destruct (writeLog_good _ w Hr1 Hq1) as (t & Ht & Hw).
    exists (inl e), (inl e), [t]. cbv zeta.
    rewrite readings_app, written_app, Ht, Hw.
    split; [reflexivity | split; [reflexivity | split; [reflexivity |]]].
    intros Hnone. discriminate Hnone.
  - intros Hres Hquiet.
    destruct (good_bind _ _ _ _ Hres Hquiet)
      as ([] & Hr1 & Hq1 & Hres2 & Hquiet2 & ->).
    destruct (writeLog_good _ w Hr1 Hq1) as (t & Ht & Hw).
    clear Hres Hquiet Hr1 Hq1.
    destruct (exec os (writeLog _) w) as [tr1 res1 w1].
    cbn [trace final] in *.
    destruct (good_bind _ _ _ _ Hres2 Hquiet2)
      as (count & Hr2 & Hq2 & Hres3 & Hquiet3 & ->).
    clear Hres2 Hquiet2.
    rewrite parseThreadCount_report in Hr2, Hq2, Hres3, Hquiet3 |- *.
    set (plan := fst (os_readfile os jmxFile w1)) in *. clearbody plan.
    cbn [after result trace final] in Hr2, Hq2, Hres3, Hquiet3 |- *.
    change (logger_output (EvReadFile jmxFile plan :: ?l))
      with (logger_output l) in Hq2.
    destruct (good_bind _ _ _ _ Hr2 Hq2)
      as ([] & Hr2a & Hq2a & Hcount & _ & Htr2).
    cbn [exec result] in Hcount. injection Hcount as <-.
    destruct (log_all_good _ _ Hr2a Hq2a) as (times2 & Hlen2 & Ht2 & Hw2).
    cbn [exec trace] in Htr2. rewrite app_nil_r in Htr2.
    rewrite <- Htr2 in Ht2, Hw2. clear Hr2 Hq2 Hr2a Hq2a Htr2.
    destruct (exec os (bind (log_all _) _) _) as [tr2 res2 w2].
    cbn [trace final] in *.
    rewrite exec_bind, parseStatistics_report in Hres3, Hquiet3 |- *.
    unfold then_run in *. cbn [result trace final] in *.
    set (statistics := fst (os_readfile os _ w2)) in *. clearbody statistics.
    rewrite logger_output_app in Hquiet3.
    change (logger_output [EvReadFile ?n ?r]) with (@nil string) in Hquiet3.
    cbn [app] in Hquiet3.
    match type of Hres3 with
    | result (exec os ?p ?w3) = _ =>
        assert (Hrest : p = log_all (stats_report (snd (thread_report plan))
                                       (statistics_of statistics)))
          by (destruct (statistics_of statistics); reflexivity);
        rewrite Hrest in Hres3, Hquiet3 |- *
    end.
    destruct (log_all_good _ _ Hres3 Hquiet3) as (times3 & Hlen3 & Ht3 & Hw3).
    exists plan, statistics, (t :: times2 ++ times3). cbv zeta.
    rewrite !readings_app, !written_app, Ht, Hw, Ht3, Hw3.
    change (readings (EvReadFile ?n ?r :: ?l)) with (readings l).
    change (written (EvReadFile ?n ?r :: ?l)) with (written l).
    change (readings [EvReadFile ?n ?r]) with (@nil Time).
    change (written [EvReadFile ?n ?r]) with (@nil string).
    rewrite Ht2, Hw2. cbn [app zip_with].
    rewrite zip_with_app by exact Hlen2.
    split; [| split; [reflexivity | split; [reflexivity |]]].
    + cbn [length]. rewrite !length_app. lia.
    + intros _. split; apply in_or_app; right.
      * left. reflexivity.
      * right. apply in_or_app. right. left. reflexivity.
Qed.

Lemma written_cons (ev : event) (tr : list event) :
  written (ev :: tr)
  = match ev with
    | EvWriteString _ s _ => s :: written tr
    | _ => written tr
    end.
Proof. destruct ev; reflexivity. Qed.

Lemma readings_cons (ev : event) (tr : list event) :
  readings (ev :: tr)
  = match ev with
    | EvNow t => t :: readings tr
    | _ => readings tr
    end.
Proof. destruct ev; reflexivity. Qed.

Lemma logger_output_cons (ev : event) (tr : list event) :
  logger_output (ev :: tr)
  = match ev with
    | EvLogOutput s => s :: logger_output tr
    | _ => logger_output tr
    end.
Proof. destruct ev; reflexivity. Qed.

Ltac observe_log :=
  repeat (first [rewrite written_cons | rewrite written_app
                | rewrite readings_cons | rewrite readings_app];
          cbv beta iota).

(** X14: what [runJMeter] writes to the log when it returns and
    nothing failed on the way (the logger wrote nothing).  Each line
    is [[time] message] with the time read for it, and the messages
    are: the heading, the command line, and then, after a command
    that failed, the failure with the seconds it took and the error;
    after a command that succeeded, the success with the seconds it
    took, the complaint of [parseThreadCount] if it has one, and the
    statistics: the thread count, the error rate, the throughput and
    the mean response time with two decimals, the numbers of samples
    and of errors, between two rules; or the error of
    [parseStatistics] instead.  The seconds are those between the two
    readings of the clock around the command. *)
Theorem runJMeter_logs (jmxFile resultFile reportFolder debugFile : string)
        (w : W) :
  let r := exec os (runJMeter jmxFile resultFile reportFolder debugFile) w in
  result r = Returned tt -> logger_output (trace r) = [] ->
  exists t0 t1 err plan statistics times,
    let msgs :=
      run_report jmxFile resultFile reportFolder debugFile t0 t1 err
                 plan statistics in
    length times = length msgs /\
    written (trace r) = zip_with log_line times msgs /\
    readings (trace r) = t0 :: firstn 2 times ++ t1 :: skipn 2 times /\
    In (EvRun {| Path := "jmeter";
                 Args := ["jmeter"; "-n"; "-t"; jmxFile; "-l"; resultFile;
                          "-e"; "-o"; reportFolder; "-j"; debugFile];
                 Stdout := Some os_Stdout;
                 Stderr := Some os_Stderr |} err) (trace r) /\
    (err = None ->
     In (EvReadFile jmxFile plan) (trace r) /\
     In (EvReadFile (filepath.Join [reportFolder; "statistics.json"])
                    statistics) (trace r)).
Proof.
  intros r. subst r.
  unfold runJMeter, jmeter_command, exec_Command, time_Now, cmd_Run,
    fmt_Println, mbind, prog_bind.
  cbn [bind exec Path Args]. destruct (os_now os w) as [t0 w0].
  cbn [after result trace]. rewrite logger_output_cons.
  intros Hres Hquiet.
  destruct (good_bind _ _ _ _ Hres Hquiet)
    as ([] & Hr1 & Hq1 & Hres2 & Hquiet2 & ->).
  destruct (writeLog_good _ _ Hr1 Hq1) as (ta & Hta & Hwa).
  clear Hres Hquiet Hr1 Hq1.
  destruct (exec os (writeLog _) w0) as [tr1 res1 w1].
  cbn [trace final] in *.
  destruct (good_bind _ _ _ _ Hres2 Hquiet2)
    as ([] & Hr2 & Hq2 & Hres3 & Hquiet3 & ->).
  destruct (writeLog_good _ _ Hr2 Hq2) as (tb & Htb & Hwb).
  clear Hres2 Hquiet2 Hr2 Hq2.
  destruct (exec os (writeLog _) w1) as [tr2 res2 w2].
  cbn [trace final] in *.
  cbn [exec] in Hres3, Hquiet3 |- *.
  destruct (os_run os _ w2) as [err w3]. destruct (os_now os w3) as [t1 w4].
  cbn [after result trace] in Hres3, Hquiet3 |- *.
  rewrite !logger_output_cons in Hquiet3.
  destruct (summarize_logs _ _ _ _ _ _ Hres3 Hquiet3)
    as (plan & statistics & times & Hlen & Hts & Hws & Hreads).
  cbv zeta in Hlen, Hws.
  clear Hres3 Hquiet3.
  destruct (exec os (summarize _ _ _ _ _) w4) as [tr3 res3 w5].
  cbn [trace] in *.
  exists t0, t1, err, plan, statistics, (ta :: tb :: times).
  unfold run_report. cbv zeta.
  observe_log. rewrite Hta, Hwa, Htb, Hwb, Hts, Hws.
  cbn [app zip_with length firstn skipn].
  split; [rewrite Hlen; reflexivity |].
  split; [reflexivity |]. split; [reflexivity |].
  split.
  - right. apply in_or_app. right. apply in_or_app. right.
    right. left. reflexivity.
  - intros Hnone. destruct (Hreads Hnone) as [Hp Hs].
    split; right; apply in_or_app; right; apply in_or_app; right;
      right; right; right; assumption.
Qed.

End Logs.

(* ===================================================================== *)
(** ** One launch                                                         *)
(* ===================================================================== *)

Section Once.

Context {texts : ErrorText} {xml : XmlQuery}.
Context {W : Type} (os : OS W).

(** After a part that launches nothing, the launches are those of the
    rest. *)
Lemma once_after {A} (p : prog A) (f : A -> prog unit) (w : W) :
  commands (trace (exec os p w)) = [] ->
  (forall a w',
      (length (commands (trace (exec os (f a) w'))) <= 1)%nat /\
      (result (exec os (f a) w') = Returned tt ->
       length (commands (trace (exec os (f a) w'))) = 1%nat)) ->
  (length (commands (trace (exec os (bind p f) w))) <= 1)%nat /\
  (result (exec os (bind p f) w) = Returned tt ->
   length (commands (trace (exec os (bind p f) w))) = 1%nat).
Proof.
  intros Hnone Hrest.
  destruct (bind_run os p f w) as [(a & _ & ->) | (_ & Hnot & ->)].
  - cbn [trace result]. rewrite commands_app, Hnone. apply Hrest.
  - rewrite Hnone. split; [simpl; lia |]. intros Hres.
    destruct (Hnot tt Hres).
Qed.

Lemma runJMeter_once (jmxFile resultFile reportFolder debugFile : string)
      (w : W) :
  let r := exec os (runJMeter jmxFile resultFile reportFolder debugFile) w in
  (length (commands (trace r)) <= 1)%nat /\
  (result r = Returned tt -> length (commands (trace r)) = 1%nat).
Proof.
  intros r. subst r.
  unfold runJMeter, time_Now, cmd_Run, fmt_Println, mbind, prog_bind.
  cbn [bind exec]. destruct (os_now os w) as [t0 w0].
  cbn [after trace result]. rewrite commands_cons. cbv beta iota.
  apply once_after; [apply writeLog_quiet |]. intros _ w1.
  apply once_after; [apply writeLog_quiet |]. intros _ w2.
  cbn [exec]. destruct (os_run os _ w2) as [err w3].
  destruct (os_now os w3) as [t1 w4]. cbn [after trace result].
  rewrite !commands_cons. cbv beta iota.
  destruct (tame_sound false _
              (tame_summarize false jmxFile reportFolder t0 t1 err) W os w4)
    as (_ & Hnone & _).
  rewrite (Hnone eq_refl). split; [simpl; lia | reflexivity].
Qed.

(** X15: [main] launches at most one command, and when [main]
    returns, so that the exit status is 0, it has launched exactly
    one. *)
Theorem main_launches_once (w : W) :
  let r := exec os main w in
  (length (commands (trace r)) <= 1)%nat /\
  (result r = Returned tt -> length (commands (trace r)) = 1%nat).
Proof.
  intros r. subst r. unfold main, mbind, prog_bind.
  do 3 (apply once_after;
        [apply log_trace_quiet, ensureDir_logs | intros _ ?w]).
  apply once_after.
  { apply silent_trace.
    apply (listJMXFiles_all (Forall_stepwise silent_event));
      auto with only; intros; exact I. }
  intros jmxFiles ?w. apply once_after.
  { apply prompt_trace.
    apply (selectJMXFile_all (Forall_stepwise prompt_event));
      auto with only; intros; exact I. }
  intros jmxFile ?w. apply once_after.
  { apply (getResultFilename_run os). }
  intros resultFile ?w. apply once_after.
  { apply prompt_trace.
    apply (getReportFolder_all (Forall_stepwise prompt_event));
      auto with only; intros; exact I. }
  intros reportFolder ?w. apply once_after.
  { apply prompt_trace.
    apply (getRDebugFilename_all (Forall_stepwise prompt_event));
      auto with only; intros; exact I. }
  intros debugFile ?w. apply runJMeter_once.
Qed.

End Once.

(* ===================================================================== *)
(** ** Runs in the example worlds                                         *)
(* ===================================================================== *)

Module Runs.

Import Posix XmlTree Examples.

(** C2 fails as stated: when the log directory cannot be created,
    [writeLog] does not return, the process exits with status 1. *)
Lemma writeLog_aborts :
  result (exec os (writeLog "hello") locked) = Exited 1.
Proof. vm_compute. reflexivity. Qed.

(** C5 fails as stated: a name that climbs out with [..] gives a path
    that is not under [Jtl]. *)
Lemma result_outside_Jtl :
  result (exec os getResultFilename (typed "../x")) = Returned "x.jtl".
Proof. vm_compute. reflexivity. Qed.

(** The word [run7] gives [Jtl/run7.jtl]; an empty line at noon of
    9 March 2024 gives the default name. *)
Lemma getResultFilename_paths_witness :
  result (exec os getResultFilename (typed "run7")) = Returned "Jtl/run7.jtl"
  /\ result (exec os getResultFilename (typed "")) =
       Returned "Jtl/result_20240309_120000.jtl".
Proof.
  split.
  - exact (proj2 (getResultFilename_paths os (typed "run7")) eq_refl).
  - exact (proj1 (getResultFilename_paths os (typed ""))).
Defined.

(** C7 fails as stated: the text is the decimal integer 2^63, and the
    extractor returns 0. *)
Lemma thread_count_out_of_range :
  decimal "9223372036854775808" = Some 9223372036854775808 /\
  result (exec os (parseThreadCount (xml := reads "9223372036854775808")
                     "plan.jmx")
            (holding "9223372036854775808")) = Returned 0.
Proof. split; vm_compute; reflexivity. Qed.

(** The text 7 gives the thread count 7. *)
Lemma parseThreadCount_reads_witness :
  result (exec os (parseThreadCount (xml := reads "7") "plan.jmx")
            (holding "7")) = Returned 7.
Proof.
  refine (proj1 (proj1 (parseThreadCount_reads (xml := reads "7") os
                          "plan.jmx" (holding "7")) 7 eq_refl _)).
  vm_compute. split; discriminate.
Defined.

(** C1 fails as stated: the map has no entry under [errorCount]; the
    value is under [Errorcount]. *)
Lemma no_errorCount_key :
  result (exec os (parseStatistics "Reporter/run") (report summary))
  = Returned (inr (stats_map summary_stats)) /\
  stats_map summary_stats !! "errorCount" = None /\
  stats_map summary_stats !! "Errorcount" = Some (VInt 2).
Proof. split; [vm_compute; reflexivity | split; reflexivity]. Qed.

(** The example of the specification: the five values, the last one
    under [Errorcount]. *)
Lemma parseStatistics_reads_witness :
  exists (n1 : Z) (x2 x3 x4 : float64) (n5 : Z),
    ParseInt "100" = inr n1 /\ ParseFloat "2.5" = inr x2 /\
    ParseFloat "123.4" = inr x3 /\ ParseFloat "50.0" = inr x4 /\
    ParseInt "2" = inr n5 /\
    result (exec os (parseStatistics "Reporter/run") (report summary))
    = Returned
        (inr (<["sampleCount" := VInt n1]>
             (<["errorPct" := VFloat x2]>
             (<["meanResTime" := VFloat x3]>
             (<["throughput" := VFloat x4]>
             (<["Errorcount" := VInt n5]> ∅)))))).
Proof.
  exact (parseStatistics_reads os "Reporter/run" (report summary)
           "100" "2.5" "123.4" "50.0" "2"
           eq_refl eq_refl eq_refl eq_refl eq_refl eq_refl).
Defined.

(** C10 fails as stated: a JSON text that lacks four of the five
    fields, and [parseStatistics] returns an error. *)
Lemma valid_json_with_error :
  Json.parse fraction
  = Some (JObject [("Total", JObject [("sampleCount", JNumber "1.5")])]) /\
  result (exec os (parseStatistics "Reporter/run") (report fraction))
  = Returned (inl (UnmarshalTypeError "number 1.5" "Total.sampleCount")).
Proof. split; vm_compute; reflexivity. Qed.

(** A summary with no [Total] at all decodes to zeros. *)
Lemma parseStatistics_absent_fields_witness :
  result (exec os (parseStatistics "Reporter/run") (report "{}"))
  = Returned (inr (stats_map Unmarshal.zero_stats)).
Proof.
  exact (proj1 (parseStatistics_absent_fields os "Reporter/run" (report "{}"))).
Defined.

(** C3 fails as stated: the listing succeeds and holds a test plan, the
    operator selects it, and the process exits with status 1, because
    the report folder cannot be created. *)
Lemma exit_after_valid_selection :
  let r := exec os (main (xml := reads "7"))
                (session {["Reporter/run1"]} idle) in
  exit_status (result r) = 1 /\
  listing (trace r)
  = Some (inr [mkFileInfo "Debug" true; mkFileInfo "Jtl" true;
               mkFileInfo "Reporter" true; mkFileInfo "plan.jmx" false]) /\
  first_word (trace r) = Some "1" /\
  valid_choice ["plan.jmx"] "1" = true.
Proof. vm_compute. repeat split. Qed.

(** A run in which [jmeter] cannot be launched ends with status 0. *)
Lemma main_exit_status_witness :
  exit_status (result (exec os (main (xml := reads "7")) (session ∅ missing)))
  = 0.
Proof.
  destruct (main_exit_status (xml := reads "7") os (session ∅ missing))
    as [(_ & H & _) | (_ & _ & H)]; [exact H |].
  vm_compute in H. discriminate H.
Defined.

End Runs.

(* ===================================================================== *)
(** ** More runs in the example worlds                                    *)
(* ===================================================================== *)

Module Sessions.

Import Posix XmlTree Examples.

(** At noon of 9 March 2024 the stamp is [20240309_120000]. *)
Lemma getTimestamp_shape_witness :
  result (exec os getTimestamp (at_time noon)) = Returned "20240309_120000".
Proof.
  refine (proj1 (getTimestamp_shape os (at_time noon) _)).
  unfold time.valid. simpl. lia.
Defined.

(** Two readings within the same second give the same stamp, and
    agree to the second. *)
Lemma getTimestamp_distinct_witness :
  year noon = year later /\ month noon = month later /\
  day noon = day later /\ hour noon = hour later /\
  minute noon = minute later /\ second noon = second later.
Proof.
  refine (getTimestamp_distinct os (at_time noon) (at_time later) _ _ eq_refl);
    unfold time.valid; simpl; lia.
Defined.

(** The session's directory holds one test plan, printed as number
    1. *)
Lemma listJMXFiles_prints_witness :
  printed (trace (exec os listJMXFiles (session ∅ idle)))
  = ["可用的 .jmx 文件：" +:+ nl; "1. plan.jmx" +:+ nl].
Proof.
  destruct (listJMXFiles_prints os
              [mkFileInfo "Debug" true; mkFileInfo "Jtl" true;
               mkFileInfo "Reporter" true; mkFileInfo "plan.jmx" false]
              (session ∅ idle)) as (_ & -> & _).
  - vm_compute. reflexivity.
  - vm_compute. discriminate.
  - reflexivity.
Defined.

(** Typing 2 selects the second of two plans. *)
Lemma selectJMXFile_picks_numbered_witness :
  result (exec os (selectJMXFile ["a.jmx"; "b.jmx"]) (typed "2"))
  = Returned "b.jmx".
Proof.
  refine (selectJMXFile_picks_numbered os ["a.jmx"; "b.jmx"] 1 "b.jmx"
            (typed "2") _ eq_refl eq_refl).
  vm_compute. discriminate.
Defined.

(** The session launches [jmeter] on [plan.jmx] with the outputs the
    operator named. *)
Lemma main_launches_selected_witness :
  let r := exec os (main (xml := reads "7")) (session ∅ idle) in
  exists files choice index file word2 word3 word4 t2 t3 t4,
    listing (trace r) = Some (inr files) /\
    words (trace r) = [choice; word2; word3; word4] /\
    Atoi choice = inr index /\ 1 <= index /\
    map Name (List.filter is_jmx files) !! Z.to_nat (index - 1)
    = Some file /\
    launched
    = {| Path := "jmeter";
         Args := ["jmeter"; "-n"; "-t"; file;
                  "-l"; filepath.Join [jtlDir; result_name word2 t2];
                  "-e";
                  "-o"; filepath.Join [reportDir; folder_name word3 t3];
                  "-j"; filepath.Join [debugDir; debug_name word4 t4]];
         Stdout := Some os_Stdout;
         Stderr := Some os_Stderr |} /\
    (String.eqb (TrimSpace word2) "" = true -> In (EvNow t2) (trace r)) /\
    (String.eqb (TrimSpace word3) "" = true -> In (EvNow t3) (trace r)) /\
    (String.eqb (TrimSpace word4) "" = true -> In (EvNow t4) (trace r)).
Proof.
  apply (main_launches_selected (xml := reads "7") os (session ∅ idle)
           launched).
  vm_compute. left. reflexivity.
Defined.

(** After a test that went well the log gets the heading, the command
    line, the success and the eight lines of statistics. *)
Lemma runJMeter_logs_witness :
  let r := exec os (runJMeter (xml := reads "7") "plan.jmx" "Jtl/out.jtl"
                              "Reporter/run1" "Debug/trace.log") finished in
  exists t0 t1 err plan statistics times,
    let msgs :=
      run_report (xml := reads "7") "plan.jmx" "Jtl/out.jtl" "Reporter/run1"
                 "Debug/trace.log" t0 t1 err plan statistics in
    length times = length msgs /\
    written (trace r) = zip_with log_line times msgs /\
    readings (trace r) = t0 :: firstn 2 times ++ t1 :: skipn 2 times /\
    In (EvRun launched err) (trace r) /\
    (err = None ->
     In (EvReadFile "plan.jmx" plan) (trace r) /\
     In (EvReadFile (filepath.Join ["Reporter/run1"; "statistics.json"])
                    statistics) (trace r)).
Proof.
  apply (runJMeter_logs (xml := reads "7") os "plan.jmx" "Jtl/out.jtl"
           "Reporter/run1" "Debug/trace.log" finished);
    vm_compute; reflexivity.
Defined.

End Sessions.
